(** * serverless-esbuild: bundling, the Bun packager and the zip engine

    A shallow embedding of [bundle] (src/bundle.ts), of the Bun packager
    ([getProdDependencies], [install]) and of [nodeZip], the
    direct-streaming zip engine of the utilities, with the properties of
    the specification stated over it.

    JavaScript values are a small inductive type.  An object value is
    the list of its own properties in property order, since the sources
    enumerate such objects ([Object.keys], [Object.entries]); the record
    of build options and the configuration handed to the compiler, which
    the sources only read and write by name, are finite maps from names
    to values.  Prototypes, and with them the special property name
    [__proto__], are outside the model.  The effects of the code (calls
    of the external compiler, spawned processes, files written) are
    recorded in explicit traces. *)

From Stdlib Require Import Ascii String ZArith.
From stdpp Require Import gmap strings list fin_maps pretty.

Set Warnings "-register-all".
Open Scope string_scope.

(** ** JavaScript values and the built-ins the sources call *)

Module JS.

(** Numbers occur in the options only as counts and as [Infinity]
    (the [concurrency] option). *)
Inductive JSNumber :=
  | Int (z : Z)
  | Infinity.

Inductive JSValue :=
  | JUndefined
  | JNull
  | JBool (b : bool)
  | JNum (n : JSNumber)
  | JStr (s : string)
  | JArr (l : list JSValue)
  | JObj (fields : list (string * JSValue)).

(** An object seen as a record of options. *)
Abbreviation JSObject := (gmap string JSValue).

(** The own properties of an object value by name.  [fields] lists them
    in property order, the order in which [Object.keys] and
    [Object.entries] enumerate them: names that are array indices first,
    in ascending order, then the other names in the order in which they
    were added; each name is listed once (were a name listed again, its
    last value would be the one read). *)
Definition own (fields : list (string * JSValue)) : JSObject :=
  foldl (fun o '(name, value) => <[name := value]> o) ∅ fields.

(** What a rejected promise or a [throw] carries. *)
Inductive Exn :=
  | AssertionError (message : string)
  | ServerlessError (message : string)
  | TypeError (message : string)
  | Rejected (reason : JSValue).

(** [o[k]], and [o?.[k]] on a defined object: a missing property reads
    as [undefined]. *)
Definition prop (o : JSObject) (k : string) : JSValue :=
  default JUndefined (o !! k).

(** [v.k] on an arbitrary value, for a name [k] that is no built-in
    property ([metafile], [dependencies]): reading a property of
    [undefined] or [null] throws, primitives and arrays have none. *)
Definition get_prop (v : JSValue) (k : string) : Exn + JSValue :=
  match v with
  | JUndefined =>
      inl (TypeError ("Cannot read properties of undefined (reading '" ++ k ++ "')"))
  | JNull =>
      inl (TypeError ("Cannot read properties of null (reading '" ++ k ++ "')"))
  | JObj fields => inr (prop (own fields) k)
  | _ => inr JUndefined
  end.

(** [typeof v === 'string'] *)
Definition isString (v : JSValue) : bool :=
  match v with JStr _ => true | _ => false end.

(** [v === null] *)
Definition is_null (v : JSValue) : bool :=
  match v with JNull => true | _ => false end.

(** [v === s] for a string literal [s]. *)
Definition strict_eq_str (v : JSValue) (s : string) : bool :=
  match v with JStr s' => bool_decide (s' = s) | _ => false end.

(** ToBoolean *)
Definition truthy (v : JSValue) : bool :=
  match v with
  | JUndefined | JNull | JBool false | JNum (Int 0) | JStr EmptyString => false
  | _ => true
  end.

(** ToString, as applied by [+] to the right operand of a string. *)
Fixpoint ToString (v : JSValue) : string :=
  match v with
  | JUndefined => "undefined"
  | JNull => "null"
  | JBool true => "true"
  | JBool false => "false"
  | JNum (Int z) => pretty z
  | JNum Infinity => "Infinity"
  | JStr s => s
  | JArr l =>
      String.concat ","
        (List.map (fun x => match x with
                            | JUndefined | JNull => EmptyString
                            | _ => ToString x
                            end) l)
  | JObj _ => "[object Object]"
  end.

(** The strings among the elements of an array: [filter(isString)]. *)
Fixpoint strings_of (l : list JSValue) : list string :=
  match l with
  | [] => []
  | JStr s :: r => s :: strings_of r
  | _ :: r => strings_of r
  end.

(** [Object.keys] of an object: the names of its properties, in
    property order. *)
Definition keys (fields : list (string * JSValue)) : list string := fields.*1.

(** The keys of an array or of a string of length [n]: its indices. *)
Definition indices (n : nat) : list string := pretty <$> seq 0 n.

(** [Object.entries(v)]: the own enumerable properties of an object, the
    indexed elements of an array, the indexed characters of a string,
    nothing for a number or a boolean; [undefined] and [null] throw. *)
Definition entries (v : JSValue) : Exn + list (string * JSValue) :=
  match v with
  | JUndefined | JNull =>
      inl (TypeError "Cannot convert undefined or null to object")
  | JObj fields => inr fields
  | JArr l => inr (zip (indices (length l)) l)
  | JStr s =>
      inr (zip (indices (String.length s))
             ((fun c => JStr (String c EmptyString)) <$> list_ascii_of_string s))
  | _ => inr []
  end.

(** The double quote character, for messages that quote a word. *)
Definition dq : string := String "034"%char EmptyString.

(** [arr.includes(s)] on an array of strings. *)
Definition includes (arr : list string) (s : string) : bool :=
  bool_decide (s ∈ arr).

(** [s.lastIndexOf(c)] for a one-character search string: the index of
    the last occurrence, [-1] when there is none. *)
Fixpoint lastIndexOf (s : string) (c : ascii) : Z :=
  match s with
  | EmptyString => (-1)%Z
  | String a s' =>
      let r := lastIndexOf s' c in
      if (0 <=? r)%Z then (r + 1)%Z
      else if bool_decide (a = c) then 0%Z else (-1)%Z
  end.

(** An index argument of [slice]: negative indices count from the end,
    everything is clamped to [0 .. length]. *)
Definition clamp_index (len i : Z) : Z :=
  if (i <? 0)%Z then Z.max (len + i) 0 else Z.min i len.

(** [s.slice(b, e)] *)
Definition slice (s : string) (b e : Z) : string :=
  let len := Z.of_nat (String.length s) in
  let from := clamp_index len b in
  let to := clamp_index len e in
  substring (Z.to_nat from) (Z.to_nat (Z.max (to - from) 0)) s.

(** ramda's [uniq] on strings: the elements in order of first
    occurrence, each once; [seen] is the set of those already kept. *)
Fixpoint uniq_from (seen : gset string) (l : list string) : list string :=
  match l with
  | [] => []
  | x :: r =>
      if bool_decide (x ∈ seen) then uniq_from seen r
      else x :: uniq_from ({[x]} ∪ seen) r
  end.

Definition uniq (l : list string) : list string := uniq_from ∅ l.

End JS.

Import JS.

(** ** Traces of effects *)

Module Trace.

(** What [bundle] does to the outside world, in order: the call of
    [this.prepare()], each call of [pkg.build], and the writing of
    [meta.json], the metafile serialized, into the build directory.
    [prepare] and the file system are collaborators outside the sources;
    they are taken to return. *)
Inductive Event :=
  | EvPrepare
  | EvBuild (options : JSObject)
  | EvWriteMetafile (dir : JSValue) (metafile : JSValue).

(** How a call of the external compiler ends: with its result, or
    rejected with a reason. *)
Inductive BuildOutcome :=
  | BuildOk (result : JSValue)
  | BuildFailed (reason : JSValue).

Definition outcome (o : BuildOutcome) : Exn + JSValue :=
  match o with
  | BuildOk result => inr result
  | BuildFailed reason => inl (Rejected reason)
  end.

(** A computation that leaves a trace and returns or throws. *)
Definition M (A : Type) : Type := list Event * (Exn + A).

Definition ret {A} (a : A) : M A := ([], inr a).

Definition throw {A} (e : Exn) : M A := ([], inl e).

Definition emit (ev : Event) : M unit := ([ev], inr tt).

Definition lift {A} (r : Exn + A) : M A := ([], r).

Definition bind {A B} (m : M A) (f : A → M B) : M B :=
  match m with
  | (t, inl e) => (t, inl e)
  | (t, inr a) => let '(t', r) := f a in ((t ++ t')%list, r)
  end.

(** The compiler invocations of a trace, in order. *)
Fixpoint builds (t : list Event) : list JSObject :=
  match t with
  | [] => []
  | EvBuild o :: r => o :: builds r
  | _ :: r => builds r
  end.

End Trace.

Import Trace.

Notation "x ←← m ; k" := (Trace.bind m (fun x => k))
  (at level 100, m at next level, right associativity, only parsing).
Notation "m ;;; k" := (Trace.bind m (fun _ => k))
  (at level 100, right associativity, only parsing).

(** ** src/bundle.ts *)

Module FunctionEntry.
Record t := mk { entry : string; func : JSValue; functionAlias : string }.
End FunctionEntry.

Module FileBuildResult.
Record t := mk { bundlePath : string; entry : string; result : JSValue }.
End FileBuildResult.

Module FunctionBuildResult.
Record t := mk { bundlePath : string; func : JSValue; functionAlias : string }.
End FunctionBuildResult.

Module Bundle.

(** The plugin instance [bundle] is called on ([this]). *)
Record Plugin := {
  buildOptions : option JSObject;
  buildDirPath : JSValue;
  functionEntries : list FunctionEntry.t;
  plugins : JSValue;
}.

(** The plugin specific options deleted from the esbuild config. *)
Definition pluginOptionNames : list string :=
  [ "concurrency"; "zipConcurrency"; "exclude"; "nativeZip"; "packager";
    "packagePath"; "watch"; "keepOutputDirectory"; "packagerOptions";
    "installExtraArgs"; "installDeps"; "outputFileExtension";
    "outputBuildFolder"; "outputWorkFolder"; "nodeExternals"; "skipBuild";
    "skipRebuild"; "skipBuildExcludeFns"; "stripEntryResolveExtensions";
    "disposeContext" ].

(** The messages of the two configuration errors. *)
Definition esmCjsMessage : string :=
  "ERROR: format " ++ dq ++ "esm" ++ dq ++ " or platform " ++ dq ++ "neutral" ++ dq
    ++ " should not output a file with extension " ++ dq ++ ".cjs" ++ dq ++ ".".

Definition nonEsmMjsMessage : string :=
  "ERROR: Non esm builds should not output a file with extension "
    ++ dq ++ ".mjs" ++ dq ++ ".".

(** [JSON.stringify(undefined)] is [undefined], which [fs.writeFileSync]
    refuses as data. *)
Definition writeUndefinedMessage : string :=
  "The " ++ dq ++ "data" ++ dq ++ " argument must be of type string or an instance"
    ++ " of Buffer, TypedArray, or DataView. Received undefined".

(** [entry.slice(0, entry.lastIndexOf('.')) + outputFileExtension] *)
Definition bundlePathOf (entry : string) (outputFileExtension : JSValue) : string :=
  slice entry 0 (lastIndexOf entry ".") ++ ToString outputFileExtension.

(** The local cache with the entry as key. *)
Definition mkBuildCache (fileBuildResults : list FileBuildResult.t)
  : gmap string FileBuildResult.t :=
  foldl (fun acc fileBuildResult =>
           <[FileBuildResult.entry fileBuildResult := fileBuildResult]> acc)
        ∅ fileBuildResults.

(** The callback mapping one function entry back to its bundle:
    [None] is the [undefined] of the bare [return]. *)
Definition toBuildResult (buildCache : gmap string FileBuildResult.t)
    (fe : FunctionEntry.t) : option FunctionBuildResult.t :=
  match FileBuildResult.bundlePath <$> buildCache !! FunctionEntry.entry fe with
  | None => None
  | Some bundlePath =>
      if is_null (FunctionEntry.func fe) then None
      else Some (FunctionBuildResult.mk bundlePath (FunctionEntry.func fe)
                   (FunctionEntry.functionAlias fe))
  end.

(** [.filter(result => typeof result === 'object')] *)
Fixpoint filterObjects {A} (l : list (option A)) : list A :=
  match l with
  | [] => []
  | Some x :: r => x :: filterObjects r
  | None :: r => filterObjects r
  end.

Definition mapFunctionEntries (buildCache : gmap string FileBuildResult.t)
    (entries : list FunctionEntry.t) : list FunctionBuildResult.t :=
  filterObjects (toBuildResult buildCache <$> entries).

Section WithCollaborators.

(** Helpers of [./helper], which is not among the sources, and the
    external compiler [pkg.build]. *)
Variable asArray : JSValue → list JSValue.
Variable isESM : JSObject → bool.
Variable assertIsString : JSValue → bool.
Variable pkg_build : JSObject → BuildOutcome.

Definition getStringArray (input : JSValue) : list string :=
  strings_of (asArray input).

(** Extract package names from the extended external format: plain
    strings and objects like [{ packageName: { postinstall } }]. *)
Definition getExternalNames (externals : JSValue) : list string :=
  foldl (fun names item =>
           match item with
           | JStr s => (names ++ [s])%list
           | JObj fields => (names ++ keys fields)%list
           | JArr l => (names ++ indices (length l))%list
           | _ => names
           end)
        [] (asArray externals).

(** The esbuild options left after deleting the plugin's own. *)
Definition stripPluginOptions (options : JSObject) : JSObject :=
  foldl (fun options optionName => delete optionName options)
        options pluginOptionNames.

(** The [external] list of the config. *)
Definition externalOf (options : JSObject) : list string :=
  let exclude := getStringArray (prop options "exclude") in
  (getExternalNames (prop options "external")
     ++ (if includes exclude "*" then [] else exclude))%list.

(** [config] as it stands after line 76. *)
Definition baseConfig (this : Plugin) (options : JSObject) : JSObject :=
  <["plugins" := plugins this]>
    (<["external" := JArr (JStr <$> externalOf options)]>
       (stripPluginOptions options)).

(** The argument of [pkg.build]. *)
Definition buildArgs (config : JSObject) (uniqueFiles : list string)
    (buildDirPath : JSValue) : JSObject :=
  <["outbase" := JStr "."]>
    (<["outdir" := buildDirPath]>
       (<["entryPoints" := JArr (JStr <$> uniqueFiles)]> config)).

Definition bundle (this : Plugin) : M (list FunctionBuildResult.t) :=
  options ←← match buildOptions this with
             | Some o => ret o
             | None => throw (AssertionError "buildOptions is not defined")
             end;
  emit EvPrepare;;;
  let config := baseConfig this options in
  (if assertIsString (buildDirPath this) then ret tt
   else throw (AssertionError "buildDirPath is not a string"));;;
  let outputFileExtension := prop options "outputFileExtension" in
  (if isESM options && strict_eq_str outputFileExtension ".cjs"
   then throw (ServerlessError esmCjsMessage)
   else ret tt);;;
  (if negb (isESM options) && strict_eq_str outputFileExtension ".mjs"
   then throw (ServerlessError nonEsmMjsMessage)
   else ret tt);;;
  let config :=
    if negb (strict_eq_str outputFileExtension ".js")
    then <["outExtension" := JObj [(".js", outputFileExtension)]]> config
    else config in
  let uniqueFiles := uniq (FunctionEntry.entry <$> functionEntries this) in
  let args := buildArgs config uniqueFiles (buildDirPath this) in
  emit (EvBuild args);;;
  buildResult ←← lift (outcome (pkg_build args));
  (if truthy (prop config "metafile")
   then metafile ←← lift (get_prop buildResult "metafile");
        match metafile with
        | JUndefined => throw (TypeError writeUndefinedMessage)
        | _ => emit (EvWriteMetafile (buildDirPath this) metafile)
        end
   else ret tt);;;
  let fileBuildResults :=
    (fun entry =>
       FileBuildResult.mk (bundlePathOf entry outputFileExtension)
         entry buildResult) <$> uniqueFiles in
  let buildCache := mkBuildCache fileBuildResults in
  ret (mapFunctionEntries buildCache (functionEntries this)).

(** For the statements below: [config] as it stands when the compiler
    is called (after line 100), the unique entry points, and the
    argument [pkg.build] is called with. *)
Definition configOf (this : Plugin) (options : JSObject) : JSObject :=
  let outputFileExtension := prop options "outputFileExtension" in
  if negb (strict_eq_str outputFileExtension ".js")
  then <["outExtension" := JObj [(".js", outputFileExtension)]]>
         (baseConfig this options)
  else baseConfig this options.

Definition uniqueFilesOf (this : Plugin) : list string :=
  uniq (FunctionEntry.entry <$> functionEntries this).

Definition buildCallOf (this : Plugin) (options : JSObject) : JSObject :=
  buildArgs (configOf this options) (uniqueFilesOf this) (buildDirPath this).

(** The local cache of one run whose compiler call returned
    [buildResult]. *)
Definition buildCacheOf (this : Plugin) (options : JSObject)
    (buildResult : JSValue) : gmap string FileBuildResult.t :=
  mkBuildCache
    ((fun entry =>
        FileBuildResult.mk
          (bundlePathOf entry (prop options "outputFileExtension"))
          entry buildResult) <$> uniqueFilesOf this).

End WithCollaborators.

End Bundle.

(** ** Helpers of ./helper *)

Module Helper.

(** Modelled from the spec: [asArray] of [./helper] is not among the
    sources.  The spec reads the [external] and [exclude] options as
    lists of names (section 4.1, step 1): an array is taken as it is,
    any other value as the list of that one value. *)
Definition asArray (data : JSValue) : list JSValue :=
  match data with
  | JArr l => l
  | _ => [data]
  end.

(** Modelled from the spec: [isESM] of [./helper] is not among the
    sources.  The spec (sections 4.1 and 8) and the error message of
    [bundle] call a build ESM when its format is "esm" or its platform
    is "neutral". *)
Definition isESM (buildOptions : JSObject) : bool :=
  strict_eq_str (prop buildOptions "format") "esm"
  || strict_eq_str (prop buildOptions "platform") "neutral".

(** Modelled from the spec: [assertIsString] of [./helper] is not among
    the sources; by its name and its use it passes on strings and throws
    on every other value. *)
Definition assertIsString (input : JSValue) : bool := isString input.

End Helper.

(** ** The Bun packager *)

Module Bun.

(** One call of [spawnProcess(command, args, { cwd })]. *)
Record SpawnCall := { command : string; args : list string; cwd : string }.

(** What a spawned process leaves behind: the captured streams on
    success, and on failure either the typed error carrying both streams
    or the error of a process that could not be started. *)
Record Streams := { stdout : string; stderr : string }.

Inductive SpawnFailure :=
  | SpawnError (message : string) (streams : Streams)
  | NotStarted (message : string).

(** [{ version }] *)
Record Dependency := { version : JSValue }.

Record DependenciesResult := { dependencies : gmap string Dependency }.

Definition lockfileName : string := "bun.lock".
Definition copyPackageSectionNames : list string := [].
Definition mustCopyModules : bool := true.

(** [rebaseLockfile] returns the lockfile it is given. *)
Definition rebaseLockfile (_pathToPackageRoot : string) (lockfile : JSValue) : JSValue :=
  lockfile.

(** [try { body } catch (err) { handler }] over results. *)
Definition try_catch {E A} (body : E + A) (handler : E → E + A) : E + A :=
  match body with
  | inl err => handler err
  | inr a => inr a
  end.

Section WithFileSystem.

(** node's [path.join], [fs.readFileSync(_, 'utf8')] and [JSON.parse]. *)
Variable path_join : string → string → string.
Variable readFileSync : string → Exn + string.
Variable JSON_parse : string → Exn + JSValue.

Definition getProdDependencies (cwd : string) (_depth : option nat)
  : Exn + DependenciesResult :=
  let packageJsonPath := path_join cwd "package.json" in
  try_catch
    (match readFileSync packageJsonPath with
     | inl err => inl err
     | inr text =>
     match JSON_parse text with
     | inl err => inl err
     | inr packageJson =>
     match get_prop packageJson "dependencies" with
     | inl err => inl err
     | inr deps =>
     let dependencies := if truthy deps then deps else JObj [] in
     match entries dependencies with
     | inl err => inl err
     | inr named =>
         inr {| dependencies :=
                  foldl (fun acc '(name, version) =>
                           <[name := {| version := version |}]> acc)
                        ∅ named |}
     end end end end)
    (fun err => inr {| dependencies := ∅ |}).

End WithFileSystem.

Section WithProcesses.

(** The outcome of a spawned process, which may depend on the calls
    made before it. *)
Variable spawnProcess : list SpawnCall → SpawnCall → SpawnFailure + Streams.

(** Computations that spawn processes: the state is the log of the
    calls made so far. *)
Definition Proc (A : Type) : Type :=
  list SpawnCall → list SpawnCall * (SpawnFailure + A).

Definition spawn (c : SpawnCall) : Proc Streams :=
  fun log => ((log ++ [c])%list, spawnProcess log c).

(** [await p;] followed by the end of the block. *)
Definition await_void {A} (p : Proc A) : Proc unit :=
  fun log => match p log with
             | (log', inl err) => (log', inl err)
             | (log', inr _) => (log', inr tt)
             end.

Definition try_catch_proc {A} (body : Proc A) (handler : SpawnFailure → Proc A) : Proc A :=
  fun log => match body log with
             | (log', inl err) => handler err log'
             | (log', inr a) => (log', inr a)
             end.

Definition install (cwd : string) (extraArgs : list string) (_useLockfile : bool)
  : Proc unit :=
  let command := "bun" in
  let args := ("install" :: "--production" :: extraArgs) in
  try_catch_proc
    (await_void (spawn {| command := command; args := args; cwd := cwd |}))
    (fun err =>
       (* Fallback without --production if it fails *)
       let fallbackArgs := ("install" :: extraArgs) in
       await_void (spawn {| command := command; args := fallbackArgs; cwd := cwd |})).

End WithProcesses.

End Bun.

(** ** The zip engine of src/utils.ts, direct-streaming mode *)

Module Zip.

(** [IFile]: what goes into the archive and under which name. *)
Record IFile := { rootPath : string; localPath : string }.

(** The fields of [fs.Stats] that the code or the archiver may look at;
    [mode] holds the file type and the permission bits. *)
Record Stats := {
  mode : Z;
  size : Z;
  mtimeMs : Z;
}.

(** The file type bits of a mode and the type of a directory. *)
Definition S_IFMT : Z := 61440.
Definition S_IFDIR : Z := 16384.

(** [stats.isDirectory()] *)
Definition isDirectory (stats : Stats) : bool :=
  (Z.land (mode stats) S_IFMT =? S_IFDIR)%Z.

(** The entry data given to [zipArchive.file]; [date] is a time in
    milliseconds since the epoch. *)
Module EntryData.
Record t := mk { name : string; mode : Z; date : Z }.
End EntryData.

(** A file appended to the archive: its source path and its data. *)
Record Appended := { filepath : string; data : EntryData.t }.

(** [new Date(0)] *)
Definition epoch : Z := 0.

Section WithFileSystem.

(** [fs.statSync], the contents the archiver reads from a source path,
    and the archiver's encoding of the entries of an archive (their
    contents and data, in order) as the bytes of a zip file. *)
Variable statSync : string → Exn + Stats.
Variable readFile : string → Exn + list Byte.byte.
Variable archive : list (list Byte.byte * EntryData.t) → list Byte.byte.

(** [zipArchive.file] is called without the [stats] of the file, so the
    archiver asks the file system for them itself, for several queued
    files at a time, and a file enters the archive when its status has
    arrived: [completion] is the order in which the statuses of the
    queued files arrive in one run, a rearrangement of the queue that the
    file system decides. *)
Variable completion : list Appended → list Appended.

(** [statCache?.get(file.rootPath) ?? fs.statSync(file.rootPath)] *)
Definition statOf (statCache : option (gmap string Stats)) (path : string)
  : Exn + Stats :=
  match statCache ≫= (fun cache => cache !! path) with
  | Some stats => inr stats
  | None => statSync path
  end.

(** The body of [filesPathList.forEach]: the entries appended so far,
    or the error thrown. *)
Definition appendFile (statCache : option (gmap string Stats))
    (appended : Exn + list Appended) (file : IFile) : Exn + list Appended :=
  match appended with
  | inl err => inl err
  | inr queue =>
      match statOf statCache (rootPath file) with
      | inl err => inl err
      | inr stats =>
          if isDirectory stats then inr queue
          else inr (queue ++ [ {| filepath := rootPath file;
                                  data := {| EntryData.name := localPath file;
                                             EntryData.mode := mode stats;
                                             EntryData.date := epoch |} |} ])%list
      end
  end.

Definition appendAll (statCache : option (gmap string Stats))
    (filesPathList : list IFile) : Exn + list Appended :=
  foldl (appendFile statCache) (inr []) filesPathList.

(** [zipArchive.finalize()]: the files are read and encoded in the order
    in which they entered the archive. *)
Fixpoint readAll (queue : list Appended)
  : Exn + list (list Byte.byte * EntryData.t) :=
  match queue with
  | [] => inr []
  | a :: rest =>
      match readFile (filepath a) with
      | inl err => inl err
      | inr bytes =>
          match readAll rest with
          | inl err => inl err
          | inr read => inr ((bytes, data a) :: read)
          end
      end
  end.

(** [nodeZip]: the bytes written to [zipPath], or the error the
    promise is rejected with. *)
Definition nodeZip (zipPath : string) (filesPathList : list IFile)
    (statCache : option (gmap string Stats)) : Exn + (string * list Byte.byte) :=
  match appendAll statCache filesPathList with
  | inl err => inl err
  | inr queue =>
      match readAll (completion queue) with
      | inl err => inl err
      | inr read => inr (zipPath, archive read)
      end
  end.

End WithFileSystem.

End Zip.

(** ** Notions of the specification *)

Module Words.

(** The character [c] occurs in [s]. *)
Fixpoint has_char (c : ascii) (s : string) : bool :=
  match s with
  | EmptyString => false
  | String a s' => bool_decide (a = c) || has_char c s'
  end.

(** [s] minus its final character. *)
Fixpoint dropLast (s : string) : string :=
  match s with
  | EmptyString => EmptyString
  | String a EmptyString => EmptyString
  | String a s' => String a (dropLast s')
  end.


(** The number of batches of at most [c] among [u] entries:
    [ceil(u / c)]. *)
Definition ceilDiv (u c : nat) : nat := (u + c - 1) `div` c.

(** The batches the specification asks for: the entries in order, cut
    every [c] entries; [current] holds the open batch, last entry
    first. *)
Fixpoint batchesFrom (c : nat) (current : list string) (l : list string)
  : list (list string) :=
  match l with
  | [] => match current with [] => [] | _ => [rev current] end
  | x :: r =>
      if (length (x :: current) =? c)%nat then rev (x :: current) :: batchesFrom c [] r
      else batchesFrom c (x :: current) r
  end.

(** A concurrency of infinity means a single batch with everything. *)
Definition expectedBatches (concurrency : JSNumber) (uniqueFiles : list string)
  : list (list string) :=
  match concurrency with
  | Infinity => [uniqueFiles]
  | Int c => batchesFrom (Z.to_nat c) [] uniqueFiles
  end.

(** The entry path with its extension replaced: the extension is the
    part of the file name (what follows the last ['/']) from its last
    ['.'] on, when that ['.'] is not the first character of the file
    name; a file name without one has the empty extension. *)
Definition replaceExtension (entry : string) (ext : string) : string :=
  let slash := lastIndexOf entry "/" in
  let dot := lastIndexOf entry "." in
  if (slash + 1 <? dot)%Z then slice entry 0 dot ++ ext else entry ++ ext.

End Words.

Import Words.

(** ** Notions of the specification of the zip engine *)

Module ZipWords.

(** In a run with the given [statSync] and status cache, the path has a
    status, with the file type and permission bits [modeOf path]. *)
Definition agrees (statSync : string → Exn + Zip.Stats)
    (statCache : option (gmap string Zip.Stats))
    (modeOf : string → Z) (path : string) : Prop :=
  ∃ stats, Zip.statOf statSync statCache path = inr stats
           ∧ Zip.mode stats = modeOf path.

(** The file is no directory. *)
Definition regular (modeOf : string → Z) (file : Zip.IFile) : Prop :=
  (Z.land (modeOf (Zip.rootPath file)) Zip.S_IFMT =? Zip.S_IFDIR)%Z = false.

#[global] Instance regular_dec (modeOf : string → Z) (file : Zip.IFile)
  : Decision (regular modeOf file).
Proof. unfold regular. apply _. Defined.

(** Two orders of completion: the statuses arrive in the order of the
    queue, or the other way round, as can happen when the files of a
    short queue are asked about together. *)
Definition inQueueOrder (queue : list Zip.Appended) : list Zip.Appended := queue.

Definition lastFirst (queue : list Zip.Appended) : list Zip.Appended := reverse queue.

(** The entry expected for a file: under its [localPath], with the
    permission bits of its status, dated at the epoch. *)
Definition entryDataOf (modeOf : string → Z) (file : Zip.IFile) : Zip.EntryData.t :=
  {| Zip.EntryData.name := Zip.localPath file;
     Zip.EntryData.mode := modeOf (Zip.rootPath file);
     Zip.EntryData.date := 0 |}.

End ZipWords.

(** ** The plugin of src/tests/bundle.test.ts *)

Module Tests.

(** [{ events: [], handler }] *)
Definition handlerOf (handler : string) : JSValue :=
  JObj [("events", JArr []); ("handler", JStr handler)].

Definition functionEntry (file handler functionAlias : string) : FunctionEntry.t :=
  FunctionEntry.mk file (handlerOf handler) functionAlias.

(** The build options of the tests, up to the concurrency and the
    output extension. *)
Definition buildOptions (concurrency : JSNumber) (outputFileExtension : string)
  : JSObject :=
  list_to_map
    [ ("concurrency", JNum concurrency); ("bundle", JBool true);
      ("target", JStr "node12"); ("external", JArr []);
      ("exclude", JArr [JStr "aws-sdk"]); ("nativeZip", JBool false);
      ("packager", JStr "npm"); ("installExtraArgs", JArr []);
      ("watch", JObj []); ("keepOutputDirectory", JBool false);
      ("packagerOptions", JObj []); ("platform", JStr "node");
      ("outputFileExtension", JStr outputFileExtension) ].


Definition esbuildPlugin (options : JSObject) (functionEntries : list FunctionEntry.t)
  : Bundle.Plugin :=
  {| Bundle.buildOptions := Some options;
     Bundle.buildDirPath := JStr "/workdir/.esbuild";
     Bundle.functionEntries := functionEntries;
     Bundle.plugins := JArr [] |}.

(** [jest.mock('esbuild')]: the mocked [build] returns [undefined]. *)
Definition mockBuild (_ : JSObject) : BuildOutcome := BuildOk JUndefined.

Definition bundle (this : Bundle.Plugin) : M (list FunctionBuildResult.t) :=
  Bundle.bundle Helper.asArray Helper.isESM Helper.assertIsString mockBuild this.

(** The entries of the "batched concurrency" tests. *)
Definition threeEntries : list FunctionEntry.t :=
  [ functionEntry "file1.ts" "file1.handler" "func1";
    functionEntry "file2.ts" "file2.handler" "func2";
    functionEntry "file3.ts" "file3.handler" "func3" ].

Definition twoEntries : list FunctionEntry.t :=
  [ functionEntry "file1.ts" "file1.handler" "func1";
    functionEntry "file2.ts" "file2.handler" "func2" ].

(** Platform "neutral" with extension ".cjs", platform "node" with
    ".mjs", and the default options. *)
Definition neutralCjs : Bundle.Plugin :=
  esbuildPlugin (<["platform" := JStr "neutral"]> (buildOptions Infinity ".cjs"))
    twoEntries.

(** Format "esm" on platform "node" with extension ".cjs". *)
Definition esmCjs : Bundle.Plugin :=
  esbuildPlugin (<["format" := JStr "esm"]> (buildOptions Infinity ".cjs"))
    twoEntries.

Definition nodeMjs : Bundle.Plugin :=
  esbuildPlugin (buildOptions Infinity ".mjs") twoEntries.

Definition nodeJs : Bundle.Plugin :=
  esbuildPlugin (buildOptions Infinity ".js") twoEntries.

(** Concurrency 2 and three entry points. *)
Definition batched : Bundle.Plugin :=
  esbuildPlugin (buildOptions (Int 2) ".js") threeEntries.

(** [skipBundle: true], as in the "skipBundle" tests, and the
    [skipBuild] option of the list of plugin options. *)
Definition skipBundle : Bundle.Plugin :=
  esbuildPlugin (<["skipBundle" := JBool true]> (buildOptions Infinity ".js"))
    twoEntries.

Definition skipBuild : Bundle.Plugin :=
  esbuildPlugin (<["skipBuild" := JBool true]> (buildOptions Infinity ".js"))
    twoEntries.

(** Entries without an extension in the file name. *)
Definition extensionless : Bundle.Plugin :=
  esbuildPlugin (buildOptions Infinity ".js")
    [ functionEntry "handler" "handler.main" "func1";
      functionEntry "src.v2/handler" "handler.main" "func2" ].

(** An entry whose function is [null], between two that have one. *)
Definition withNull : list FunctionEntry.t :=
  [ functionEntry "file1.ts" "file1.handler" "func1";
    FunctionEntry.mk "file2.ts" JNull "func2";
    functionEntry "file1.ts" "file1.handler2" "func3" ].

(** The bundle paths of [this.buildResults] after a run. *)
Definition bundlePathsOf (run : M (list FunctionBuildResult.t)) : Exn + list string :=
  match snd run with
  | inl err => inl err
  | inr results => inr (FunctionBuildResult.bundlePath <$> results)
  end.

(** The [entryPoints] of a compiler call. *)
Definition entryPointsOf (args : JSObject) : JSValue := prop args "entryPoints".

(** [expect(build).toHaveBeenNthCalledWith(i, objectContaining({ entryPoints }))]
    for every call: the arrays of entry points the calls should get. *)
Definition expectedCalls (batches : list (list string)) : list JSValue :=
  (fun batch => JArr (JStr <$> batch)) <$> batches.

End Tests.

(** ** Sample environments of the packager and of the zip engine *)

Module BunTests.

Definition path_join (a b : string) : string := a ++ "/" ++ b.

(** The text of a manifest with one dependency. *)
Definition manifestText : string :=
  "{" ++ dq ++ "name" ++ dq ++ ":" ++ dq ++ "app" ++ dq ++ ","
    ++ dq ++ "dependencies" ++ dq ++ ":{"
    ++ dq ++ "lodash" ++ dq ++ ":" ++ dq ++ "^4.17.21" ++ dq ++ "}}".

Definition manifestDependencies : list (string * JSValue) :=
  [("lodash", JStr "^4.17.21")].

Definition manifest : list (string * JSValue) :=
  [("name", JStr "app"); ("dependencies", JObj manifestDependencies)].

(** A file system with a manifest in [/app], a directory [/lib] without
    one and a broken manifest in [/broken]. *)
Definition readFileSync (path : string) : Exn + string :=
  if bool_decide (path = "/app/package.json") then inr manifestText
  else if bool_decide (path = "/broken/package.json") then inr "{ oops"
  else inl (Rejected (JStr "ENOENT: no such file or directory")).

(** [JSON.parse] on the two texts above. *)
Definition JSON_parse (text : string) : Exn + JSValue :=
  if bool_decide (text = manifestText) then inr (JObj manifest)
  else inl (Rejected (JStr "SyntaxError: Unexpected token")).

Definition getProdDependencies (cwd : string) : Exn + Bun.DependenciesResult :=
  Bun.getProdDependencies path_join readFileSync JSON_parse cwd None.

(** A [bun] whose production install fails and whose plain install
    succeeds, and one whose installs both fail, each with its own
    captured output. *)
Definition hasProductionFlag (c : Bun.SpawnCall) : bool :=
  bool_decide ("--production" ∈ Bun.args c).

Definition productionFails (_ : list Bun.SpawnCall) (c : Bun.SpawnCall)
  : Bun.SpawnFailure + Bun.Streams :=
  if hasProductionFlag c
  then inl (Bun.SpawnError "bun exited with code 1"
              {| Bun.stdout := EmptyString; Bun.stderr := "production install failed" |})
  else inr {| Bun.stdout := "installed"; Bun.stderr := EmptyString |}.

Definition bothFail (_ : list Bun.SpawnCall) (c : Bun.SpawnCall)
  : Bun.SpawnFailure + Bun.Streams :=
  if hasProductionFlag c
  then inl (Bun.SpawnError "bun exited with code 1"
              {| Bun.stdout := EmptyString; Bun.stderr := "production install failed" |})
  else inl (Bun.SpawnError "bun exited with code 1"
              {| Bun.stdout := EmptyString; Bun.stderr := "fallback install failed" |}).

Definition succeeds (_ : list Bun.SpawnCall) (_ : Bun.SpawnCall)
  : Bun.SpawnFailure + Bun.Streams :=
  inr {| Bun.stdout := "installed"; Bun.stderr := EmptyString |}.

End BunTests.

Module ZipTests.

Definition files : list Zip.IFile :=
  [ {| Zip.rootPath := "/w/.esbuild/index.js"; Zip.localPath := "index.js" |};
    {| Zip.rootPath := "/w/node_modules"; Zip.localPath := "node_modules" |};
    {| Zip.rootPath := "/w/run.sh"; Zip.localPath := "bin/run.sh" |} ].

(** The two of them that are no directories. *)
Definition twoFiles : list Zip.IFile :=
  [ {| Zip.rootPath := "/w/.esbuild/index.js"; Zip.localPath := "index.js" |};
    {| Zip.rootPath := "/w/run.sh"; Zip.localPath := "bin/run.sh" |} ].

(** The modes of the three paths: a file, a directory and an
    executable file. *)
Definition modeOf (path : string) : Z :=
  if bool_decide (path = "/w/node_modules") then 16877
  else if bool_decide (path = "/w/run.sh") then 33261
  else 33188.

(** The status of a path in a run in which the files were last written
    at [mtime]. *)
Definition stats (mtime : Z) (path : string) : Zip.Stats :=
  {| Zip.mode := modeOf path; Zip.size := 3; Zip.mtimeMs := mtime |}.

Definition statSync (mtime : Z) (path : string) : Exn + Zip.Stats :=
  inr (stats mtime path).

Definition contents (path : string) : list Byte.byte :=
  if bool_decide (path = "/w/run.sh") then [Byte.x23; Byte.x21]
  else [Byte.x61; Byte.x62; Byte.x63].

Definition readFile (path : string) : Exn + list Byte.byte :=
  if bool_decide (path = "/w/node_modules")
  then inl (Rejected (JStr "EISDIR: illegal operation on a directory"))
  else inr (contents path).

(** A stand-in for the encoder: the contents of the entries, each led
    by a byte telling whether the entry is dated at the epoch. *)
Definition archive (entries : list (list Byte.byte * Zip.EntryData.t)) : list Byte.byte :=
  flat_map (fun e => (if bool_decide (Zip.EntryData.date e.2 = 0%Z) then Byte.x00 else Byte.x01)
                       :: e.1) entries.

(** A status cache holding the first path only. *)
Definition statCache : gmap string Zip.Stats :=
  {[ "/w/.esbuild/index.js" := stats 1700000000000 "/w/.esbuild/index.js" ]}.

End ZipTests.

(** ** The Bun packager: [prune] and [runScripts] *)

Module BunScripts.

Section WithProcesses.

Variable spawnProcess :
  list Bun.SpawnCall → Bun.SpawnCall → Bun.SpawnFailure + Bun.Streams.

(** Which of several failing processes fails first is up to the
    processes: [firstToReject] tells, for the failures in the order the
    processes were spawned, the position of the one that comes first. *)
Variable firstToReject : list Bun.SpawnFailure → nat.

(** Bun doesn't have a prune command, no-op. *)
Definition prune (_cwd : string) : Bun.Proc unit :=
  fun log => (log, inr tt).

(** [scriptNames.map((scriptName) => spawnProcess(command, ['run', scriptName], { cwd }))]:
    every process is spawned, in order, before any of them is awaited;
    the result is the list of their outcomes. *)
Fixpoint spawnEach (cwd : string) (scriptNames : list string) (log : list Bun.SpawnCall)
  : list Bun.SpawnCall * list (Bun.SpawnFailure + Bun.Streams) :=
  match scriptNames with
  | [] => (log, [])
  | scriptName :: rest =>
      let '(log1, outcome) :=
        Bun.spawn spawnProcess
          {| Bun.command := "bun"; Bun.args := ["run"; scriptName]; Bun.cwd := cwd |}
          log in
      let '(log2, outcomes) := spawnEach cwd rest log1 in
      (log2, outcome :: outcomes)
  end.

Definition rejections (outcomes : list (Bun.SpawnFailure + Bun.Streams))
  : list Bun.SpawnFailure :=
  flat_map (fun o => match o with inl err => [err] | inr _ => [] end) outcomes.

(** [await Promise.all(promises)]: fulfilled when every promise is,
    rejected with the reason of the promise that is rejected first. *)
Definition Promise_all (outcomes : list (Bun.SpawnFailure + Bun.Streams))
  : Bun.SpawnFailure + unit :=
  match rejections outcomes with
  | [] => inr tt
  | err :: errs =>
      inl (nth (firstToReject (err :: errs) `mod` length (err :: errs))
             (err :: errs) err)
  end.

Definition runScripts (cwd : string) (scriptNames : list string) : Bun.Proc unit :=
  fun log =>
    let '(log', outcomes) := spawnEach cwd scriptNames log in
    (log', Promise_all outcomes).

End WithProcesses.

End BunScripts.

(** ** The utilities: [trimExtension], [findUp], [findProjectRoot], [zip] *)

Module Utils.

Section WithPath.

(** node's [path.extname]. *)
Variable path_extname : string → string.

(** [entry.slice(0, -path.extname(entry).length)] *)
Definition trimExtension (entry : string) : string :=
  slice entry 0 (- Z.of_nat (String.length (path_extname entry))).

End WithPath.

Section FindUp.

(** node's [path.resolve], [path.dirname], [path.join] and
    [path.parse(_).root], the working directory of the process, and
    [safeFileExists] of [./utils/effect-fs], which is not among the
    sources and tells whether a file exists. *)
Variable path_resolve : string → string.
Variable path_dirname : string → string.
Variable path_join : string → string → string.
Variable path_root : string → string.
Variable process_cwd : string.
Variable safeFileExists : string → bool.

Definition rootOf (p : string) : string := path_root (path_resolve p).

Definition isPathRoot (p : string) : bool :=
  bool_decide (rootOf p = path_resolve p).

(** [findUpEffect]: [Some (Some dir)] is success with [dir], [Some None]
    the failure with [NoSuchElementException]; the recursion is bounded
    by [fuel], and [None] tells that the bound was reached. *)
Fixpoint findUpEffect (fuel : nat) (names : list string) (directory : string)
  : option (option string) :=
  match fuel with
  | O => None
  | S fuel =>
      let dir := path_resolve directory in
      let exist := (fun name => safeFileExists (path_join dir name)) <$> names in
      if existsb (fun b : bool => b) exist then Some (Some dir)
      else if isPathRoot dir then Some None
      else findUpEffect fuel names (path_dirname dir)
  end.

(** Find a file by walking up parent directories; [None] inside is
    [undefined]. *)
Definition findUp (fuel : nat) (name : string) : option (option string) :=
  findUpEffect fuel [name] process_cwd.

Definition lockfileNames : list string :=
  ["yarn.lock"; "pnpm-lock.yaml"; "package-lock.json"; "bun.lock"; "bun.lockb"].

(** Forwards [rootDir] or finds project root folder; [rootDir] is [None]
    when it is [undefined] or [null]. *)
Definition findProjectRoot (fuel : nat) (rootDir : option string)
  : option (option string) :=
  match rootDir with
  | Some dir => Some (Some dir)
  | None => findUpEffect fuel lockfileNames process_cwd
  end.

End FindUp.

(** Operations on the file system made by [zip], each logged with its
    success. *)
Inductive FsOp :=
  | MakeTempPath (name : string)
  | MakePath (path : string)
  | Link (src dest : string)
  | Copy (src dest : string)
  | BestZip (source destination cwd : string).

(** What [zip] leaves: the archive written by the native tool, or the
    bytes streamed to the target path. *)
Inductive Written :=
  | ByBestzip (destination : string)
  | ByArchiver (zipPath : string) (bytes : list Byte.byte).

Section Zip.

(** node's [path.basename] (with a suffix to drop), [path.extname],
    [path.dirname] and [path.join]; [Date.now()]; the path of the
    temporary directory [makeTempPathScoped] makes for a name, whether an
    operation succeeds after those made so far, and the error it fails
    with.  [makePath] and [makeTempPathScoped] come from
    [./utils/effect-fs], which is not among the sources: what they do to
    the file system, and the removal of the temporary directory when the
    scope ends, are outside the model. *)
Variable path_basename : string → string → string.
Variable path_extname : string → string.
Variable path_dirname : string → string.
Variable path_join : string → string → string.
Variable now : Z.
Variable tempPathOf : string → string.
Variable attempt : list (FsOp * bool) → FsOp → bool.
Variable errorOf : FsOp → Exn.

(** The environment of [nodeZip]. *)
Variable statSync : string → Exn + Zip.Stats.
Variable readFile : string → Exn + list Byte.byte.
Variable archive : list (list Byte.byte * Zip.EntryData.t) → list Byte.byte.
Variable completion : list Zip.Appended → list Zip.Appended.

Definition Fs (A : Type) : Type :=
  list (FsOp * bool) → list (FsOp * bool) * (Exn + A).

Definition succeed {A} (a : A) : Fs A := fun log => (log, inr a).

Definition perform (op : FsOp) : Fs unit :=
  fun log =>
    let ok := attempt log op in
    ((log ++ [(op, ok)])%list, if ok then inr tt else inl (errorOf op)).

Definition andThen {A B} (m : Fs A) (k : A → Fs B) : Fs B :=
  fun log =>
    match m log with
    | (log', inl err) => (log', inl err)
    | (log', inr a) => k a log'
    end.

(** [try { await body } catch { await handler }] *)
Definition orCatch {A} (body handler : Fs A) : Fs A :=
  fun log =>
    match body log with
    | (log', inl _) => handler log'
    | (log', inr a) => (log', inr a)
    end.

(** [Effect.all(effects, { discard: true })]: one after the other, up to
    the first that fails. *)
Fixpoint all_discard (effects : list (Fs unit)) : Fs unit :=
  match effects with
  | [] => succeed tt
  | e :: rest => andThen e (fun _ => all_discard rest)
  end.

Definition makeTempPathScoped (name : string) : Fs string :=
  andThen (perform (MakeTempPath name)) (fun _ => succeed (tempPathOf name)).

Definition linkOrCopyFile (temp : string) (file : Zip.IFile) : Fs unit :=
  let dest := path_join temp (Zip.localPath file) in
  andThen (perform (MakePath (path_dirname dest)))
    (fun _ => orCatch (perform (Link (Zip.rootPath file) dest))
                      (perform (Copy (Zip.rootPath file) dest))).

Definition bestZipEffect (zipPath temp : string) : Fs unit :=
  perform (BestZip "*" zipPath temp).

(** [`${path.basename(zipPath, path.extname(zipPath))}-${Date.now().toString()}`] *)
Definition tempDirName (zipPath : string) : string :=
  path_basename zipPath (path_extname zipPath) ++ "-" ++ pretty now.

Definition archiveEffect (zipPath : string) (filesPathList : list Zip.IFile) : Fs unit :=
  andThen (makeTempPathScoped (tempDirName zipPath)) (fun temp =>
  andThen (all_discard (linkOrCopyFile temp <$> filesPathList)) (fun _ =>
  andThen (perform (MakePath (path_dirname zipPath))) (fun _ =>
  bestZipEffect zipPath temp))).

Definition zip (zipPath : string) (filesPathList : list Zip.IFile)
    (useNativeZip : option bool) (statCache : option (gmap string Zip.Stats))
  : Fs Written :=
  match useNativeZip with
  | Some true =>
      (* bestzip requires files on disk in a flat directory structure *)
      andThen (archiveEffect zipPath filesPathList)
        (fun _ => succeed (ByBestzip zipPath))
  | _ =>
      (* Skip temp directory entirely - nodeZip reads directly from rootPath *)
      andThen (perform (MakePath (path_dirname zipPath))) (fun _ log =>
        (log,
         match Zip.nodeZip statSync readFile archive completion
           zipPath filesPathList statCache with
         | inl err => inl err
         | inr (path, bytes) => inr (ByArchiver path bytes)
         end))
  end.

End Zip.

End Utils.

(** ** Notions for the further properties *)

Module MoreWords.

(** The process [runScripts] spawns for a script. *)
Definition runCall (cwd scriptName : string) : Bun.SpawnCall :=
  {| Bun.command := "bun"; Bun.args := ["run"; scriptName]; Bun.cwd := cwd |}.

(** A value [JSON.parse] may return that is no object with properties of
    its own to read [dependencies] from, or a value of [dependencies]
    that holds no entries: [null], a boolean, a number, the empty
    string. *)
Definition holdsNoEntries (v : JSValue) : bool :=
  match v with
  | JNull | JBool _ | JNum _ | JStr EmptyString => true
  | _ => false
  end.

(** The directories [findUpEffect] looks into, from the start directory
    upwards: the [k]-th is reached by [k] steps to the parent. *)
Fixpoint ancestorAt (path_resolve path_dirname : string → string)
    (k : nat) (directory : string) : string :=
  match k with
  | O => path_resolve directory
  | S k =>
      ancestorAt path_resolve path_dirname k (path_dirname (path_resolve directory))
  end.

(** One of the names is a file of the directory. *)
Definition containsAny (path_join : string → string → string)
    (safeFileExists : string → bool) (names : list string) (dir : string) : bool :=
  existsb (fun name => safeFileExists (path_join dir name)) names.

(** An operation of the staging of files: making a directory, linking,
    copying. *)
Definition isStaging (op : Utils.FsOp) : Prop :=
  match op with
  | Utils.MakePath _ | Utils.Link _ _ | Utils.Copy _ _ => True
  | _ => False
  end.

(** Among the logged operations the file has been linked or copied, with
    success, to its place under the temporary directory. *)
Definition stagedIn (path_join : string → string → string) (temp : string)
    (events : list (Utils.FsOp * bool)) (file : Zip.IFile) : Prop :=
  let dest := path_join temp (Zip.localPath file) in
  (Utils.Link (Zip.rootPath file) dest, true) ∈ events
  ∨ (Utils.Copy (Zip.rootPath file) dest, true) ∈ events.

(** What the staging of files logs: staging operations only, a copy
    only where the link of the same file to the same place has failed. *)
Definition staging_log (events : list (Utils.FsOp * bool)) : Prop :=
  Forall (fun e => isStaging e.1) events
  ∧ ∀ src dest ok,
      (Utils.Copy src dest, ok) ∈ events → (Utils.Link src dest, false) ∈ events.

End MoreWords.

(** ** Sample paths and files *)

Module MoreTests.

(** Stand-ins for node's path functions on absolute paths without trailing
    slashes. *)
Definition dirname (p : string) : string :=
  let i := lastIndexOf p "/" in
  if (i <=? 0)%Z then "/" else slice p 0 i.

Definition join (a b : string) : string :=
  if bool_decide (a = "/") then "/" ++ b else a ++ "/" ++ b.

Definition root (_ : string) : string := "/".

Definition extname (p : string) : string :=
  let slash := lastIndexOf p "/" in
  let dot := lastIndexOf p "." in
  if (slash + 1 <? dot)%Z then slice p dot (Z.of_nat (String.length p))
  else EmptyString.

Definition basename (p suffix : string) : string :=
  let name := slice p (lastIndexOf p "/" + 1) (Z.of_nat (String.length p)) in
  slice name 0 (Z.of_nat (String.length name) - Z.of_nat (String.length suffix)).

(** The files of a project in [/repo]. *)
Definition exists_ (p : string) : bool :=
  bool_decide (p ∈ ["/repo/package-lock.json"; "/repo/package.json";
                    "/repo/services/api/package.json"]).

(** A status cache holding every path of [ZipTests.files]. *)
Definition fullCache : gmap string Zip.Stats :=
  list_to_map ((fun file => (Zip.rootPath file,
                             ZipTests.stats 1700000000000 (Zip.rootPath file)))
               <$> ZipTests.files).

(** A file system from which [/w/run.sh] has gone. *)
Definition statSyncMissing (path : string) : Exn + Zip.Stats :=
  if bool_decide (path = "/w/run.sh")
  then inl (Rejected (JStr "ENOENT: no such file or directory"))
  else ZipTests.statSync 1700000000000 path.

End MoreTests.

(** * Properties *)

(** ** Strings *)

Section StringFacts.

Lemma append_nil (s : string) : EmptyString ++ s = s.
Proof. reflexivity. Qed.

Lemma append_cons (a : ascii) (s t : string) :
  String a s ++ t = String a (s ++ t).
Proof. reflexivity. Qed.

Lemma append_assoc (a b c : string) : (a ++ b) ++ c = a ++ (b ++ c).
Proof.
  induction a as [|x a IH]; [done |]. by rewrite !append_cons, IH.
Qed.

Lemma length_append (a b : string) :
  String.length (a ++ b) = (String.length a + String.length b)%nat.
Proof.
  induction a as [|x a IH]; [done |]. rewrite append_cons. simpl. by rewrite IH.
Qed.

Lemma lastIndexOf_absent (s : string) (c : ascii) :
  has_char c s = false → lastIndexOf s c = (-1)%Z.
Proof.
  induction s as [|a s IH]; simpl; [done |].
  intros [Ha Hs]%orb_false_iff. rewrite (IH Hs), Ha. done.
Qed.

Lemma lastIndexOf_range (s : string) (c : ascii) :
  (-1 ≤ lastIndexOf s c < Z.of_nat (String.length s))%Z.
Proof.
  induction s as [|a s IH]; simpl; [lia |].
  destruct (Z.leb_spec 0 (lastIndexOf s c)); [lia |].
  case_bool_decide; lia.
Qed.

(** The last occurrence: after it the character does not occur. *)
Lemma lastIndexOf_last (pre suf : string) (c : ascii) :
  has_char c suf = false →
  lastIndexOf (pre ++ String c suf) c = Z.of_nat (String.length pre).
Proof.
  intros Hsuf. induction pre as [|a pre IH].
  - rewrite append_nil. simpl. rewrite (lastIndexOf_absent _ _ Hsuf). simpl.
    by rewrite bool_decide_eq_true_2.
  - rewrite append_cons. simpl. rewrite IH. destruct (Z.leb_spec 0 (Z.of_nat (String.length pre))); lia.
Qed.

Lemma has_char_split (c : ascii) (s : string) :
  has_char c s = true →
  ∃ pre suf, s = pre ++ String c suf ∧ has_char c suf = false.
Proof.
  induction s as [|a s IH]; simpl; [done |].
  destruct (has_char c s) eqn:Hs.
  - intros _. destruct (IH eq_refl) as (pre & suf & -> & Hsuf).
    by exists (String a pre), suf.
  - rewrite orb_false_r. intros ->%bool_decide_eq_true.
    by exists EmptyString, s.
Qed.

Lemma has_char_append (c : ascii) (a b : string) :
  has_char c (a ++ b) = has_char c a || has_char c b.
Proof.
  induction a as [|x a IH]; [done |].
  rewrite append_cons. simpl. by rewrite IH, orb_assoc.
Qed.

Lemma substring_prefix (pre rest : string) :
  substring 0 (String.length pre) (pre ++ rest) = pre.
Proof.
  induction pre as [|a pre IH].
  - rewrite append_nil. by destruct rest.
  - rewrite append_cons. simpl. by rewrite IH.
Qed.

Lemma slice_prefix (pre rest : string) :
  slice (pre ++ rest) 0 (Z.of_nat (String.length pre)) = pre.
Proof.
  unfold slice, clamp_index. rewrite length_append.
  replace (0 <? 0)%Z with false by done.
  destruct (Z.ltb_spec (Z.of_nat (String.length pre)) 0); [lia |].
  rewrite Z.min_l, Z.min_l, Z.max_l by lia.
  rewrite Z.sub_0_r, Nat2Z.id. apply substring_prefix.
Qed.

Lemma substring_dropLast (s : string) :
  substring 0 (String.length s - 1) s = dropLast s.
Proof.
  induction s as [|a s IH]; simpl; [done |].
  destruct s as [|b s]; [done |].
  simpl in *. rewrite Nat.sub_0_r in *. by rewrite IH.
Qed.

Lemma slice_dropLast (s : string) : slice s 0 (-1) = dropLast s.
Proof.
  unfold slice, clamp_index.
  replace (0 <? 0)%Z with false by done.
  replace (-1 <? 0)%Z with true by done.
  rewrite Z.min_l by lia. rewrite Z.sub_0_r.
  destruct s as [|a s]; [done |].
  rewrite <- substring_dropLast.
  f_equal. simpl String.length. lia.
Qed.

End StringFacts.

(** ** The bundle path *)

Section BundlePath.

(** Truncation at the last ['.'] of the whole entry string. *)
Lemma bundlePathOf_last_dot (pre suf : string) (ext : JSValue) :
  has_char "." suf = false →
  Bundle.bundlePathOf (pre ++ String "." suf) ext = pre ++ ToString ext.
Proof.
  intros Hsuf. unfold Bundle.bundlePathOf.
  by rewrite (lastIndexOf_last _ _ _ Hsuf), slice_prefix.
Qed.

Lemma bundlePathOf_no_dot (entry : string) (ext : JSValue) :
  has_char "." entry = false →
  Bundle.bundlePathOf entry ext = dropLast entry ++ ToString ext.
Proof.
  intros Hno. unfold Bundle.bundlePathOf.
  by rewrite (lastIndexOf_absent _ _ Hno), slice_dropLast.
Qed.

End BundlePath.

(** C10: the bundle path is the entry cut at the last ['.'] occurring
    anywhere in it, followed by the output extension [ext], a string.
    (1) When the final path segment [base] contains a ['.'], the part of
    [base] from its last ['.'] on is replaced by the extension: [base]
    splits at its last ['.'], and for every such split the path is what
    comes before that ['.'] followed by the extension.  (2) When the
    entry contains no ['.'] at all, the entry loses its final character
    and the extension is appended.  (3) When the last ['.'] lies in a
    directory segment (a ['/'] follows it), the path is cut at that
    directory's dot and the file name is lost. *)
Theorem C10_bundle_path_cut_at_last_dot (ext : string) :
  (∀ dir base : string,
      has_char "/" base = false → has_char "." base = true →
      ∃ stem suffix,
        base = stem ++ String "." suffix ∧ has_char "." suffix = false ∧
        Bundle.bundlePathOf (dir ++ base) (JStr ext) = dir ++ stem ++ ext)
  ∧ (∀ dir stem suffix : string,
      has_char "/" (stem ++ String "." suffix) = false →
      has_char "." suffix = false →
      Bundle.bundlePathOf (dir ++ stem ++ String "." suffix) (JStr ext)
      = dir ++ stem ++ ext)
  ∧ (∀ entry : string,
      has_char "." entry = false →
      Bundle.bundlePathOf entry (JStr ext) = dropLast entry ++ ext)
  ∧ (∀ pre seg file : string,
      has_char "." seg = false → has_char "." file = false →
      Bundle.bundlePathOf (pre ++ String "." (seg ++ String "/" file)) (JStr ext)
      = pre ++ ext).
Proof.
  split; [| split; [| split]].
  - intros dir base _ Hdot.
    destruct (has_char_split _ _ Hdot) as (stem & suffix & -> & Hsuf).
    exists stem, suffix. split; [done |]. split; [done |].
    rewrite <- !append_assoc. by apply (bundlePathOf_last_dot _ _ (JStr ext)).
  - intros dir stem suffix _ Hsuf.
    rewrite <- !append_assoc. by apply (bundlePathOf_last_dot _ _ (JStr ext)).
  - intros entry Hno. by apply (bundlePathOf_no_dot _ (JStr ext)).
  - intros pre seg file Hseg Hfile. apply (bundlePathOf_last_dot _ _ (JStr ext)).
    rewrite has_char_append, Hseg. simpl. by rewrite Hfile.
Qed.

Lemma C10_bundle_path_cut_at_last_dot_witness :
  (∃ stem suffix,
      "handler.test.ts" = stem ++ String "." suffix ∧ has_char "." suffix = false ∧
      Bundle.bundlePathOf "src/handler.test.ts" (JStr ".mjs") = "src/" ++ stem ++ ".mjs")
  ∧ Bundle.bundlePathOf "src/handler.test.ts" (JStr ".mjs") = "src/handler.test.mjs"
  ∧ Bundle.bundlePathOf "handler" (JStr ".mjs") = "handle.mjs"
  ∧ Bundle.bundlePathOf "api.v2/handler" (JStr ".mjs") = "api.mjs".
Proof.
  destruct (C10_bundle_path_cut_at_last_dot ".mjs") as (H1 & H1' & H2 & H3).
  split; [| split; [| split]].
  - apply (H1 "src/" "handler.test.ts"); reflexivity.
  - apply (H1' "src/" "handler.test" "ts"); reflexivity.
  - apply (H2 "handler"); reflexivity.
  - apply (H3 "api" "v2" "handler"); reflexivity.
Defined.

(** ** JavaScript built-ins *)

Section BuiltinFacts.

Lemma strict_eq_str_true (v : JSValue) (s : string) :
  strict_eq_str v s = true ↔ v = JStr s.
Proof.
  destruct v; simpl; try (split; [discriminate | congruence]).
  rewrite bool_decide_eq_true. split; congruence.
Qed.

Lemma strict_eq_str_false (v : JSValue) (s : string) :
  strict_eq_str v s = false ↔ v ≠ JStr s.
Proof.
  rewrite <- strict_eq_str_true. by destruct (strict_eq_str v s).
Qed.

Lemma is_null_false (v : JSValue) : is_null v = false ↔ v ≠ JNull.
Proof. destruct v; simpl; split; congruence. Qed.

Lemma elem_of_uniq_from (seen : gset string) (l : list string) (x : string) :
  x ∈ uniq_from seen l ↔ x ∈ l ∧ x ∉ seen.
Proof.
  revert seen. induction l as [|y l IH]; intros seen; simpl.
  - rewrite elem_of_nil. tauto.
  - case_bool_decide as Hy; rewrite ?elem_of_cons, IH, ?elem_of_cons.
    + split; [tauto |]. intros [[-> | Hx] Hseen]; [done | tauto].
    + destruct (decide (x = y)) as [-> | Hne]; [tauto |].
      rewrite elem_of_union, elem_of_singleton. tauto.
Qed.

(** [uniq] keeps every element. *)
Lemma elem_of_uniq (l : list string) (x : string) : x ∈ uniq l ↔ x ∈ l.
Proof.
  unfold uniq. rewrite elem_of_uniq_from.
  split; [tauto |]. intros Hx. split; [done |]. apply not_elem_of_empty.
Qed.

Lemma builds_app (t1 t2 : list Event) :
  builds (t1 ++ t2)%list = (builds t1 ++ builds t2)%list.
Proof.
  induction t1 as [|[] t1 IH]; simpl; [done | done | by rewrite IH | done].
Qed.

End BuiltinFacts.

(** ** The options passed on and the cache *)

Section ConfigFacts.

Lemma lookup_foldl_delete (ks : list string) (m : JSObject) (k : string) :
  foldl (fun options optionName => delete optionName options) m ks !! k
  = if bool_decide (k ∈ ks) then None else m !! k.
Proof.
  revert m. induction ks as [|k' ks IH]; intros m.
  - cbn [foldl]. case_bool_decide as Hin; [| done].
    by apply elem_of_nil in Hin.
  - cbn [foldl]. rewrite IH. destruct (decide (k = k')) as [-> | Hne].
    + rewrite lookup_delete_eq.
      rewrite (bool_decide_eq_true_2 (k' ∈ k' :: ks)) by apply list_elem_of_here.
      by case_bool_decide.
    + rewrite lookup_delete_ne by done.
      rewrite (bool_decide_ext (k ∈ k' :: ks) (k ∈ ks)); [done |].
      rewrite elem_of_cons. tauto.
Qed.

Lemma lookup_stripPluginOptions (options : JSObject) (k : string) :
  Bundle.stripPluginOptions options !! k
  = if bool_decide (k ∈ Bundle.pluginOptionNames) then None else options !! k.
Proof. apply lookup_foldl_delete. Qed.



Lemma lookup_mkBuildCache_from (f : string → FileBuildResult.t)
    (files : list string) (acc : gmap string FileBuildResult.t) (e : string) :
  (∀ x, FileBuildResult.entry (f x) = x) →
  foldl (fun acc r => <[FileBuildResult.entry r := r]> acc) acc (f <$> files) !! e
  = if bool_decide (e ∈ files) then Some (f e) else acc !! e.
Proof.
  intros Hf. revert acc. induction files as [|x files IH]; intros acc.
  - cbn [fmap list_fmap foldl]. case_bool_decide as Hin; [| done].
    by apply elem_of_nil in Hin.
  - rewrite fmap_cons. cbn [foldl]. rewrite IH, Hf. case_bool_decide as Hin.
    + by rewrite bool_decide_eq_true_2 by (by apply list_elem_of_further).
    + destruct (decide (e = x)) as [-> | Hne].
      * rewrite lookup_insert_eq.
        by rewrite bool_decide_eq_true_2 by apply list_elem_of_here.
      * rewrite lookup_insert_ne by done.
        rewrite bool_decide_eq_false_2; [done |].
        rewrite elem_of_cons. tauto.
Qed.

(** Every entry of the plugin is in the cache of the run. *)
Lemma lookup_buildCacheOf (this : Bundle.Plugin) (options : JSObject)
    (buildResult : JSValue) (fe : FunctionEntry.t) :
  fe ∈ Bundle.functionEntries this →
  Bundle.buildCacheOf this options buildResult !! FunctionEntry.entry fe
  = Some (FileBuildResult.mk
            (Bundle.bundlePathOf (FunctionEntry.entry fe)
               (prop options "outputFileExtension"))
            (FunctionEntry.entry fe) buildResult).
Proof.
  intros Hin. unfold Bundle.buildCacheOf, Bundle.mkBuildCache.
  rewrite lookup_mkBuildCache_from by done.
  rewrite bool_decide_eq_true_2; [done |].
  unfold Bundle.uniqueFilesOf. rewrite elem_of_uniq.
  by apply list_elem_of_fmap_2.
Qed.

End ConfigFacts.

(** ** The run of [bundle] *)

Ltac run_trace :=
  cbn beta iota delta
    [Trace.bind Trace.ret Trace.emit Trace.throw Trace.lift Trace.outcome app].

Section BundleRun.

Variable asArray : JSValue → list JSValue.
Variable isESM : JSObject → bool.
Variable assertIsString : JSValue → bool.
Variable pkg_build : JSObject → BuildOutcome.

Local Abbreviation bundle := (Bundle.bundle asArray isESM assertIsString pkg_build).
Local Abbreviation buildCallOf := (Bundle.buildCallOf asArray).
Local Abbreviation configOf := (Bundle.configOf asArray).

Variable this : Bundle.Plugin.
Variable options : JSObject.
Hypothesis Hoptions : Bundle.buildOptions this = Some options.

Local Abbreviation ext := (prop options "outputFileExtension").

Lemma bundle_no_dir :
  assertIsString (Bundle.buildDirPath this) = false →
  bundle this = ([EvPrepare], inl (AssertionError "buildDirPath is not a string")).
Proof.
  intros Hdir. unfold Bundle.bundle.
  rewrite Hoptions. run_trace. rewrite Hdir. reflexivity.
Qed.

Hypothesis Hdir : assertIsString (Bundle.buildDirPath this) = true.

Lemma bundle_esm_cjs :
  isESM options = true → strict_eq_str ext ".cjs" = true →
  bundle this = ([EvPrepare], inl (ServerlessError Bundle.esmCjsMessage)).
Proof.
  intros Hesm Hext. unfold Bundle.bundle.
  rewrite Hoptions. run_trace. rewrite Hdir. run_trace.
  rewrite Hesm, Hext. reflexivity.
Qed.

Lemma bundle_non_esm_mjs :
  isESM options = false → strict_eq_str ext ".mjs" = true →
  bundle this = ([EvPrepare], inl (ServerlessError Bundle.nonEsmMjsMessage)).
Proof.
  intros Hesm Hext. unfold Bundle.bundle.
  rewrite Hoptions. run_trace. rewrite Hdir. run_trace.
  rewrite Hesm, Hext. reflexivity.
Qed.

(** Past the two checks the compiler is called, once, and whatever
    follows calls it no more and raises no configuration error. *)
Lemma bundle_past_checks :
  isESM options && strict_eq_str ext ".cjs" = false →
  negb (isESM options) && strict_eq_str ext ".mjs" = false →
  ∃ t r,
    bundle this = (EvPrepare :: EvBuild (buildCallOf this options) :: t, r)
    ∧ builds t = []
    ∧ (∀ message, r ≠ inl (ServerlessError message))
    ∧ (∀ buildResult,
         pkg_build (buildCallOf this options) = BuildOk buildResult →
         (truthy (prop (configOf this options) "metafile") = true →
          ∃ metafile, get_prop buildResult "metafile" = inr metafile
                      ∧ metafile ≠ JUndefined) →
         r = inr (Bundle.mapFunctionEntries
                    (Bundle.buildCacheOf this options buildResult)
                    (Bundle.functionEntries this))).
Proof.
  intros Hcjs Hmjs.
  unfold Bundle.bundle, Bundle.buildCacheOf, Bundle.buildCallOf,
    Bundle.configOf, Bundle.uniqueFilesOf.
  rewrite Hoptions. run_trace. rewrite Hdir. run_trace.
  rewrite Hcjs, Hmjs. run_trace.
  set (config := if negb (strict_eq_str ext ".js") then _ else _).
  set (args := Bundle.buildArgs _ _ _).
  destruct (pkg_build args) as [buildResult | reason]; run_trace.
  - destruct (truthy (prop config "metafile")); run_trace.
    + destruct (get_prop buildResult "metafile") as [err | metafile] eqn:Hget;
        run_trace.
      * eexists _, _. split; [reflexivity |]. split; [done |]. split.
        -- intros message Heq. destruct buildResult; simpl in Hget; congruence.
        -- intros ? [= <-] Hm. destruct (Hm eq_refl) as (? & ? & _). congruence.
      * destruct metafile; run_trace;
          (eexists _, _; split; [reflexivity |];
           split; [done |]; split; [done |]);
          try (by intros ? [= <-] _).
        intros ? [= <-] Hm. destruct (Hm eq_refl) as (? & ? & ?). congruence.
    + eexists _, _. split; [reflexivity |].
      split; [done |]. split; [done |]. by intros ? [= <-] _.
  - eexists _, _. split; [reflexivity |].
    split; [done |]. split; [done |]. intros ? [=].
Qed.

End BundleRun.

(** ** The properties of [bundle] *)

Lemma isESM_iff (options : JSObject) :
  Helper.isESM options = true
  ↔ prop options "format" = JStr "esm" ∨ prop options "platform" = JStr "neutral".
Proof.
  unfold Helper.isESM. by rewrite orb_true_iff, !strict_eq_str_true.
Qed.

(** C3: with the build options defined and the build directory a string,
    an ESM build (format "esm" or platform "neutral") with output
    extension ".cjs" throws the configuration error with no compiler
    invocation before it; a build that is not ESM with ".mjs" likewise; in
    every other case no configuration error is raised and the compiler is
    invoked. *)
Theorem C3_extension_format_check
    (asArray : JSValue → list JSValue) (assertIsString : JSValue → bool)
    (pkg_build : JSObject → BuildOutcome)
    (this : Bundle.Plugin) (options : JSObject) :
  Bundle.buildOptions this = Some options →
  assertIsString (Bundle.buildDirPath this) = true →
  let esm := prop options "format" = JStr "esm"
             ∨ prop options "platform" = JStr "neutral" in
  let ext := prop options "outputFileExtension" in
  let run := Bundle.bundle asArray Helper.isESM assertIsString pkg_build this in
  (esm → ext = JStr ".cjs" →
     snd run = inl (ServerlessError Bundle.esmCjsMessage) ∧ builds (fst run) = [])
  ∧ (¬ esm → ext = JStr ".mjs" →
     snd run = inl (ServerlessError Bundle.nonEsmMjsMessage) ∧ builds (fst run) = [])
  ∧ (¬ (esm ∧ ext = JStr ".cjs") → ¬ (¬ esm ∧ ext = JStr ".mjs") →
     builds (fst run) = [Bundle.buildCallOf asArray this options]
     ∧ ∀ message, snd run ≠ inl (ServerlessError message)).
Proof.
  intros Hoptions Hdir esm ext run. subst esm ext run.
  split; [| split].
  - intros Hesm%isESM_iff Hext%strict_eq_str_true.
    by rewrite (bundle_esm_cjs _ _ _ _ _ _ Hoptions Hdir Hesm Hext).
  - intros Hesm Hext%strict_eq_str_true.
    rewrite <- isESM_iff, not_true_iff_false in Hesm.
    by rewrite (bundle_non_esm_mjs _ _ _ _ _ _ Hoptions Hdir Hesm Hext).
  - intros Hcjs Hmjs.
    destruct (bundle_past_checks asArray Helper.isESM assertIsString pkg_build
                this options Hoptions Hdir) as (t & r & -> & Ht & Hr & _).
    + apply andb_false_iff.
      destruct (Helper.isESM options) eqn:Hesm; [right | by left].
      apply strict_eq_str_false. intros Hext. apply Hcjs.
      split; [by apply isESM_iff | done].
    + apply andb_false_iff.
      destruct (Helper.isESM options) eqn:Hesm; [by left | right].
      apply strict_eq_str_false. intros Hext. apply Hmjs.
      split; [| done]. rewrite <- isESM_iff. congruence.
    + simpl. by rewrite Ht.
Qed.

Lemma C3_extension_format_check_witness :
  (snd (Tests.bundle Tests.neutralCjs) = inl (ServerlessError Bundle.esmCjsMessage)
   ∧ builds (fst (Tests.bundle Tests.neutralCjs)) = [])
  ∧ (snd (Tests.bundle Tests.esmCjs) = inl (ServerlessError Bundle.esmCjsMessage)
     ∧ builds (fst (Tests.bundle Tests.esmCjs)) = [])
  ∧ (snd (Tests.bundle Tests.nodeMjs) = inl (ServerlessError Bundle.nonEsmMjsMessage)
     ∧ builds (fst (Tests.bundle Tests.nodeMjs)) = [])
  ∧ builds (fst (Tests.bundle Tests.nodeJs))
    = [Bundle.buildCallOf Helper.asArray Tests.nodeJs
         (Tests.buildOptions Infinity ".js")].
Proof.
  split; [| split; [| split]].
  - apply (C3_extension_format_check Helper.asArray Helper.assertIsString
             Tests.mockBuild Tests.neutralCjs _ eq_refl eq_refl).
    + right. reflexivity.
    + reflexivity.
  - apply (C3_extension_format_check Helper.asArray Helper.assertIsString
             Tests.mockBuild Tests.esmCjs _ eq_refl eq_refl).
    + left. reflexivity.
    + reflexivity.
  - apply (C3_extension_format_check Helper.asArray Helper.assertIsString
             Tests.mockBuild Tests.nodeMjs _ eq_refl eq_refl).
    + intros [H | H]; vm_compute in H; discriminate.
    + reflexivity.
  - apply (C3_extension_format_check Helper.asArray Helper.assertIsString
             Tests.mockBuild Tests.nodeJs _ eq_refl eq_refl).
    + intros [_ H]; vm_compute in H; discriminate.
    + intros [_ H]; vm_compute in H; discriminate.
Defined.

Lemma bundle_builds (asArray : JSValue → list JSValue) (isESM : JSObject → bool)
    (assertIsString : JSValue → bool) (pkg_build : JSObject → BuildOutcome)
    (this : Bundle.Plugin) (options : JSObject) :
  Bundle.buildOptions this = Some options →
  builds (fst (Bundle.bundle asArray isESM assertIsString pkg_build this)) = []
  ∨ builds (fst (Bundle.bundle asArray isESM assertIsString pkg_build this))
    = [Bundle.buildCallOf asArray this options].
Proof.
  intros Hoptions.
  destruct (assertIsString (Bundle.buildDirPath this)) eqn:Hdir.
  - destruct (isESM options && strict_eq_str (prop options "outputFileExtension") ".cjs")
      eqn:Hcjs.
    + apply andb_true_iff in Hcjs as [Hesm Hext]. left.
      by rewrite (bundle_esm_cjs _ _ _ _ _ _ Hoptions Hdir Hesm Hext).
    + destruct (negb (isESM options)
                && strict_eq_str (prop options "outputFileExtension") ".mjs") eqn:Hmjs.
      * apply andb_true_iff in Hmjs as [Hesm%negb_true_iff Hext]. left.
        by rewrite (bundle_non_esm_mjs _ _ _ _ _ _ Hoptions Hdir Hesm Hext).
      * destruct (bundle_past_checks asArray isESM assertIsString pkg_build
                    this options Hoptions Hdir Hcjs Hmjs) as (t & r & -> & Ht & _).
        right. simpl. by rewrite Ht.
  - left. by rewrite (bundle_no_dir _ _ _ _ _ _ Hoptions Hdir).
Qed.




Section MapBack.

Variable cache : gmap string FileBuildResult.t.

Lemma filterObjects_app {A} (l1 l2 : list (option A)) :
  Bundle.filterObjects (l1 ++ l2)%list
  = (Bundle.filterObjects l1 ++ Bundle.filterObjects l2)%list.
Proof.
  induction l1 as [|[x|] l1 IH]; simpl; [done | by rewrite IH | done].
Qed.

Lemma mapFunctionEntries_app (l1 l2 : list FunctionEntry.t) :
  Bundle.mapFunctionEntries cache (l1 ++ l2)%list
  = (Bundle.mapFunctionEntries cache l1 ++ Bundle.mapFunctionEntries cache l2)%list.
Proof.
  unfold Bundle.mapFunctionEntries. by rewrite fmap_app, filterObjects_app.
Qed.

Lemma mapFunctionEntries_kept (fe : FunctionEntry.t) (r : FileBuildResult.t) :
  cache !! FunctionEntry.entry fe = Some r →
  FunctionEntry.func fe ≠ JNull →
  Bundle.mapFunctionEntries cache [fe]
  = [FunctionBuildResult.mk (FileBuildResult.bundlePath r)
       (FunctionEntry.func fe) (FunctionEntry.functionAlias fe)].
Proof.
  intros Hr Hfunc%is_null_false.
  unfold Bundle.mapFunctionEntries, Bundle.toBuildResult. simpl.
  by rewrite Hr, Hfunc.
Qed.

Lemma mapFunctionEntries_dropped (fe : FunctionEntry.t) :
  cache !! FunctionEntry.entry fe = None ∨ FunctionEntry.func fe = JNull →
  Bundle.mapFunctionEntries cache [fe] = [].
Proof.
  unfold Bundle.mapFunctionEntries, Bundle.toBuildResult. simpl.
  intros [-> | ->]; [done |]. by destruct (cache !! _).
Qed.

End MapBack.

(** In a run of [bundle] no lookup fails: the results are those of the
    entries whose function is not [null], in order, each with the bundle
    path computed from its entry. *)
Lemma mapFunctionEntries_buildCacheOf (this : Bundle.Plugin) (options : JSObject)
    (buildResult : JSValue) :
  Bundle.mapFunctionEntries (Bundle.buildCacheOf this options buildResult)
    (Bundle.functionEntries this)
  = (fun fe =>
       FunctionBuildResult.mk
         (Bundle.bundlePathOf (FunctionEntry.entry fe)
            (prop options "outputFileExtension"))
         (FunctionEntry.func fe) (FunctionEntry.functionAlias fe))
    <$> filter (fun fe => is_null (FunctionEntry.func fe) = false)
               (Bundle.functionEntries this).
Proof.
  assert (∀ l, (∀ fe, fe ∈ l → fe ∈ Bundle.functionEntries this) →
    Bundle.mapFunctionEntries (Bundle.buildCacheOf this options buildResult) l
    = (fun fe =>
         FunctionBuildResult.mk
           (Bundle.bundlePathOf (FunctionEntry.entry fe)
              (prop options "outputFileExtension"))
           (FunctionEntry.func fe) (FunctionEntry.functionAlias fe))
      <$> filter (fun fe => is_null (FunctionEntry.func fe) = false) l) as Hall.
  { induction l as [|fe l IH]; intros Hl; [done |].
    change (fe :: l) with ([fe] ++ l)%list at 1.
    rewrite mapFunctionEntries_app.
    rewrite IH by (intros; apply Hl; by apply list_elem_of_further).
    destruct (is_null (FunctionEntry.func fe)) eqn:Hnull.
    - rewrite mapFunctionEntries_dropped
        by (right; by destruct (FunctionEntry.func fe)).
      by rewrite filter_cons_False by (by rewrite Hnull).
    - erewrite mapFunctionEntries_kept;
        [| apply lookup_buildCacheOf, Hl, list_elem_of_here
         | by apply is_null_false].
      by rewrite filter_cons_True by done. }
  by apply Hall.
Qed.

(** C5: the mapping of the function entries back to their bundles goes
    entry by entry, in order, and is a total function (no error is
    raised): an entry whose path is in the build cache and whose function
    is not [null] yields exactly one result, with the cached bundle path
    and its own function and alias; an entry whose lookup fails or whose
    function is [null] yields none.  This mapping, over the cache of the
    run, is what [bundle] returns once the compiler has returned (and the
    metafile, when one is asked for, is there to be written). *)
Theorem C5_entries_mapped_or_dropped
    (asArray : JSValue → list JSValue) (isESM : JSObject → bool)
    (assertIsString : JSValue → bool) (pkg_build : JSObject → BuildOutcome) :
  (∀ cache : gmap string FileBuildResult.t,
     Bundle.mapFunctionEntries cache [] = []
     ∧ (∀ l1 l2,
          Bundle.mapFunctionEntries cache (l1 ++ l2)%list
          = (Bundle.mapFunctionEntries cache l1
             ++ Bundle.mapFunctionEntries cache l2)%list)
     ∧ (∀ fe r,
          cache !! FunctionEntry.entry fe = Some r →
          FunctionEntry.func fe ≠ JNull →
          Bundle.mapFunctionEntries cache [fe]
          = [FunctionBuildResult.mk (FileBuildResult.bundlePath r)
               (FunctionEntry.func fe) (FunctionEntry.functionAlias fe)])
     ∧ (∀ fe,
          cache !! FunctionEntry.entry fe = None ∨ FunctionEntry.func fe = JNull →
          Bundle.mapFunctionEntries cache [fe] = []))
  ∧ (∀ (this : Bundle.Plugin) (options : JSObject) (buildResult : JSValue),
       Bundle.buildOptions this = Some options →
       assertIsString (Bundle.buildDirPath this) = true →
       isESM options && strict_eq_str (prop options "outputFileExtension") ".cjs" = false →
       negb (isESM options)
         && strict_eq_str (prop options "outputFileExtension") ".mjs" = false →
       pkg_build (Bundle.buildCallOf asArray this options) = BuildOk buildResult →
       (truthy (prop (Bundle.configOf asArray this options) "metafile") = true →
        ∃ metafile, get_prop buildResult "metafile" = inr metafile
                    ∧ metafile ≠ JUndefined) →
       snd (Bundle.bundle asArray isESM assertIsString pkg_build this)
       = inr (Bundle.mapFunctionEntries
                (Bundle.buildCacheOf this options buildResult)
                (Bundle.functionEntries this))).
Proof.
  split.
  - intros cache. split; [done |]. split; [apply mapFunctionEntries_app |].
    split; [apply mapFunctionEntries_kept | apply mapFunctionEntries_dropped].
  - intros this options buildResult Hoptions Hdir Hcjs Hmjs Hbuild Hmeta.
    destruct (bundle_past_checks asArray isESM assertIsString pkg_build
                this options Hoptions Hdir Hcjs Hmjs) as (t & r & -> & _ & _ & Hr).
    simpl. by apply Hr.
Qed.

Lemma C5_entries_mapped_or_dropped_witness :
  let cache := Bundle.buildCacheOf Tests.nodeJs (Tests.buildOptions Infinity ".js")
                 JUndefined in
  Bundle.mapFunctionEntries cache [Tests.functionEntry "file1.ts" "file1.handler" "func1"]
  = [FunctionBuildResult.mk "file1.js" (Tests.handlerOf "file1.handler") "func1"]
  ∧ Bundle.mapFunctionEntries cache [FunctionEntry.mk "file2.ts" JNull "func2"] = []
  ∧ Bundle.mapFunctionEntries cache [Tests.functionEntry "other.ts" "other.handler" "func3"]
    = []
  ∧ snd (Tests.bundle Tests.nodeJs)
    = inr (Bundle.mapFunctionEntries cache Tests.twoEntries).
Proof.
  intros cache.
  destruct (C5_entries_mapped_or_dropped Helper.asArray Helper.isESM
              Helper.assertIsString Tests.mockBuild) as [Hmap Hrun].
  destruct (Hmap cache) as (_ & _ & Hkept & Hdropped).
  split; [| split; [| split]].
  - apply (Hkept (Tests.functionEntry "file1.ts" "file1.handler" "func1")
             (FileBuildResult.mk "file1.js" "file1.ts" JUndefined)).
    + vm_compute. reflexivity.
    + discriminate.
  - apply Hdropped. right. reflexivity.
  - apply Hdropped. left. vm_compute. reflexivity.
  - apply (Hrun Tests.nodeJs (Tests.buildOptions Infinity ".js") JUndefined);
      try reflexivity.
    intros H. vm_compute in H. discriminate.
Defined.

(** ** Where the code departs from the specification *)

(** C1: with a concurrency of 2 and three unique entry points, where
    [ceil(3 / 2) = 2] invocations are expected (the first with two entries,
    the second with one), [bundle] invokes the compiler once, with all
    three entry points. *)
Theorem C1_one_invocation_whatever_the_concurrency :
  prop (Tests.buildOptions (Int 2) ".js") "concurrency" = JNum (Int 2)
  ∧ Tests.entryPointsOf <$> builds (fst (Tests.bundle Tests.batched))
    = [JArr [JStr "file1.ts"; JStr "file2.ts"; JStr "file3.ts"]]
  ∧ ceilDiv 3 2 = 2
  ∧ Tests.expectedCalls
      (expectedBatches (Int 2) (Bundle.uniqueFilesOf Tests.batched))
    = [JArr [JStr "file1.ts"; JStr "file2.ts"]; JArr [JStr "file3.ts"]].
Proof. repeat split; vm_compute; reflexivity. Qed.

(** C2: with [skipBundle: true] (the option of the tests) as with
    [skipBuild: true] (the option of the list of plugin options), [bundle]
    invokes the compiler, on both entry points. *)
Theorem C2_compiler_invoked_in_skip_mode :
  Tests.entryPointsOf <$> builds (fst (Tests.bundle Tests.skipBundle))
  = [JArr [JStr "file1.ts"; JStr "file2.ts"]]
  ∧ Tests.entryPointsOf <$> builds (fst (Tests.bundle Tests.skipBuild))
    = [JArr [JStr "file1.ts"; JStr "file2.ts"]].
Proof. split; vm_compute; reflexivity. Qed.

(** C4: for the entry ["handler"], which has no extension, the bundle path
    is ["handle.js"]: the last character is cut off; for
    ["src.v2/handler"] it is ["src.js"]: the path is cut in the directory
    name.  Neither is the entry path with its extension replaced. *)
Theorem C4_entry_without_extension_is_cut :
  Tests.bundlePathsOf (Tests.bundle Tests.extensionless)
  = inr ["handle.js"; "src.js"]
  ∧ (fun fe => replaceExtension (FunctionEntry.entry fe) ".js")
      <$> Bundle.functionEntries Tests.extensionless
    = ["handler.js"; "src.v2/handler.js"].
Proof. split; vm_compute; reflexivity. Qed.

(** For an entry whose file name has an extension, the bundle path is the
    entry path with that extension replaced. *)
Lemma bundlePathOf_replaceExtension (entry ext : string) :
  (lastIndexOf entry "/" + 1 < lastIndexOf entry ".")%Z →
  Bundle.bundlePathOf entry (JStr ext) = replaceExtension entry ext.
Proof.
  intros Hdot. unfold Bundle.bundlePathOf, replaceExtension.
  destruct (Z.ltb_spec (lastIndexOf entry "/" + 1) (lastIndexOf entry ".")); [done | lia].
Qed.

(** ** The tests of the repository that the code passes *)

Section BundleTests.

(** should call esbuild only once when functions share the same entry *)
Example test_shared_entry_built_once :
  Tests.entryPointsOf
    <$> builds (fst (Tests.bundle
                       (Tests.esbuildPlugin (Tests.buildOptions Infinity ".js")
                          [ Tests.functionEntry "file1.ts" "file1.handler" "func1";
                            Tests.functionEntry "file1.ts" "file1.handler2" "func2" ])))
  = [JArr [JStr "file1.ts"]].
Proof. vm_compute. reflexivity. Qed.

(** should set buildResults after compilation is complete *)
Example test_buildResults :
  snd (Tests.bundle Tests.nodeJs)
  = inr [ FunctionBuildResult.mk "file1.js" (Tests.handlerOf "file1.handler") "func1";
          FunctionBuildResult.mk "file2.js" (Tests.handlerOf "file2.handler") "func2" ].
Proof. vm_compute. reflexivity. Qed.

(** should filter out non esbuild options *)
Example test_filter_non_esbuild_options :
  builds (fst (Tests.bundle
                 (Tests.esbuildPlugin (Tests.buildOptions Infinity ".js")
                    [Tests.functionEntry "file1.ts" "file1.handler" "func1"])))
  = [ list_to_map
        [ ("bundle", JBool true); ("entryPoints", JArr [JStr "file1.ts"]);
          ("external", JArr [JStr "aws-sdk"]); ("outbase", JStr ".");
          ("outdir", JStr "/workdir/.esbuild"); ("platform", JStr "node");
          ("plugins", JArr []); ("target", JStr "node12") ] ].
Proof. vm_compute. reflexivity. Qed.

(** platform node, ".cjs" extension *)
Example test_node_cjs :
  Tests.bundlePathsOf
    (Tests.bundle (Tests.esbuildPlugin (Tests.buildOptions Infinity ".cjs")
                     Tests.twoEntries))
  = inr ["file1.cjs"; "file2.cjs"].
Proof. vm_compute. reflexivity. Qed.

(** platform neutral, ".mjs" extension *)
Example test_neutral_mjs :
  Tests.bundlePathsOf
    (Tests.bundle
       (Tests.esbuildPlugin
          (<["platform" := JStr "neutral"]> (Tests.buildOptions Infinity ".mjs"))
          Tests.twoEntries))
  = inr ["file1.mjs"; "file2.mjs"].
Proof. vm_compute. reflexivity. Qed.

(** An entry whose function is [null] is dropped, the others are kept
    in order. *)
Example test_null_function_dropped :
  snd (Tests.bundle (Tests.esbuildPlugin (Tests.buildOptions Infinity ".js")
                       Tests.withNull))
  = inr [ FunctionBuildResult.mk "file1.js" (Tests.handlerOf "file1.handler") "func1";
          FunctionBuildResult.mk "file1.js" (Tests.handlerOf "file1.handler2") "func3" ].
Proof. vm_compute. reflexivity. Qed.

End BundleTests.

(** ** The Bun packager *)

Section Dependencies.

(** The loop over [Object.entries(dependencies)] keeps, for each name,
    the version read from the object. *)
Lemma foldl_dependencies_from (fields : list (string * JSValue)) (o : JSObject) :
  foldl (fun acc '(name, version) => <[name := {| Bun.version := version |}]> acc)
        ((fun v => {| Bun.version := v |}) <$> o) fields
  = (fun v => {| Bun.version := v |})
    <$> foldl (fun o '(name, value) => <[name := value]> o) o fields.
Proof.
  revert o. induction fields as [|[n v] fields IH]; intros o; [done |].
  cbn [foldl]. by rewrite <- IH, fmap_insert.
Qed.

Lemma foldl_dependencies_fmap (deps : list (string * JSValue)) :
  foldl (fun acc '(name, version) => <[name := {| Bun.version := version |}]> acc)
        ∅ deps
  = (fun v => {| Bun.version := v |}) <$> own deps.
Proof.
  unfold own. rewrite <- foldl_dependencies_from. by rewrite fmap_empty.
Qed.

End Dependencies.

(** C9: [getProdDependencies] always returns a result, never an error.
    When the manifest cannot be read, or is read and is not valid JSON,
    the result is the empty dependency set.  When it is read and parses to
    an object, the result maps every name of its [dependencies] section to
    its version, and is empty when there is no such section. *)
Theorem C9_getProdDependencies
    (path_join : string → string → string)
    (readFileSync : string → Exn + string) (JSON_parse : string → Exn + JSValue)
    (cwd : string) (depth : option nat) :
  let manifest := readFileSync (path_join cwd "package.json") in
  let result := Bun.getProdDependencies path_join readFileSync JSON_parse cwd depth in
  (∃ r, result = inr r)
  ∧ (∀ err, manifest = inl err → result = inr {| Bun.dependencies := ∅ |})
  ∧ (∀ text err,
       manifest = inr text → JSON_parse text = inl err →
       result = inr {| Bun.dependencies := ∅ |})
  ∧ (∀ text packageJson deps,
       manifest = inr text → JSON_parse text = inr (JObj packageJson) →
       own packageJson !! "dependencies" = Some (JObj deps) →
       result
       = inr {| Bun.dependencies := (fun v => {| Bun.version := v |}) <$> own deps |})
  ∧ (∀ text packageJson,
       manifest = inr text → JSON_parse text = inr (JObj packageJson) →
       own packageJson !! "dependencies" = None →
       result = inr {| Bun.dependencies := ∅ |}).
Proof.
  intros manifest result. subst manifest result. unfold Bun.getProdDependencies.
  split; [| split; [| split; [| split]]].
  - destruct (readFileSync _) as [err | text]; [by eexists |].
    destruct (JSON_parse text) as [err | packageJson]; [by eexists |].
    destruct (get_prop packageJson "dependencies") as [err | deps]; [by eexists |].
    destruct (entries _) as [err | named]; by eexists.
  - by intros err ->.
  - by intros text err -> ->.
  - intros text packageJson deps -> -> Hdeps.
    unfold get_prop, prop. rewrite Hdeps. simpl.
    by rewrite foldl_dependencies_fmap.
  - intros text packageJson -> -> Hdeps.
    unfold get_prop, prop. by rewrite Hdeps.
Qed.

Lemma C9_getProdDependencies_witness :
  BunTests.getProdDependencies "/lib" = inr {| Bun.dependencies := ∅ |}
  ∧ BunTests.getProdDependencies "/broken" = inr {| Bun.dependencies := ∅ |}
  ∧ BunTests.getProdDependencies "/app"
    = inr {| Bun.dependencies := {[ "lodash" := {| Bun.version := JStr "^4.17.21" |} ]} |}.
Proof.
  split; [| split].
  - destruct (C9_getProdDependencies BunTests.path_join BunTests.readFileSync
                BunTests.JSON_parse "/lib" None) as (_ & H & _).
    apply (H (Rejected (JStr "ENOENT: no such file or directory"))). reflexivity.
  - destruct (C9_getProdDependencies BunTests.path_join BunTests.readFileSync
                BunTests.JSON_parse "/broken" None) as (_ & _ & H & _).
    apply (H "{ oops" (Rejected (JStr "SyntaxError: Unexpected token")));
      reflexivity.
  - destruct (C9_getProdDependencies BunTests.path_join BunTests.readFileSync
                BunTests.JSON_parse "/app" None) as (_ & _ & _ & H & _).
    unfold BunTests.getProdDependencies.
    rewrite (H BunTests.manifestText BunTests.manifest BunTests.manifestDependencies);
      [| reflexivity | reflexivity | reflexivity].
    reflexivity.
Defined.

(** C7: [install] first spawns [bun install --production] with the extra
    arguments.  When that succeeds nothing else is spawned.  When it fails,
    exactly one more process is spawned, [bun install] with the extra
    arguments and without [--production]; when this one fails too, its
    error is the one the caller gets, and when it succeeds the install
    succeeds. *)
Theorem C7_install_fallback
    (spawnProcess : list Bun.SpawnCall → Bun.SpawnCall → Bun.SpawnFailure + Bun.Streams)
    (cwd : string) (extraArgs : list string) (useLockfile : bool) :
  let production :=
    {| Bun.command := "bun"; Bun.args := "install" :: "--production" :: extraArgs;
       Bun.cwd := cwd |} in
  let fallback :=
    {| Bun.command := "bun"; Bun.args := "install" :: extraArgs; Bun.cwd := cwd |} in
  let run := Bun.install spawnProcess cwd extraArgs useLockfile [] in
  (∀ out, spawnProcess [] production = inr out → run = ([production], inr tt))
  ∧ (∀ err,
       spawnProcess [] production = inl err →
       fst run = [production; fallback]
       ∧ (∀ err2, spawnProcess [production] fallback = inl err2 → snd run = inl err2)
       ∧ (∀ out, spawnProcess [production] fallback = inr out → snd run = inr tt)).
Proof.
  intros production fallback run. subst run.
  unfold Bun.install, Bun.try_catch_proc, Bun.await_void, Bun.spawn.
  fold production. fold fallback. cbn [app].
  split.
  - intros out ->. reflexivity.
  - intros err ->. cbn [app].
    destruct (spawnProcess [production] fallback) as [err2 | out] eqn:Hsecond.
    + split; [done |]. split; [| done]. by intros ? [= ->].
    + split; [done |]. split; [done |]. by intros ? _.
Qed.

Lemma C7_install_fallback_witness :
  let production :=
    {| Bun.command := "bun"; Bun.args := ["install"; "--production"; "--frozen-lockfile"];
       Bun.cwd := "/app" |} in
  let fallback :=
    {| Bun.command := "bun"; Bun.args := ["install"; "--frozen-lockfile"];
       Bun.cwd := "/app" |} in
  Bun.install BunTests.succeeds "/app" ["--frozen-lockfile"] true []
  = ([production], inr tt)
  ∧ fst (Bun.install BunTests.productionFails "/app" ["--frozen-lockfile"] true [])
    = [production; fallback]
  ∧ snd (Bun.install BunTests.productionFails "/app" ["--frozen-lockfile"] true [])
    = inr tt
  ∧ snd (Bun.install BunTests.bothFail "/app" ["--frozen-lockfile"] true [])
    = inl (Bun.SpawnError "bun exited with code 1"
             {| Bun.stdout := EmptyString; Bun.stderr := "fallback install failed" |}).
Proof.
  intros production fallback.
  split; [| split; [| split]].
  - apply (C7_install_fallback BunTests.succeeds "/app" ["--frozen-lockfile"] true)
      with (out := {| Bun.stdout := "installed"; Bun.stderr := EmptyString |}).
    reflexivity.
  - eapply (C7_install_fallback BunTests.productionFails "/app"
              ["--frozen-lockfile"] true).
    reflexivity.
  - destruct (C7_install_fallback BunTests.productionFails "/app"
                ["--frozen-lockfile"] true) as [_ H].
    destruct (H _ eq_refl) as (_ & _ & Hok). eapply Hok. reflexivity.
  - destruct (C7_install_fallback BunTests.bothFail "/app"
                ["--frozen-lockfile"] true) as [_ H].
    destruct (H _ eq_refl) as (_ & Hfail & _). apply Hfail. reflexivity.
Defined.

(** ** The zip engine *)

Section NodeZip.

Variable statSync : string → Exn + Zip.Stats.
Variable readFile : string → Exn + list Byte.byte.
Variable archive : list (list Byte.byte * Zip.EntryData.t) → list Byte.byte.
Variable completion : list Zip.Appended → list Zip.Appended.
Variable statCache : option (gmap string Zip.Stats).

(** The file type and permission bits expected at each path, and the
    contents expected there. *)
Variable modeOf : string → Z.
Variable contents : string → list Byte.byte.

Lemma appendAll_from (files : list Zip.IFile) (queue : list Zip.Appended) :
  (∀ file, file ∈ files →
     ZipWords.agrees statSync statCache modeOf (Zip.rootPath file)) →
  foldl (Zip.appendFile statSync statCache) (inr queue) files
  = inr (queue
         ++ ((fun file => {| Zip.filepath := Zip.rootPath file;
                             Zip.data := ZipWords.entryDataOf modeOf file |})
             <$> filter (ZipWords.regular modeOf) files))%list.
Proof.
  revert queue. induction files as [|file files IH]; intros queue Hfiles.
  - cbn [foldl]. by rewrite filter_nil, fmap_nil, app_nil_r.
  - destruct (Hfiles file) as (stats & Hstat & Hmode); [apply list_elem_of_here |].
    cbn [foldl Zip.appendFile]. rewrite Hstat.
    unfold Zip.isDirectory. rewrite Hmode.
    destruct (Z.land (modeOf (Zip.rootPath file)) Zip.S_IFMT =? Zip.S_IFDIR)%Z
      eqn:Hreg.
    + rewrite IH by (intros; apply Hfiles; by apply list_elem_of_further).
      rewrite filter_cons_False; [done |].
      unfold ZipWords.regular. by rewrite Hreg.
    + rewrite IH by (intros; apply Hfiles; by apply list_elem_of_further).
      rewrite filter_cons_True by done.
      by rewrite fmap_cons, <- app_assoc.
Qed.

Lemma readAll_contents (queue : list Zip.Appended) :
  (∀ a, a ∈ queue → readFile (Zip.filepath a) = inr (contents (Zip.filepath a))) →
  Zip.readAll readFile queue
  = inr ((fun a => (contents (Zip.filepath a), Zip.data a)) <$> queue).
Proof.
  induction queue as [|a queue IH]; intros Hread; [done |].
  cbn [Zip.readAll]. rewrite (Hread a) by apply list_elem_of_here.
  rewrite IH by (intros; apply Hread; by apply list_elem_of_further).
  done.
Qed.

(** When every listed path has a status and every file that enters the
    archive can be read, the bytes written are the archive of the listed
    files that are no directories, in the order in which their statuses
    arrived. *)
Lemma nodeZip_archive (zipPath : string) (files : list Zip.IFile) :
  let queue :=
    (fun file => {| Zip.filepath := Zip.rootPath file;
                    Zip.data := ZipWords.entryDataOf modeOf file |})
    <$> filter (ZipWords.regular modeOf) files in
  (∀ file, file ∈ files →
     ZipWords.agrees statSync statCache modeOf (Zip.rootPath file)) →
  (∀ a, a ∈ completion queue →
     readFile (Zip.filepath a) = inr (contents (Zip.filepath a))) →
  Zip.nodeZip statSync readFile archive completion zipPath files statCache
  = inr (zipPath,
         archive ((fun a => (contents (Zip.filepath a), Zip.data a))
                  <$> completion queue)).
Proof.
  intros queue Hstat Hread. unfold Zip.nodeZip, Zip.appendAll.
  rewrite (appendAll_from _ _ Hstat), app_nil_l. fold queue.
  by rewrite readAll_contents.
Qed.

End NodeZip.

(** C8: the bytes [nodeZip] writes depend on the order in which the
    archiver's status calls complete.  Two invocations on the same list of
    two files, with the same file types, permission bits and contents, one
    in which the statuses arrive in the order of the list and one in which
    the second arrives first, hand the archiver the same two entries, each
    under its [localPath], with the mode of its status and dated at the
    epoch, but write them in different orders: the two files written
    differ whenever the encoding tells the two orders apart. *)
Theorem C8_nodeZip_depends_on_completion_order
    (archive : list (list Byte.byte * Zip.EntryData.t) → list Byte.byte)
    (statSync1 statSync2 : string → Exn + Zip.Stats)
    (readFile1 readFile2 : string → Exn + list Byte.byte)
    (statCache1 statCache2 : option (gmap string Zip.Stats))
    (zipPath1 zipPath2 : string) (first second : Zip.IFile)
    (modeOf : string → Z) (contents : string → list Byte.byte) :
  let entry := fun file =>
    (contents (Zip.rootPath file),
     {| Zip.EntryData.name := Zip.localPath file;
        Zip.EntryData.mode := modeOf (Zip.rootPath file);
        Zip.EntryData.date := Zip.epoch |}) in
  (∀ file, file ∈ [first; second] →
     ZipWords.regular modeOf file
     ∧ ZipWords.agrees statSync1 statCache1 modeOf (Zip.rootPath file)
     ∧ ZipWords.agrees statSync2 statCache2 modeOf (Zip.rootPath file)
     ∧ readFile1 (Zip.rootPath file) = inr (contents (Zip.rootPath file))
     ∧ readFile2 (Zip.rootPath file) = inr (contents (Zip.rootPath file))) →
  archive [entry first; entry second] ≠ archive [entry second; entry first] →
  ∃ bytes1 bytes2,
    Zip.nodeZip statSync1 readFile1 archive ZipWords.inQueueOrder
      zipPath1 [first; second] statCache1
    = inr (zipPath1, bytes1)
    ∧ Zip.nodeZip statSync2 readFile2 archive ZipWords.lastFirst
        zipPath2 [first; second] statCache2
      = inr (zipPath2, bytes2)
    ∧ bytes1 = archive [entry first; entry second]
    ∧ bytes2 = archive [entry second; entry first]
    ∧ bytes1 ≠ bytes2.
Proof.
  intros entry Hfiles Hdiffer.
  assert (filter (ZipWords.regular modeOf) [first; second] = [first; second]) as Hregular.
  { destruct (Hfiles first) as [Hfirst _]; [by left |].
    destruct (Hfiles second) as [Hsecond _]; [right; by left |].
    rewrite filter_cons_True by done. by rewrite filter_cons_True by done. }
  exists (archive [entry first; entry second]), (archive [entry second; entry first]).
  split; [| split; [| done]].
  - rewrite (nodeZip_archive statSync1 readFile1 archive ZipWords.inQueueOrder
               statCache1 modeOf contents).
    + by rewrite Hregular.
    + intros file Hin. by apply Hfiles.
    + rewrite Hregular. unfold ZipWords.inQueueOrder.
      intros a (file & -> & Hin)%list_elem_of_fmap. by apply Hfiles.
  - rewrite (nodeZip_archive statSync2 readFile2 archive ZipWords.lastFirst
               statCache2 modeOf contents).
    + by rewrite Hregular.
    + intros file Hin. by apply Hfiles.
    + rewrite Hregular. unfold ZipWords.lastFirst.
      intros a (file & -> & Hin)%elem_of_reverse%list_elem_of_fmap.
      by apply Hfiles.
Qed.

Lemma C8_nodeZip_depends_on_completion_order_witness :
  Zip.nodeZip (ZipTests.statSync 1700000000000) ZipTests.readFile ZipTests.archive
    ZipWords.inQueueOrder "/w/.serverless/first.zip" ZipTests.twoFiles None
  = inr ("/w/.serverless/first.zip",
         [Byte.x00; Byte.x61; Byte.x62; Byte.x63; Byte.x00; Byte.x23; Byte.x21])
  ∧ Zip.nodeZip (ZipTests.statSync 1700000000000) ZipTests.readFile ZipTests.archive
      ZipWords.lastFirst "/w/.serverless/second.zip" ZipTests.twoFiles None
    = inr ("/w/.serverless/second.zip",
           [Byte.x00; Byte.x23; Byte.x21; Byte.x00; Byte.x61; Byte.x62; Byte.x63]).
Proof.
  destruct (C8_nodeZip_depends_on_completion_order ZipTests.archive
              (ZipTests.statSync 1700000000000) (ZipTests.statSync 1700000000000)
              ZipTests.readFile ZipTests.readFile None None
              "/w/.serverless/first.zip" "/w/.serverless/second.zip"
              {| Zip.rootPath := "/w/.esbuild/index.js"; Zip.localPath := "index.js" |}
              {| Zip.rootPath := "/w/run.sh"; Zip.localPath := "bin/run.sh" |}
              ZipTests.modeOf ZipTests.contents)
    as (bytes1 & bytes2 & Hfirst & Hsecond & -> & -> & _).
  - intros file Hin.
    repeat (apply elem_of_cons in Hin as [-> | Hin];
            [split; [reflexivity |];
             split; [eexists; split; [vm_compute; reflexivity | reflexivity] |];
             split; [eexists; split; [vm_compute; reflexivity | reflexivity] |];
             split; reflexivity |]).
    by apply elem_of_nil in Hin.
  - vm_compute. discriminate.
  - split; [exact Hfirst | exact Hsecond].
Defined.

(** * Further properties *)

Set Warnings "-clear-no-such-hyp".

(** ** [bundle]: what the compiler is called with *)

Lemma uniq_from_app (seen : gset string) (l1 l2 : list string) :
  uniq_from seen (l1 ++ l2)%list
  = (uniq_from seen l1 ++ uniq_from (list_to_set l1 ∪ seen) l2)%list.
Proof.
  revert seen. induction l1 as [|x l1 IH]; intros seen.
  - cbn [app uniq_from list_to_set]. by rewrite (left_id_L ∅ (∪)).
  - cbn [app uniq_from list_to_set]. case_bool_decide as Hx.
    + rewrite IH. f_equal. f_equal. set_solver.
    + rewrite IH. cbn [app]. f_equal. f_equal. f_equal. set_solver.
Qed.

Lemma NoDup_uniq_from (seen : gset string) (l : list string) :
  NoDup (uniq_from seen l).
Proof.
  revert seen. induction l as [|x l IH]; intros seen; cbn [uniq_from].
  - constructor.
  - case_bool_decide as Hx; [apply IH |].
    constructor; [| apply IH].
    rewrite elem_of_uniq_from. set_solver.
Qed.

Lemma bundle_call (asArray : JSValue → list JSValue) (isESM : JSObject → bool)
    (assertIsString : JSValue → bool) (pkg_build : JSObject → BuildOutcome)
    (this : Bundle.Plugin) (options args : JSObject) :
  Bundle.buildOptions this = Some options →
  args ∈ builds (fst (Bundle.bundle asArray isESM assertIsString pkg_build this)) →
  args = Bundle.buildCallOf asArray this options.
Proof.
  intros Hoptions Hargs.
  destruct (bundle_builds asArray isESM assertIsString pkg_build this options Hoptions)
    as [Hnone | Hone].
  - rewrite Hnone in Hargs. by apply elem_of_nil in Hargs.
  - rewrite Hone in Hargs. by apply list_elem_of_singleton in Hargs.
Qed.

(** X1: the entry points of every compiler call are the entry paths of
    the function entries without repetition: each path once, those and no
    others, in the order of their first occurrence (what comes before a
    path in the call is what comes before its first occurrence among the
    function entries). *)
Theorem X1_entry_points_deduplicated
    (asArray : JSValue → list JSValue) (isESM : JSObject → bool)
    (assertIsString : JSValue → bool) (pkg_build : JSObject → BuildOutcome)
    (this : Bundle.Plugin) (options args : JSObject) :
  Bundle.buildOptions this = Some options →
  args ∈ builds (fst (Bundle.bundle asArray isESM assertIsString pkg_build this)) →
  ∃ files : list string,
    args !! "entryPoints" = Some (JArr (JStr <$> files))
    ∧ NoDup files
    ∧ (∀ x, x ∈ files ↔ ∃ fe, fe ∈ Bundle.functionEntries this ∧ FunctionEntry.entry fe = x)
    ∧ (∀ before x after,
         FunctionEntry.entry <$> Bundle.functionEntries this = (before ++ x :: after)%list →
         x ∉ before →
         ∃ files1 files2,
           files = (files1 ++ x :: files2)%list ∧ ∀ y, y ∈ files1 ↔ y ∈ before).
Proof.
  intros Hoptions Hargs.
  rewrite (bundle_call _ _ _ _ _ _ _ Hoptions Hargs).
  exists (Bundle.uniqueFilesOf this). split; [| split; [| split]].
  - unfold Bundle.buildCallOf, Bundle.buildArgs.
    rewrite !lookup_insert_ne by done. by rewrite lookup_insert_eq.
  - apply NoDup_uniq_from.
  - intros x. unfold Bundle.uniqueFilesOf. rewrite elem_of_uniq, list_elem_of_fmap.
    split; intros (fe & ? & ?); exists fe; done.
  - intros before x after Hsplit Hx. unfold Bundle.uniqueFilesOf, uniq.
    rewrite Hsplit, uniq_from_app. cbn [uniq_from].
    rewrite bool_decide_eq_false_2 by set_solver.
    eexists _, _. split; [reflexivity |].
    intros y. rewrite elem_of_uniq_from. set_solver.
Qed.

Lemma X1_entry_points_deduplicated_witness :
  ∃ files : list string,
    Bundle.buildCallOf Helper.asArray
      (Tests.esbuildPlugin (Tests.buildOptions Infinity ".js") Tests.withNull)
      (Tests.buildOptions Infinity ".js") !! "entryPoints"
    = Some (JArr (JStr <$> files))
    ∧ NoDup files.
Proof.
  destruct (X1_entry_points_deduplicated Helper.asArray Helper.isESM
              Helper.assertIsString Tests.mockBuild
              (Tests.esbuildPlugin (Tests.buildOptions Infinity ".js") Tests.withNull)
              (Tests.buildOptions Infinity ".js")
              (Bundle.buildCallOf Helper.asArray
                 (Tests.esbuildPlugin (Tests.buildOptions Infinity ".js") Tests.withNull)
                 (Tests.buildOptions Infinity ".js")))
    as (files & Hentry & Hnodup & _).
  - reflexivity.
  - replace (builds _) with
      [Bundle.buildCallOf Helper.asArray
         (Tests.esbuildPlugin (Tests.buildOptions Infinity ".js") Tests.withNull)
         (Tests.buildOptions Infinity ".js")] by (vm_compute; reflexivity).
    apply list_elem_of_here.
  - by exists files.
Defined.

(** X2: every option that is neither one of the plugin's own nor one the
    code sets itself ([external], [plugins], [outExtension], [entryPoints],
    [outdir], [outbase]) reaches the compiler as it is, and an option that
    is not given is not invented. *)
Theorem X2_other_options_pass_through
    (asArray : JSValue → list JSValue) (isESM : JSObject → bool)
    (assertIsString : JSValue → bool) (pkg_build : JSObject → BuildOutcome)
    (this : Bundle.Plugin) (options args : JSObject) (k : string) :
  Bundle.buildOptions this = Some options →
  args ∈ builds (fst (Bundle.bundle asArray isESM assertIsString pkg_build this)) →
  k ∉ Bundle.pluginOptionNames →
  k ∉ ["external"; "plugins"; "outExtension"; "entryPoints"; "outdir"; "outbase"] →
  args !! k = options !! k.
Proof.
  intros Hoptions Hargs Hplugin Hset.
  rewrite (bundle_call _ _ _ _ _ _ _ Hoptions Hargs).
  rewrite !not_elem_of_cons in Hset. destruct Hset as (? & ? & ? & ? & ? & ? & _).
  unfold Bundle.buildCallOf, Bundle.buildArgs, Bundle.configOf, Bundle.baseConfig.
  rewrite !lookup_insert_ne by done.
  destruct (negb _); rewrite ?lookup_insert_ne by done;
    rewrite lookup_stripPluginOptions; by rewrite bool_decide_eq_false_2.
Qed.

Lemma X2_other_options_pass_through_witness :
  Bundle.buildCallOf Helper.asArray Tests.batched (Tests.buildOptions (Int 2) ".js")
    !! "target"
  = Some (JStr "node12").
Proof.
  rewrite (X2_other_options_pass_through Helper.asArray Helper.isESM
             Helper.assertIsString Tests.mockBuild Tests.batched
             (Tests.buildOptions (Int 2) ".js") _ "target").
  - reflexivity.
  - reflexivity.
  - replace (builds _) with
      [Bundle.buildCallOf Helper.asArray Tests.batched
         (Tests.buildOptions (Int 2) ".js")] by (vm_compute; reflexivity).
    apply list_elem_of_here.
  - unfold Bundle.pluginOptionNames. rewrite !not_elem_of_cons.
    repeat split; try discriminate. apply not_elem_of_nil.
  - rewrite !not_elem_of_cons.
    repeat split; try discriminate. apply not_elem_of_nil.
Defined.

(** X3: whatever the options say, the compiler is called with [outdir]
    the build directory, [outbase] ["."] and [plugins] the plugins of the
    plugin instance; [outExtension] maps [".js"] to the output extension
    when that is not [".js"], and is the option as given (or absent) when
    it is [".js"]. *)
Theorem X3_options_set_by_bundle
    (asArray : JSValue → list JSValue) (isESM : JSObject → bool)
    (assertIsString : JSValue → bool) (pkg_build : JSObject → BuildOutcome)
    (this : Bundle.Plugin) (options args : JSObject) :
  Bundle.buildOptions this = Some options →
  args ∈ builds (fst (Bundle.bundle asArray isESM assertIsString pkg_build this)) →
  let ext := prop options "outputFileExtension" in
  args !! "outdir" = Some (Bundle.buildDirPath this)
  ∧ args !! "outbase" = Some (JStr ".")
  ∧ args !! "plugins" = Some (Bundle.plugins this)
  ∧ (ext = JStr ".js" → args !! "outExtension" = options !! "outExtension")
  ∧ (ext ≠ JStr ".js" → args !! "outExtension" = Some (JObj [(".js", ext)])).
Proof.
  intros Hoptions Hargs ext. subst ext.
  rewrite (bundle_call _ _ _ _ _ _ _ Hoptions Hargs).
  unfold Bundle.buildCallOf, Bundle.buildArgs, Bundle.configOf, Bundle.baseConfig.
  split; [| split; [| split; [| split]]].
  - rewrite lookup_insert_ne by done. by rewrite lookup_insert_eq.
  - by rewrite lookup_insert_eq.
  - rewrite !lookup_insert_ne by done.
    destruct (negb _); rewrite ?lookup_insert_ne by done; by rewrite lookup_insert_eq.
  - intros Hext%strict_eq_str_true. rewrite Hext. cbn [negb].
    rewrite !lookup_insert_ne by done.
    rewrite lookup_stripPluginOptions. rewrite bool_decide_eq_false_2; [done |].
    unfold Bundle.pluginOptionNames. rewrite !not_elem_of_cons.
    repeat split; try discriminate. apply not_elem_of_nil.
  - intros Hext%strict_eq_str_false. rewrite Hext. cbn [negb].
    rewrite !lookup_insert_ne by done. by rewrite lookup_insert_eq.
Qed.

Lemma X3_options_set_by_bundle_witness :
  let args :=
    Bundle.buildCallOf Helper.asArray
      (Tests.esbuildPlugin (Tests.buildOptions Infinity ".cjs") Tests.twoEntries)
      (Tests.buildOptions Infinity ".cjs") in
  args !! "outdir" = Some (JStr "/workdir/.esbuild")
  ∧ args !! "outExtension" = Some (JObj [(".js", JStr ".cjs")]).
Proof.
  intros args.
  destruct (X3_options_set_by_bundle Helper.asArray Helper.isESM
              Helper.assertIsString Tests.mockBuild
              (Tests.esbuildPlugin (Tests.buildOptions Infinity ".cjs") Tests.twoEntries)
              (Tests.buildOptions Infinity ".cjs") args)
    as (Hdir & _ & _ & _ & Hext).
  - reflexivity.
  - replace (builds _) with [args] by (vm_compute; reflexivity).
    apply list_elem_of_here.
  - split; [exact Hdir |]. apply Hext. discriminate.
Defined.

(** X4: a failed assertion ends [bundle] before any compiler call.
    Without build options nothing at all is done, not even [prepare];
    with build options but a build directory that is no string, [prepare]
    has run and the assertion error is raised whatever the options are,
    a mismatch of extension and format included. *)
Theorem X4_assertions_come_first
    (asArray : JSValue → list JSValue) (isESM : JSObject → bool)
    (assertIsString : JSValue → bool) (pkg_build : JSObject → BuildOutcome)
    (this : Bundle.Plugin) :
  (Bundle.buildOptions this = None →
     Bundle.bundle asArray isESM assertIsString pkg_build this
     = ([], inl (AssertionError "buildOptions is not defined")))
  ∧ (∀ options,
       Bundle.buildOptions this = Some options →
       assertIsString (Bundle.buildDirPath this) = false →
       Bundle.bundle asArray isESM assertIsString pkg_build this
       = ([EvPrepare], inl (AssertionError "buildDirPath is not a string"))).
Proof.
  split.
  - intros Hnone. unfold Bundle.bundle. by rewrite Hnone.
  - intros options Hoptions Hdir. by apply (bundle_no_dir _ _ _ _ _ options).
Qed.

Lemma X4_assertions_come_first_witness :
  Tests.bundle {| Bundle.buildOptions := None; Bundle.buildDirPath := JStr "/workdir/.esbuild";
                  Bundle.functionEntries := Tests.twoEntries; Bundle.plugins := JArr [] |}
  = ([], inl (AssertionError "buildOptions is not defined"))
  ∧ Tests.bundle {| Bundle.buildOptions :=
                      Some (<["platform" := JStr "neutral"]>
                              (Tests.buildOptions Infinity ".cjs"));
                    Bundle.buildDirPath := JUndefined;
                    Bundle.functionEntries := Tests.twoEntries;
                    Bundle.plugins := JArr [] |}
    = ([EvPrepare], inl (AssertionError "buildDirPath is not a string")).
Proof.
  split.
  - apply (X4_assertions_come_first Helper.asArray Helper.isESM
             Helper.assertIsString Tests.mockBuild). reflexivity.
  - eapply (X4_assertions_come_first Helper.asArray Helper.isESM
              Helper.assertIsString Tests.mockBuild); reflexivity.
Defined.

(** ** [bundle]: after the compiler call *)

Section AfterBuild.

Variable asArray : JSValue → list JSValue.
Variable isESM : JSObject → bool.
Variable assertIsString : JSValue → bool.
Variable pkg_build : JSObject → BuildOutcome.
Variable this : Bundle.Plugin.
Variable options : JSObject.

Hypothesis Hoptions : Bundle.buildOptions this = Some options.
Hypothesis Hdir : assertIsString (Bundle.buildDirPath this) = true.
Hypothesis Hcjs :
  isESM options && strict_eq_str (prop options "outputFileExtension") ".cjs" = false.
Hypothesis Hmjs :
  negb (isESM options) && strict_eq_str (prop options "outputFileExtension") ".mjs"
  = false.

(** The [metafile] option reaches the config untouched. *)
Lemma metafile_configOf :
  prop (Bundle.configOf asArray this options) "metafile" = prop options "metafile".
Proof.
  unfold prop, Bundle.configOf, Bundle.baseConfig.
  destruct (negb (strict_eq_str _ _)); rewrite !lookup_insert_ne by done;
    rewrite lookup_stripPluginOptions; rewrite bool_decide_eq_false_2; try done;
    unfold Bundle.pluginOptionNames; rewrite !not_elem_of_cons;
    (repeat split; try discriminate); apply not_elem_of_nil.
Qed.

(** The whole run, by the outcome of the compiler call and the metafile
    found in its result. *)
Lemma bundle_trace :
  Bundle.bundle asArray isESM assertIsString pkg_build this
  = match pkg_build (Bundle.buildCallOf asArray this options) with
    | BuildFailed reason =>
        ([EvPrepare; EvBuild (Bundle.buildCallOf asArray this options)],
         inl (Rejected reason))
    | BuildOk buildResult =>
        let results :=
          Bundle.mapFunctionEntries (Bundle.buildCacheOf this options buildResult)
            (Bundle.functionEntries this) in
        if truthy (prop options "metafile") then
          match get_prop buildResult "metafile" with
          | inl err =>
              ([EvPrepare; EvBuild (Bundle.buildCallOf asArray this options)], inl err)
          | inr JUndefined =>
              ([EvPrepare; EvBuild (Bundle.buildCallOf asArray this options)],
               inl (TypeError Bundle.writeUndefinedMessage))
          | inr metafile =>
              ([EvPrepare; EvBuild (Bundle.buildCallOf asArray this options);
                EvWriteMetafile (Bundle.buildDirPath this) metafile],
               inr results)
          end
        else
          ([EvPrepare; EvBuild (Bundle.buildCallOf asArray this options)], inr results)
    end.
Proof.
  rewrite <- metafile_configOf.
  unfold Bundle.bundle, Bundle.buildCacheOf, Bundle.buildCallOf,
    Bundle.configOf, Bundle.uniqueFilesOf.
  rewrite Hoptions. run_trace. rewrite Hdir. run_trace.
  rewrite Hcjs, Hmjs. run_trace.
  set (config := if negb (strict_eq_str _ ".js") then _ else _).
  set (args := Bundle.buildArgs _ _ _).
  destruct (pkg_build args) as [buildResult | reason]; run_trace; [| done].
  destruct (truthy (prop config "metafile")); run_trace; [| done].
  destruct (get_prop buildResult "metafile") as [err | metafile]; run_trace; [done |].
  by destruct metafile.
Qed.

End AfterBuild.

(** X5: when the compiler call is rejected, [bundle] is rejected with
    the same reason: the compiler has been called once, no metafile is
    written and no build results are produced. *)
Theorem X5_compiler_failure_propagates
    (asArray : JSValue → list JSValue) (isESM : JSObject → bool)
    (assertIsString : JSValue → bool) (pkg_build : JSObject → BuildOutcome)
    (this : Bundle.Plugin) (options : JSObject) (reason : JSValue) :
  Bundle.buildOptions this = Some options →
  assertIsString (Bundle.buildDirPath this) = true →
  isESM options && strict_eq_str (prop options "outputFileExtension") ".cjs" = false →
  negb (isESM options) && strict_eq_str (prop options "outputFileExtension") ".mjs"
  = false →
  pkg_build (Bundle.buildCallOf asArray this options) = BuildFailed reason →
  Bundle.bundle asArray isESM assertIsString pkg_build this
  = ([EvPrepare; EvBuild (Bundle.buildCallOf asArray this options)],
     inl (Rejected reason)).
Proof.
  intros Hoptions Hdir Hcjs Hmjs Hbuild.
  rewrite (bundle_trace _ _ _ _ _ _ Hoptions Hdir Hcjs Hmjs). by rewrite Hbuild.
Qed.

Lemma X5_compiler_failure_propagates_witness :
  Bundle.bundle Helper.asArray Helper.isESM Helper.assertIsString
    (fun _ => BuildFailed (JStr "Build failed with 1 error")) Tests.nodeJs
  = ([EvPrepare;
      EvBuild (Bundle.buildCallOf Helper.asArray Tests.nodeJs
                 (Tests.buildOptions Infinity ".js"))],
     inl (Rejected (JStr "Build failed with 1 error"))).
Proof.
  apply (X5_compiler_failure_propagates Helper.asArray Helper.isESM
           Helper.assertIsString (fun _ => BuildFailed (JStr "Build failed with 1 error"))
           Tests.nodeJs (Tests.buildOptions Infinity ".js"));
    reflexivity.
Defined.

(** X6: the metafile is written exactly when the [metafile] option is
    truthy, after the compiler call and into the build directory, and it
    is the metafile of the compiler's result; the build results are the
    same with and without it.  When the option is truthy and the result
    has no metafile (it is [undefined], as for a compiler that returns
    nothing), [bundle] throws a type error after the compiler call and
    the build results are lost. *)
Theorem X6_metafile_written_on_request
    (asArray : JSValue → list JSValue) (isESM : JSObject → bool)
    (assertIsString : JSValue → bool) (pkg_build : JSObject → BuildOutcome)
    (this : Bundle.Plugin) (options : JSObject) (buildResult : JSValue) :
  Bundle.buildOptions this = Some options →
  assertIsString (Bundle.buildDirPath this) = true →
  isESM options && strict_eq_str (prop options "outputFileExtension") ".cjs" = false →
  negb (isESM options) && strict_eq_str (prop options "outputFileExtension") ".mjs"
  = false →
  pkg_build (Bundle.buildCallOf asArray this options) = BuildOk buildResult →
  let run := Bundle.bundle asArray isESM assertIsString pkg_build this in
  let call := EvBuild (Bundle.buildCallOf asArray this options) in
  let results :=
    Bundle.mapFunctionEntries (Bundle.buildCacheOf this options buildResult)
      (Bundle.functionEntries this) in
  (truthy (prop options "metafile") = false →
     run = ([EvPrepare; call], inr results))
  ∧ (∀ result metafile,
       truthy (prop options "metafile") = true →
       buildResult = JObj result → own result !! "metafile" = Some metafile →
       metafile ≠ JUndefined →
       run = ([EvPrepare; call; EvWriteMetafile (Bundle.buildDirPath this) metafile],
              inr results))
  ∧ (truthy (prop options "metafile") = true → buildResult = JUndefined →
     fst run = [EvPrepare; call] ∧ ∃ message, snd run = inl (TypeError message)).
Proof.
  intros Hoptions Hdir Hcjs Hmjs Hbuild run call results. subst run call results.
  rewrite (bundle_trace _ _ _ _ _ _ Hoptions Hdir Hcjs Hmjs), Hbuild.
  split; [| split].
  - by intros ->.
  - intros result metafile -> -> Hmeta Hdef. cbn [get_prop]. unfold prop.
    rewrite Hmeta. cbn [default]. by destruct metafile.
  - intros -> ->. cbn [get_prop]. split; [done |]. by eexists.
Qed.

Lemma X6_metafile_written_on_request_witness :
  let options := <["metafile" := JBool true]> (Tests.buildOptions Infinity ".js") in
  let this := Tests.esbuildPlugin options Tests.twoEntries in
  let metafile := JObj [("outputs", JObj [])] in
  fst (Bundle.bundle Helper.asArray Helper.isESM Helper.assertIsString
         (fun _ => BuildOk (JObj [("metafile", metafile)])) this)
  = [EvPrepare; EvBuild (Bundle.buildCallOf Helper.asArray this options);
     EvWriteMetafile (JStr "/workdir/.esbuild") metafile]
  ∧ fst (Tests.bundle Tests.nodeJs)
    = [EvPrepare;
       EvBuild (Bundle.buildCallOf Helper.asArray Tests.nodeJs
                  (Tests.buildOptions Infinity ".js"))]
  ∧ ∃ message, snd (Tests.bundle this) = inl (TypeError message).
Proof.
  intros options this metafile. split; [| split].
  - pose proof (X6_metafile_written_on_request Helper.asArray Helper.isESM
                  Helper.assertIsString
                  (fun _ => BuildOk (JObj [("metafile", metafile)]))
                  this options (JObj [("metafile", metafile)])
                  eq_refl eq_refl eq_refl eq_refl eq_refl) as (_ & H & _).
    rewrite (H [("metafile", metafile)] metafile eq_refl eq_refl eq_refl);
      [reflexivity | discriminate].
  - pose proof (X6_metafile_written_on_request Helper.asArray Helper.isESM
                  Helper.assertIsString Tests.mockBuild
                  Tests.nodeJs (Tests.buildOptions Infinity ".js") JUndefined
                  eq_refl eq_refl eq_refl eq_refl eq_refl) as (H & _).
    unfold Tests.bundle. by rewrite (H eq_refl).
  - pose proof (X6_metafile_written_on_request Helper.asArray Helper.isESM
                  Helper.assertIsString Tests.mockBuild this options JUndefined
                  eq_refl eq_refl eq_refl eq_refl eq_refl) as (_ & _ & H).
    apply (H eq_refl eq_refl).
Defined.

(** X7: in every run that completes, with or without a metafile written,
    the build results are those of the function entries whose function is
    not [null], in their order, one each, also for entries that share an
    entry path; each has the bundle path of its entry and its own function
    and alias.  A run completes when the assertions and the two checks
    pass, the compiler call returns, and the metafile is not asked for or
    is found in the result. *)
Theorem X7_results_in_entry_order
    (asArray : JSValue → list JSValue) (isESM : JSObject → bool)
    (assertIsString : JSValue → bool) (pkg_build : JSObject → BuildOutcome)
    (this : Bundle.Plugin) (options : JSObject) :
  Bundle.buildOptions this = Some options →
  let run := Bundle.bundle asArray isESM assertIsString pkg_build this in
  let expected :=
    (fun fe =>
       FunctionBuildResult.mk
         (Bundle.bundlePathOf (FunctionEntry.entry fe)
            (prop options "outputFileExtension"))
         (FunctionEntry.func fe) (FunctionEntry.functionAlias fe))
    <$> filter (fun fe => is_null (FunctionEntry.func fe) = false)
               (Bundle.functionEntries this) in
  (∀ results, snd run = inr results → results = expected)
  ∧ (∀ buildResult,
       assertIsString (Bundle.buildDirPath this) = true →
       isESM options && strict_eq_str (prop options "outputFileExtension") ".cjs"
       = false →
       negb (isESM options) && strict_eq_str (prop options "outputFileExtension") ".mjs"
       = false →
       pkg_build (Bundle.buildCallOf asArray this options) = BuildOk buildResult →
       truthy (prop options "metafile") = false
       ∨ (∃ metafile,
            get_prop buildResult "metafile" = inr metafile ∧ metafile ≠ JUndefined) →
       snd run = inr expected).
Proof.
  intros Hoptions run expected. subst run expected.
  rewrite <- mapFunctionEntries_buildCacheOf with (buildResult := JUndefined).
  assert (∀ buildResult,
            Bundle.mapFunctionEntries (Bundle.buildCacheOf this options buildResult)
              (Bundle.functionEntries this)
            = Bundle.mapFunctionEntries (Bundle.buildCacheOf this options JUndefined)
                (Bundle.functionEntries this)) as Hsame
    by (intros; by rewrite !mapFunctionEntries_buildCacheOf).
  split.
  - intros results Hrun.
    destruct (assertIsString (Bundle.buildDirPath this)) eqn:Hdir;
      [| by rewrite (bundle_no_dir _ _ _ _ _ _ Hoptions Hdir) in Hrun].
    destruct (isESM options && strict_eq_str (prop options "outputFileExtension") ".cjs")
      eqn:Hcjs.
    { apply andb_true_iff in Hcjs as [Hesm Hext].
      by rewrite (bundle_esm_cjs _ _ _ _ _ _ Hoptions Hdir Hesm Hext) in Hrun. }
    destruct (negb (isESM options)
              && strict_eq_str (prop options "outputFileExtension") ".mjs") eqn:Hmjs.
    { apply andb_true_iff in Hmjs as [Hesm%negb_true_iff Hext].
      by rewrite (bundle_non_esm_mjs _ _ _ _ _ _ Hoptions Hdir Hesm Hext) in Hrun. }
    rewrite (bundle_trace _ _ _ _ _ _ Hoptions Hdir Hcjs Hmjs) in Hrun.
    destruct (pkg_build _) as [buildResult | reason]; [| done].
    cbn zeta in Hrun. rewrite Hsame in Hrun.
    destruct (truthy (prop options "metafile")); [| by injection Hrun].
    destruct (get_prop buildResult "metafile") as [err | metafile]; [done |].
    destruct metafile; first [done | by injection Hrun].
  - intros buildResult Hdir Hcjs Hmjs Hbuild Hmeta.
    rewrite (bundle_trace _ _ _ _ _ _ Hoptions Hdir Hcjs Hmjs), Hbuild.
    cbn zeta. rewrite Hsame.
    destruct Hmeta as [-> | (metafile & -> & Hdefined)]; [done |].
    destruct (truthy (prop options "metafile")); [| done].
    by destruct metafile.
Qed.

Lemma X7_results_in_entry_order_witness :
  let options := <["metafile" := JBool true]> (Tests.buildOptions Infinity ".js") in
  let build := fun _ : JSObject =>
    BuildOk (JObj [("metafile", JObj [("outputs", JObj [])])]) in
  let expected :=
    [ FunctionBuildResult.mk "file1.js" (Tests.handlerOf "file1.handler") "func1";
      FunctionBuildResult.mk "file1.js" (Tests.handlerOf "file1.handler2") "func3" ] in
  snd (Bundle.bundle Helper.asArray Helper.isESM Helper.assertIsString build
         (Tests.esbuildPlugin options Tests.withNull))
  = inr expected
  ∧ snd (Tests.bundle (Tests.esbuildPlugin (Tests.buildOptions Infinity ".js")
                         Tests.withNull))
    = inr expected.
Proof.
  intros options build expected. split.
  - destruct (X7_results_in_entry_order Helper.asArray Helper.isESM
                Helper.assertIsString build
                (Tests.esbuildPlugin options Tests.withNull) options eq_refl)
      as [_ Hcompletes].
    rewrite (Hcompletes (JObj [("metafile", JObj [("outputs", JObj [])])])
               eq_refl eq_refl eq_refl eq_refl).
    + reflexivity.
    + right. eexists. split; [reflexivity | discriminate].
  - destruct (X7_results_in_entry_order Helper.asArray Helper.isESM
                Helper.assertIsString Tests.mockBuild
                (Tests.esbuildPlugin (Tests.buildOptions Infinity ".js") Tests.withNull)
                (Tests.buildOptions Infinity ".js") eq_refl)
      as [_ Hcompletes].
    unfold Tests.bundle.
    rewrite (Hcompletes JUndefined eq_refl eq_refl eq_refl eq_refl);
      [reflexivity | by left].
Defined.

(** X8: an entry that already ends in the output extension is its own
    bundle path, so computing the bundle path twice gives the same as
    once (for an extension that is a dot followed by dot-free
    characters, and an entry with a dot). *)
Theorem X8_bundle_path_stable (pre suf x : string) :
  has_char "." x = false → has_char "." suf = false →
  let ext := JStr (String "." x) in
  Bundle.bundlePathOf (pre ++ String "." x) ext = pre ++ String "." x
  ∧ Bundle.bundlePathOf (Bundle.bundlePathOf (pre ++ String "." suf) ext) ext
    = Bundle.bundlePathOf (pre ++ String "." suf) ext.
Proof.
  intros Hx Hsuf ext. subst ext.
  assert (Bundle.bundlePathOf (pre ++ String "." x) (JStr (String "." x))
          = pre ++ String "." x) as Hfix
    by (by rewrite bundlePathOf_last_dot).
  split; [done |].
  rewrite (bundlePathOf_last_dot pre suf _ Hsuf). exact Hfix.
Qed.

Lemma X8_bundle_path_stable_witness :
  Bundle.bundlePathOf ("src/handler" ++ String "." "js") (JStr (String "." "js"))
  = "src/handler" ++ String "." "js"
  ∧ Bundle.bundlePathOf
      (Bundle.bundlePathOf ("src/handler" ++ String "." "ts") (JStr (String "." "js")))
      (JStr (String "." "js"))
    = Bundle.bundlePathOf ("src/handler" ++ String "." "ts") (JStr (String "." "js")).
Proof.
  apply (X8_bundle_path_stable "src/handler" "ts" "js"); reflexivity.
Defined.

(** ** The Bun packager: scripts and manifests *)

Section RunScripts.

Variable spawnProcess :
  list Bun.SpawnCall → Bun.SpawnCall → Bun.SpawnFailure + Bun.Streams.
Variable firstToReject : list Bun.SpawnFailure → nat.
Variable cwd : string.

Lemma spawnEach_log (scriptNames : list string) (log : list Bun.SpawnCall) :
  fst (BunScripts.spawnEach spawnProcess cwd scriptNames log)
  = (log ++ (MoreWords.runCall cwd <$> scriptNames))%list.
Proof.
  revert log. induction scriptNames as [|n names IH]; intros log.
  - cbn. by rewrite app_nil_r.
  - cbn [BunScripts.spawnEach Bun.spawn].
    specialize (IH (log ++ [MoreWords.runCall cwd n])%list).
    unfold MoreWords.runCall at 1 in IH.
    destruct (BunScripts.spawnEach _ _ _ _) as [log2 outcomes]. cbn [fst] in *.
    by rewrite IH, fmap_cons, <- app_assoc.
Qed.

Lemma spawnEach_outcomes (scriptNames : list string) (log : list Bun.SpawnCall)
    (i : nat) :
  snd (BunScripts.spawnEach spawnProcess cwd scriptNames log) !! i
  = (fun n => spawnProcess (log ++ (MoreWords.runCall cwd <$> take i scriptNames))%list
                (MoreWords.runCall cwd n))
    <$> scriptNames !! i.
Proof.
  revert log i. induction scriptNames as [|n names IH]; intros log i.
  - done.
  - cbn [BunScripts.spawnEach Bun.spawn].
    specialize (IH (log ++ [MoreWords.runCall cwd n])%list).
    unfold MoreWords.runCall at 1 in IH.
    destruct (BunScripts.spawnEach _ _ _ _) as [log2 outcomes]. cbn [snd] in *.
    destruct i as [|i].
    + cbn. by rewrite app_nil_r.
    + cbn [lookup list_lookup take]. rewrite IH.
      by rewrite fmap_cons, <- app_assoc.
Qed.

Lemma rejections_nil (outcomes : list (Bun.SpawnFailure + Bun.Streams)) :
  BunScripts.rejections outcomes = []
  ↔ ∀ i o, outcomes !! i = Some o → ∃ out, o = inr out.
Proof.
  induction outcomes as [|[err | out] outcomes IH]; cbn.
  - split; [| done]. intros _ i o Hi. by rewrite lookup_nil in Hi.
  - split; [done |]. intros H. destruct (H 0 (inl err) eq_refl) as [? [=]].
  - rewrite IH. split.
    + intros H [|i] o Hi; [| by apply (H i)]. injection Hi as <-. by eexists.
    + intros H i o Hi. by apply (H (S i)).
Qed.

Lemma elem_of_rejections (outcomes : list (Bun.SpawnFailure + Bun.Streams))
    (err : Bun.SpawnFailure) :
  err ∈ BunScripts.rejections outcomes ↔ ∃ i, outcomes !! i = Some (inl err).
Proof.
  induction outcomes as [|[err' | out] outcomes IH]; cbn.
  - rewrite elem_of_nil. split; [done |]. intros [i Hi]. by rewrite lookup_nil in Hi.
  - rewrite elem_of_cons, IH. split.
    + intros [-> | [i Hi]]; [by exists 0 | by exists (S i)].
    + intros [[|i] Hi]; [left; by injection Hi | right; by exists i].
  - rewrite IH. split.
    + intros [i Hi]. by exists (S i).
    + intros [[|i] Hi]; [done | by exists i].
Qed.

Lemma Promise_all_rejected (outcomes : list (Bun.SpawnFailure + Bun.Streams))
    (err : Bun.SpawnFailure) :
  BunScripts.Promise_all firstToReject outcomes = inl err →
  err ∈ BunScripts.rejections outcomes.
Proof.
  unfold BunScripts.Promise_all.
  destruct (BunScripts.rejections outcomes) as [|e es]; [done |].
  generalize (firstToReject (e :: es)). intros k.
  remember (e :: es) as l eqn:Hl. intros Heq.
  assert (err = nth (k `mod` length l) l e) as -> by congruence.
  apply list_elem_of_In, nth_In, Nat.mod_upper_bound. by subst l.
Qed.

End RunScripts.

(** X9: [runScripts] spawns one [bun run <script>] per script name, in
    the given order and in the working directory, whether or not any of
    them fails: a failing script does not keep the later ones from being
    started.  With no script names nothing is spawned. *)
Theorem X9_runScripts_spawns_every_script
    (spawnProcess : list Bun.SpawnCall → Bun.SpawnCall → Bun.SpawnFailure + Bun.Streams)
    (firstToReject : list Bun.SpawnFailure → nat)
    (cwd : string) (scriptNames : list string) (log : list Bun.SpawnCall) :
  fst (BunScripts.runScripts spawnProcess firstToReject cwd scriptNames log)
  = (log ++ (MoreWords.runCall cwd <$> scriptNames))%list.
Proof.
  unfold BunScripts.runScripts.
  pose proof (spawnEach_log spawnProcess cwd scriptNames log) as Hlog.
  destruct (BunScripts.spawnEach _ _ _ _) as [log' outcomes]. exact Hlog.
Qed.

(** X10: [runScripts] succeeds exactly when every script succeeds (so
    also when there is none), and when it fails, its error is the error of
    one of the scripts that failed. *)
Theorem X10_runScripts_fails_with_a_script
    (spawnProcess : list Bun.SpawnCall → Bun.SpawnCall → Bun.SpawnFailure + Bun.Streams)
    (firstToReject : list Bun.SpawnFailure → nat)
    (cwd : string) (scriptNames : list string) (log : list Bun.SpawnCall) :
  let outcomeOf i n :=
    spawnProcess (log ++ (MoreWords.runCall cwd <$> take i scriptNames))%list
      (MoreWords.runCall cwd n) in
  let result :=
    snd (BunScripts.runScripts spawnProcess firstToReject cwd scriptNames log) in
  (result = inr tt
   ↔ ∀ i n, scriptNames !! i = Some n → ∃ out, outcomeOf i n = inr out)
  ∧ (∀ err, result = inl err →
       ∃ i n, scriptNames !! i = Some n ∧ outcomeOf i n = inl err).
Proof.
  intros outcomeOf result. subst outcomeOf result.
  unfold BunScripts.runScripts.
  pose proof (spawnEach_outcomes spawnProcess cwd scriptNames log) as Hout.
  destruct (BunScripts.spawnEach _ _ _ _) as [log' outcomes]. cbn [snd] in *.
  split.
  - split.
    + intros Hok i n Hn.
      assert (BunScripts.rejections outcomes = []) as Hnil.
      { unfold BunScripts.Promise_all in Hok.
        by destruct (BunScripts.rejections outcomes). }
      rewrite rejections_nil in Hnil.
      apply (Hnil i). by rewrite Hout, Hn.
    + intros Hall. unfold BunScripts.Promise_all.
      replace (BunScripts.rejections outcomes) with (@nil Bun.SpawnFailure); [done |].
      symmetry. apply rejections_nil. intros i o Hi.
      rewrite Hout in Hi. destruct (scriptNames !! i) as [n|] eqn:Hn; [| done].
      injection Hi as <-. by apply Hall.
  - intros err Herr%Promise_all_rejected.
    apply elem_of_rejections in Herr as [i Hi].
    rewrite Hout in Hi. destruct (scriptNames !! i) as [n|] eqn:Hn; [| done].
    injection Hi as Hi. by exists i, n.
Qed.

Lemma X10_runScripts_fails_with_a_script_witness :
  snd (BunScripts.runScripts BunTests.succeeds (fun _ => 0) "/app"
         ["build"; "postinstall"] [])
  = inr tt.
Proof.
  apply (X10_runScripts_fails_with_a_script BunTests.succeeds (fun _ => 0) "/app"
           ["build"; "postinstall"] []).
  intros i n Hn. by eexists.
Defined.

(** X11: whatever was spawned before and however the processes behave,
    [install] spawns one process or two: [bun install --production] and,
    only after that one failed, [bun install], each in the working
    directory and followed by the extra arguments in their order; the
    flag for the lockfile changes nothing. *)
Theorem X11_install_spawns_one_or_two
    (spawnProcess : list Bun.SpawnCall → Bun.SpawnCall → Bun.SpawnFailure + Bun.Streams)
    (cwd : string) (extraArgs : list string) (useLockfile : bool)
    (log : list Bun.SpawnCall) :
  let production :=
    {| Bun.command := "bun"; Bun.args := "install" :: "--production" :: extraArgs;
       Bun.cwd := cwd |} in
  let fallback :=
    {| Bun.command := "bun"; Bun.args := "install" :: extraArgs; Bun.cwd := cwd |} in
  let run := Bun.install spawnProcess cwd extraArgs useLockfile log in
  (fst run = (log ++ [production])%list
   ∧ (∃ out, spawnProcess log production = inr out) ∧ snd run = inr tt
   ∨ fst run = (log ++ [production; fallback])%list
     ∧ (∃ err, spawnProcess log production = inl err))
  ∧ run = Bun.install spawnProcess cwd extraArgs (negb useLockfile) log.
Proof.
  intros production fallback run. subst run.
  unfold Bun.install, Bun.try_catch_proc, Bun.await_void, Bun.spawn.
  fold production. fold fallback.
  split; [| done].
  destruct (spawnProcess log production) as [err | out] eqn:Hfirst.
  - right. split; [| by eexists].
    destruct (spawnProcess (log ++ [production])%list fallback);
      cbn [fst]; by rewrite <- app_assoc.
  - left. split; [done |]. split; [by eexists | done].
Qed.

(** X12: a manifest that is valid JSON and no object ([null], a number,
    a string, a boolean, an array) gives the empty dependency set, and so
    does a manifest whose [dependencies] is [null], a boolean, a number or
    the empty string: neither is an error. *)
Theorem X12_manifest_without_entries
    (path_join : string → string → string)
    (readFileSync : string → Exn + string) (JSON_parse : string → Exn + JSValue)
    (cwd : string) (depth : option nat) (text : string) :
  readFileSync (path_join cwd "package.json") = inr text →
  let result := Bun.getProdDependencies path_join readFileSync JSON_parse cwd depth in
  (∀ packageJson,
     JSON_parse text = inr packageJson → (∀ m, packageJson ≠ JObj m) →
     result = inr {| Bun.dependencies := ∅ |})
  ∧ (∀ m deps,
       JSON_parse text = inr (JObj m) → own m !! "dependencies" = Some deps →
       MoreWords.holdsNoEntries deps = true →
       result = inr {| Bun.dependencies := ∅ |}).
Proof.
  intros Hread result. subst result. unfold Bun.getProdDependencies.
  rewrite Hread. split.
  - intros packageJson -> Hobj.
    destruct packageJson as [| | | | | |fields]; try done. by destruct (Hobj fields).
  - intros m deps -> Hdeps Hnone. cbn [get_prop]. unfold prop. rewrite Hdeps.
    cbn [default Bun.try_catch].
    destruct deps as [| |[]|[[]|]|[]| |]; try done.
Qed.

Lemma X12_manifest_without_entries_witness :
  Bun.getProdDependencies BunTests.path_join (fun _ => inr "null")
    (fun _ => inr JNull) "/app" None
  = inr {| Bun.dependencies := ∅ |}
  ∧ Bun.getProdDependencies BunTests.path_join (fun _ => inr "{..}")
      (fun _ => inr (JObj [("dependencies", JNum (Int 7))])) "/app" None
    = inr {| Bun.dependencies := ∅ |}.
Proof.
  split.
  - pose proof (X12_manifest_without_entries BunTests.path_join
                  (fun _ => inr "null") (fun _ => inr JNull) "/app" None "null"
                  eq_refl) as [H _].
    apply (H JNull eq_refl). discriminate.
  - pose proof (X12_manifest_without_entries BunTests.path_join
                  (fun _ => inr "{..}")
                  (fun _ => inr (JObj [("dependencies", JNum (Int 7))]))
                  "/app" None "{..}" eq_refl) as [_ H].
    apply (H [("dependencies", JNum (Int 7))] (JNum (Int 7)) eq_refl eq_refl eq_refl).
Defined.

(** X13: of a manifest that parses to an object only the [dependencies]
    section counts: two manifests with the same [dependencies] (or both
    without) give the same result, whatever else they hold
    ([devDependencies], [name], ...) and wherever they lie. *)
Theorem X13_only_dependencies_count
    (path_join : string → string → string)
    (readFileSync1 readFileSync2 : string → Exn + string)
    (JSON_parse1 JSON_parse2 : string → Exn + JSValue)
    (cwd1 cwd2 : string) (depth1 depth2 : option nat)
    (text1 text2 : string) (m1 m2 : list (string * JSValue)) :
  readFileSync1 (path_join cwd1 "package.json") = inr text1 →
  readFileSync2 (path_join cwd2 "package.json") = inr text2 →
  JSON_parse1 text1 = inr (JObj m1) → JSON_parse2 text2 = inr (JObj m2) →
  own m1 !! "dependencies" = own m2 !! "dependencies" →
  Bun.getProdDependencies path_join readFileSync1 JSON_parse1 cwd1 depth1
  = Bun.getProdDependencies path_join readFileSync2 JSON_parse2 cwd2 depth2.
Proof.
  intros Hread1 Hread2 Hparse1 Hparse2 Hdeps. unfold Bun.getProdDependencies.
  rewrite Hread1, Hread2, Hparse1, Hparse2. cbn [get_prop]. unfold prop.
  by rewrite Hdeps.
Qed.

Lemma X13_only_dependencies_count_witness :
  Bun.getProdDependencies BunTests.path_join BunTests.readFileSync
    BunTests.JSON_parse "/app" None
  = Bun.getProdDependencies BunTests.path_join (fun _ => inr "{..}")
      (fun _ => inr (JObj (("devDependencies", JObj [("jest", JStr "^29")])
                             :: BunTests.manifest)))
      "/elsewhere" (Some 2).
Proof.
  apply (X13_only_dependencies_count BunTests.path_join BunTests.readFileSync
           (fun _ => inr "{..}") BunTests.JSON_parse _ "/app" "/elsewhere" None (Some 2)
           BunTests.manifestText "{..}" BunTests.manifest
           (("devDependencies", JObj [("jest", JStr "^29")]) :: BunTests.manifest));
    reflexivity.
Defined.

(** ** The utilities: [trimExtension] *)

Lemma slice_empty (s : string) : slice s 0 0 = EmptyString.
Proof.
  unfold slice, clamp_index.
  replace (0 <? 0)%Z with false by done.
  rewrite Z.min_l by lia. by destruct s.
Qed.

Lemma slice_drop_suffix (stem ext : string) :
  ext ≠ EmptyString →
  slice (stem ++ ext) 0 (- Z.of_nat (String.length ext)) = stem.
Proof.
  intros Hext. unfold slice, clamp_index. rewrite length_append.
  assert (0 < String.length ext) by (destruct ext; [done | simpl; lia]).
  replace (0 <? 0)%Z with false by done.
  destruct (Z.ltb_spec (- Z.of_nat (String.length ext)) 0); [| lia].
  rewrite Z.min_l by lia.
  replace (Z.to_nat (Z.max (Z.max (Z.of_nat (String.length stem + String.length ext)
                                   + - Z.of_nat (String.length ext)) 0 - 0) 0))
    with (String.length stem) by lia.
  apply substring_prefix.
Qed.

(** X14: for an entry without an extension ([path.extname] gives the
    empty string) [trimExtension] returns the empty string, not the
    entry. *)
Theorem X14_trimExtension_without_extension
    (path_extname : string → string) (entry : string) :
  path_extname entry = EmptyString →
  Utils.trimExtension path_extname entry = EmptyString.
Proof.
  intros Hext. unfold Utils.trimExtension. rewrite Hext. apply slice_empty.
Qed.

Lemma X14_trimExtension_without_extension_witness :
  Utils.trimExtension MoreTests.extname "src/handler" = EmptyString.
Proof.
  apply (X14_trimExtension_without_extension MoreTests.extname "src/handler").
  reflexivity.
Defined.

(** X15: for an entry that ends in its non-empty extension,
    [trimExtension] returns what comes before the extension, so that the
    result followed by the extension is the entry again. *)
Theorem X15_trimExtension_with_extension
    (path_extname : string → string) (stem ext : string) :
  ext ≠ EmptyString →
  path_extname (stem ++ ext) = ext →
  Utils.trimExtension path_extname (stem ++ ext) = stem
  ∧ Utils.trimExtension path_extname (stem ++ ext) ++ path_extname (stem ++ ext)
    = stem ++ ext.
Proof.
  intros Hne Hext. unfold Utils.trimExtension. rewrite Hext.
  by rewrite slice_drop_suffix.
Qed.

Lemma X15_trimExtension_with_extension_witness :
  Utils.trimExtension MoreTests.extname ("src/handler.test" ++ ".ts")
  = "src/handler.test".
Proof.
  apply (X15_trimExtension_with_extension MoreTests.extname "src/handler.test" ".ts").
  - discriminate.
  - reflexivity.
Defined.

(** X16: on an entry whose extension is its part from the last ['.'] on,
    [bundle] and [trimExtension] cut at the same place: the bundle path
    is the trimmed entry followed by the output extension.  On an entry
    without extension they differ: [trimExtension] returns the empty
    string, while [bundle] drops the last character when the entry has no
    ['.'] at all, and cuts at the dot of the directory when the last ['.']
    lies in a directory name. *)
Theorem X16_bundle_path_of_trimmed_entry
    (path_extname : string → string) (outputFileExtension : string) :
  (∀ stem x,
     has_char "." x = false →
     path_extname (stem ++ String "." x) = String "." x →
     Utils.trimExtension path_extname (stem ++ String "." x) = stem
     ∧ Bundle.bundlePathOf (stem ++ String "." x) (JStr outputFileExtension)
       = stem ++ outputFileExtension)
  ∧ (∀ entry,
       has_char "." entry = false → path_extname entry = EmptyString →
       Utils.trimExtension path_extname entry = EmptyString
       ∧ Bundle.bundlePathOf entry (JStr outputFileExtension)
         = dropLast entry ++ outputFileExtension)
  ∧ (∀ pre seg file,
       has_char "." seg = false → has_char "." file = false →
       path_extname (pre ++ String "." (seg ++ String "/" file)) = EmptyString →
       Utils.trimExtension path_extname (pre ++ String "." (seg ++ String "/" file))
       = EmptyString
       ∧ Bundle.bundlePathOf (pre ++ String "." (seg ++ String "/" file))
           (JStr outputFileExtension)
         = pre ++ outputFileExtension).
Proof.
  split; [| split].
  - intros stem x Hx Hext. split.
    + unfold Utils.trimExtension. rewrite Hext. by rewrite slice_drop_suffix.
    + by rewrite (bundlePathOf_last_dot _ _ _ Hx).
  - intros entry Hno Hext. split.
    + unfold Utils.trimExtension. rewrite Hext. by rewrite slice_empty.
    + by rewrite (bundlePathOf_no_dot _ _ Hno).
  - intros pre seg file Hseg Hfile Hext. split.
    + unfold Utils.trimExtension. rewrite Hext. by rewrite slice_empty.
    + rewrite bundlePathOf_last_dot; [done |].
      rewrite has_char_append, Hseg. simpl. by rewrite Hfile.
Qed.

Lemma X16_bundle_path_of_trimmed_entry_witness :
  (Utils.trimExtension MoreTests.extname "src/handler.ts" = "src/handler"
   ∧ Bundle.bundlePathOf "src/handler.ts" (JStr ".mjs") = "src/handler.mjs")
  ∧ (Utils.trimExtension MoreTests.extname "src/handler" = EmptyString
     ∧ Bundle.bundlePathOf "src/handler" (JStr ".mjs") = "src/handle.mjs")
  ∧ (Utils.trimExtension MoreTests.extname "src.v2/handler" = EmptyString
     ∧ Bundle.bundlePathOf "src.v2/handler" (JStr ".mjs") = "src.mjs").
Proof.
  pose proof (X16_bundle_path_of_trimmed_entry MoreTests.extname ".mjs")
    as (Hcut & Hnone & Hdir).
  split; [| split].
  - apply (Hcut "src/handler" "ts"); reflexivity.
  - apply (Hnone "src/handler"); reflexivity.
  - apply (Hdir "src" "v2" "handler"); reflexivity.
Defined.

(** ** The utilities: [findUp] and [findProjectRoot] *)

Section FindUpFacts.

Variable path_resolve : string → string.
Variable path_dirname : string → string.
Variable path_join : string → string → string.
Variable path_root : string → string.
Variable safeFileExists : string → bool.

Local Abbreviation findUpEffect :=
  (Utils.findUpEffect path_resolve path_dirname path_join path_root safeFileExists).
Local Abbreviation ancestorAt := (MoreWords.ancestorAt path_resolve path_dirname).
Local Abbreviation containsAny := (MoreWords.containsAny path_join safeFileExists).
Local Abbreviation isPathRoot := (Utils.isPathRoot path_resolve path_root).

Lemma existsb_fmap_id (names : list string) (dir : string) :
  existsb (fun b : bool => b)
    ((fun name => safeFileExists (path_join dir name)) <$> names)
  = containsAny names dir.
Proof.
  unfold MoreWords.containsAny.
  induction names as [|n names IH]; [done |]. cbn. by rewrite IH.
Qed.

Lemma findUpEffect_found (fuel : nat) (names : list string) (directory dir : string) :
  findUpEffect fuel names directory = Some (Some dir)
  ↔ ∃ k, k < fuel
         ∧ dir = ancestorAt k directory
         ∧ containsAny names dir = true
         ∧ ∀ j, j < k →
             containsAny names (ancestorAt j directory) = false
             ∧ isPathRoot (ancestorAt j directory) = false.
Proof.
  revert directory. induction fuel as [|fuel IH]; intros directory.
  - cbn. split; [done |]. intros (k & Hk & _). lia.
  - cbn [Utils.findUpEffect]. rewrite existsb_fmap_id.
    destruct (containsAny names (path_resolve directory)) eqn:Hhere.
    + split.
      * intros [= <-]. exists 0.
        split; [lia |]. split; [done |]. split; [done |]. intros j Hj. lia.
      * intros (k & Hk & -> & Hfound & Hbefore).
        destruct k as [|k]; [done |].
        destruct (Hbefore 0) as [Hnone _]; [lia |]. cbn in Hnone. congruence.
    + destruct (isPathRoot (path_resolve directory)) eqn:Hroot.
      * split; [done |]. intros (k & Hk & -> & Hfound & Hbefore).
        destruct k as [|k]; [cbn in Hfound; congruence |].
        destruct (Hbefore 0) as [_ Hnot]; [lia |]. cbn in Hnot. congruence.
      * rewrite IH. split.
        -- intros (k & Hk & -> & Hfound & Hbefore). exists (S k).
           split; [lia |]. split; [done |]. split; [done |].
           intros [|j] Hj; [done | apply Hbefore; lia].
        -- intros (k & Hk & -> & Hfound & Hbefore).
           destruct k as [|k]; [cbn in Hfound; congruence |].
           exists k. split; [lia |]. split; [done |]. split; [done |].
           intros j Hj. apply (Hbefore (S j)). lia.
Qed.

Lemma findUpEffect_none (fuel : nat) (names : list string) (directory : string) :
  findUpEffect fuel names directory = Some None
  ↔ ∃ k, k < fuel
         ∧ isPathRoot (ancestorAt k directory) = true
         ∧ containsAny names (ancestorAt k directory) = false
         ∧ ∀ j, j < k →
             containsAny names (ancestorAt j directory) = false
             ∧ isPathRoot (ancestorAt j directory) = false.
Proof.
  revert directory. induction fuel as [|fuel IH]; intros directory.
  - cbn. split; [done |]. intros (k & Hk & _). lia.
  - cbn [Utils.findUpEffect]. rewrite existsb_fmap_id.
    destruct (containsAny names (path_resolve directory)) eqn:Hhere.
    + split; [done |]. intros (k & Hk & Hroot & Hnone & Hbefore).
      destruct k as [|k]; [cbn in Hnone; congruence |].
      destruct (Hbefore 0) as [Hnone0 _]; [lia |]. cbn in Hnone0. congruence.
    + destruct (isPathRoot (path_resolve directory)) eqn:Hroot.
      * split; [| done]. intros _. exists 0.
        split; [lia |]. split; [done |]. split; [done |]. intros j Hj. lia.
      * rewrite IH. split.
        -- intros (k & Hk & Hr & Hnone & Hbefore). exists (S k).
           split; [lia |]. split; [done |]. split; [done |].
           intros [|j] Hj; [done | apply Hbefore; lia].
        -- intros (k & Hk & Hr & Hnone & Hbefore).
           destruct k as [|k]; [cbn in Hr; congruence |].
           exists k. split; [lia |]. split; [done |]. split; [done |].
           intros j Hj. apply (Hbefore (S j)). lia.
Qed.

End FindUpFacts.

(** X17: [findUp] returns a directory exactly when that directory is the
    nearest one to hold the file, going from the working directory up
    through its parents: the file is in it, it is in none of the
    directories passed before, and none of those is the root (the search
    would have stopped there).  The working directory itself and the root
    are looked into. *)
Theorem X17_findUp_nearest_directory
    (path_resolve path_dirname : string → string)
    (path_join : string → string → string) (path_root : string → string)
    (process_cwd : string) (safeFileExists : string → bool)
    (fuel : nat) (name dir : string) :
  let ancestor k := MoreWords.ancestorAt path_resolve path_dirname k process_cwd in
  Utils.findUp path_resolve path_dirname path_join path_root process_cwd
    safeFileExists fuel name
  = Some (Some dir)
  ↔ ∃ k, k < fuel
         ∧ dir = ancestor k
         ∧ safeFileExists (path_join dir name) = true
         ∧ ∀ j, j < k →
             safeFileExists (path_join (ancestor j) name) = false
             ∧ Utils.isPathRoot path_resolve path_root (ancestor j) = false.
Proof.
  intros ancestor. subst ancestor. unfold Utils.findUp.
  rewrite findUpEffect_found. unfold MoreWords.containsAny. cbn [existsb].
  setoid_rewrite orb_false_r. done.
Qed.

Lemma X17_findUp_nearest_directory_witness :
  Utils.findUp (fun p => p) MoreTests.dirname MoreTests.join MoreTests.root
    "/repo/services/api" MoreTests.exists_ 10 "package-lock.json"
  = Some (Some "/repo").
Proof.
  apply (X17_findUp_nearest_directory (fun p => p) MoreTests.dirname MoreTests.join
           MoreTests.root "/repo/services/api" MoreTests.exists_ 10
           "package-lock.json" "/repo").
  exists 2. split; [lia |]. split; [reflexivity |]. split; [reflexivity |].
  intros [|[|j]] Hj; [split; reflexivity | split; reflexivity | lia].
Defined.

(** X18: [findUp] returns [undefined] exactly when the walk reaches the
    root without finding the file: the file is in none of the directories
    from the working directory up to the root, the root included. *)
Theorem X18_findUp_undefined_at_root
    (path_resolve path_dirname : string → string)
    (path_join : string → string → string) (path_root : string → string)
    (process_cwd : string) (safeFileExists : string → bool)
    (fuel : nat) (name : string) :
  let ancestor k := MoreWords.ancestorAt path_resolve path_dirname k process_cwd in
  Utils.findUp path_resolve path_dirname path_join path_root process_cwd
    safeFileExists fuel name
  = Some None
  ↔ ∃ k, k < fuel
         ∧ Utils.isPathRoot path_resolve path_root (ancestor k) = true
         ∧ safeFileExists (path_join (ancestor k) name) = false
         ∧ ∀ j, j < k →
             safeFileExists (path_join (ancestor j) name) = false
             ∧ Utils.isPathRoot path_resolve path_root (ancestor j) = false.
Proof.
  intros ancestor. subst ancestor. unfold Utils.findUp.
  rewrite findUpEffect_none. unfold MoreWords.containsAny. cbn [existsb].
  setoid_rewrite orb_false_r. done.
Qed.

Lemma X18_findUp_undefined_at_root_witness :
  Utils.findUp (fun p => p) MoreTests.dirname MoreTests.join MoreTests.root
    "/repo/services" MoreTests.exists_ 10 "yarn.lock"
  = Some None.
Proof.
  apply (X18_findUp_undefined_at_root (fun p => p) MoreTests.dirname MoreTests.join
           MoreTests.root "/repo/services" MoreTests.exists_ 10 "yarn.lock").
  exists 2. split; [lia |]. split; [reflexivity |]. split; [reflexivity |].
  intros [|[|j]] Hj; [split; reflexivity | split; reflexivity | lia].
Defined.

(** X19: [findProjectRoot] returns a given [rootDir] as it is, without a
    look at the file system.  Without one it returns the nearest
    directory, from the working directory upwards, that holds one of
    [yarn.lock], [pnpm-lock.yaml], [package-lock.json], [bun.lock],
    [bun.lockb]. *)
Theorem X19_findProjectRoot
    (path_resolve path_dirname : string → string)
    (path_join : string → string → string) (path_root : string → string)
    (process_cwd : string) (safeFileExists : string → bool)
    (fuel : nat) :
  let ancestor k := MoreWords.ancestorAt path_resolve path_dirname k process_cwd in
  let findProjectRoot :=
    Utils.findProjectRoot path_resolve path_dirname path_join path_root process_cwd
      safeFileExists in
  (∀ rootDir, findProjectRoot 0 (Some rootDir) = Some (Some rootDir))
  ∧ (∀ dir,
       findProjectRoot fuel None = Some (Some dir)
       ↔ ∃ k, k < fuel
              ∧ dir = ancestor k
              ∧ (∃ name, name ∈ Utils.lockfileNames
                         ∧ safeFileExists (path_join dir name) = true)
              ∧ ∀ j, j < k →
                  (∀ name, name ∈ Utils.lockfileNames →
                           safeFileExists (path_join (ancestor j) name) = false)
                  ∧ Utils.isPathRoot path_resolve path_root (ancestor j) = false).
Proof.
  intros ancestor findProjectRoot. subst ancestor findProjectRoot.
  split; [done |]. intros dir. cbn [Utils.findProjectRoot].
  rewrite findUpEffect_found.
  assert (∀ d, MoreWords.containsAny path_join safeFileExists Utils.lockfileNames d = true
               ↔ ∃ name, name ∈ Utils.lockfileNames
                         ∧ safeFileExists (path_join d name) = true) as Hany.
  { intros d. unfold MoreWords.containsAny. rewrite existsb_exists.
    by setoid_rewrite list_elem_of_In. }
  assert (∀ d, MoreWords.containsAny path_join safeFileExists Utils.lockfileNames d = false
               ↔ ∀ name, name ∈ Utils.lockfileNames →
                         safeFileExists (path_join d name) = false) as Hnone.
  { intros d. rewrite <- not_true_iff_false, Hany. split.
    - intros Hno name Hin. apply not_true_iff_false. intros Hex. apply Hno. eauto.
    - intros Hall (name & Hin & Hex). rewrite (Hall name Hin) in Hex. done. }
  split.
  - intros (k & Hk & -> & Hfound & Hbefore). exists k.
    split; [done |]. split; [done |]. split; [by apply Hany |].
    intros j Hj. destruct (Hbefore j Hj) as [H1 H2]. split; [by apply Hnone | done].
  - intros (k & Hk & -> & Hfound & Hbefore). exists k.
    split; [done |]. split; [done |]. split; [by apply Hany |].
    intros j Hj. destruct (Hbefore j Hj) as [H1 H2]. split; [by apply Hnone | done].
Qed.

Lemma X19_findProjectRoot_witness :
  Utils.findProjectRoot (fun p => p) MoreTests.dirname MoreTests.join MoreTests.root
    "/repo/services/api" MoreTests.exists_ 10 None
  = Some (Some "/repo").
Proof.
  apply (X19_findProjectRoot (fun p => p) MoreTests.dirname MoreTests.join
           MoreTests.root "/repo/services/api" MoreTests.exists_ 10).
  exists 2. split; [lia |]. split; [reflexivity |]. split.
  - exists "package-lock.json". split; [| reflexivity].
    unfold Utils.lockfileNames. rewrite !elem_of_cons. tauto.
  - intros [|[|j]] Hj; [| | lia];
      (split; [| reflexivity]); intros name Hin;
      unfold Utils.lockfileNames in Hin;
      repeat (apply elem_of_cons in Hin as [-> | Hin]; [reflexivity |]);
      by apply elem_of_nil in Hin.
Defined.

Lemma findUpEffect_more_fuel
    (path_resolve path_dirname : string → string)
    (path_join : string → string → string) (path_root : string → string)
    (safeFileExists : string → bool)
    (names : list string) (fuel fuel' : nat) (directory : string)
    (result : option string) :
  Utils.findUpEffect path_resolve path_dirname path_join path_root safeFileExists
    fuel names directory = Some result →
  (fuel ≤ fuel')%nat →
  Utils.findUpEffect path_resolve path_dirname path_join path_root safeFileExists
    fuel' names directory = Some result.
Proof.
  revert fuel' directory. induction fuel as [|fuel IH]; intros fuel' directory;
    [done |].
  intros Hrun Hle. destruct fuel' as [|fuel']; [lia |].
  cbn [Utils.findUpEffect] in *.
  destruct (existsb _ _); [done |].
  destruct (Utils.isPathRoot _ _ _); [done |].
  apply IH; [done | lia].
Qed.

Lemma findUpEffect_reaches_root
    (path_resolve path_dirname : string → string)
    (path_join : string → string → string) (path_root : string → string)
    (safeFileExists : string → bool)
    (names : list string) (k : nat) (directory : string) :
  Utils.isPathRoot path_resolve path_root
    (MoreWords.ancestorAt path_resolve path_dirname k directory) = true →
  ∃ result,
    Utils.findUpEffect path_resolve path_dirname path_join path_root safeFileExists
      (S k) names directory = Some result.
Proof.
  revert directory. induction k as [|k IH]; intros directory Hroot.
  - cbn in *. destruct (existsb _ _); [by eexists |]. rewrite Hroot. by eexists.
  - change (Utils.findUpEffect path_resolve path_dirname path_join path_root
              safeFileExists (S (S k)) names directory)
      with (let dir := path_resolve directory in
            if existsb (fun b : bool => b)
                 ((fun name => safeFileExists (path_join dir name)) <$> names)
            then Some (Some dir)
            else if Utils.isPathRoot path_resolve path_root dir then Some None
            else Utils.findUpEffect path_resolve path_dirname path_join path_root
                   safeFileExists (S k) names (path_dirname dir)).
    cbn zeta. destruct (existsb _ _); [by eexists |].
    destruct (Utils.isPathRoot path_resolve path_root (path_resolve directory));
      [by eexists |].
    by apply IH.
Qed.

(** X20: when the walk up from a directory reaches a root after [k]
    steps, [findUpEffect] returns for every bound above [k], and the
    result is the same for all of them. *)
Theorem X20_findUpEffect_returns
    (path_resolve path_dirname : string → string)
    (path_join : string → string → string) (path_root : string → string)
    (safeFileExists : string → bool)
    (names : list string) (directory : string) (k fuel : nat) :
  Utils.isPathRoot path_resolve path_root
    (MoreWords.ancestorAt path_resolve path_dirname k directory) = true →
  k < fuel →
  ∃ result,
    Utils.findUpEffect path_resolve path_dirname path_join path_root safeFileExists
      fuel names directory = Some result
    ∧ Utils.findUpEffect path_resolve path_dirname path_join path_root safeFileExists
        (S k) names directory = Some result.
Proof.
  intros Hroot Hk.
  destruct (findUpEffect_reaches_root path_resolve path_dirname path_join path_root
              safeFileExists names k directory Hroot) as [result Hresult].
  exists result. split; [| done].
  apply (findUpEffect_more_fuel _ _ _ _ _ _ (S k)); [done | lia].
Qed.

Lemma X20_findUpEffect_returns_witness :
  ∃ result,
    Utils.findUpEffect (fun p => p) MoreTests.dirname MoreTests.join MoreTests.root
      MoreTests.exists_ 50 ["bun.lock"] "/repo/services/api" = Some result
    ∧ Utils.findUpEffect (fun p => p) MoreTests.dirname MoreTests.join MoreTests.root
        MoreTests.exists_ 4 ["bun.lock"] "/repo/services/api" = Some result.
Proof.
  apply (X20_findUpEffect_returns (fun p => p) MoreTests.dirname MoreTests.join
           MoreTests.root MoreTests.exists_ ["bun.lock"] "/repo/services/api" 3 50).
  - reflexivity.
  - lia.
Defined.

(** ** The utilities: [zip] *)

Section ZipFacts.

Variable path_basename : string → string → string.
Variable path_extname : string → string.
Variable path_dirname : string → string.
Variable path_join : string → string → string.
Variable now : Z.
Variable tempPathOf : string → string.
Variable attempt : list (Utils.FsOp * bool) → Utils.FsOp → bool.
Variable errorOf : Utils.FsOp → Exn.

Local Abbreviation linkOrCopyFile :=
  (Utils.linkOrCopyFile path_dirname path_join attempt errorOf).
Local Abbreviation stagedIn := (MoreWords.stagedIn path_join).

Lemma staging_log_app (events1 events2 : list (Utils.FsOp * bool)) :
  MoreWords.staging_log events1 → MoreWords.staging_log events2 → MoreWords.staging_log (events1 ++ events2)%list.
Proof.
  intros [Hops1 Hcopy1] [Hops2 Hcopy2]. split; [by apply Forall_app |].
  intros src dest ok [Hin | Hin]%elem_of_app; apply elem_of_app; eauto.
Qed.

Lemma linkOrCopyFile_events (temp : string) (file : Zip.IFile)
    (log : list (Utils.FsOp * bool)) :
  ∃ events,
    fst (linkOrCopyFile temp file log) = (log ++ events)%list
    ∧ MoreWords.staging_log events
    ∧ (snd (linkOrCopyFile temp file log) = inr tt → stagedIn temp events file).
Proof.
  unfold Utils.linkOrCopyFile, Utils.andThen, Utils.orCatch, Utils.perform,
    MoreWords.stagedIn.
  set (dest := path_join temp (Zip.localPath file)).
  set (mk := Utils.MakePath (path_dirname dest)).
  set (ln := Utils.Link (Zip.rootPath file) dest).
  set (cp := Utils.Copy (Zip.rootPath file) dest).
  destruct (attempt log mk).
  - destruct (attempt (log ++ [(mk, true)])%list ln).
    + exists [(mk, true); (ln, true)]. rewrite <- app_assoc.
      split; [done |]. split.
      * split; [by repeat constructor |]. intros src d ok Hin.
        rewrite !elem_of_cons, elem_of_nil in Hin. by destruct Hin as [|[|]].
      * intros _. left. rewrite !elem_of_cons. tauto.
    + destruct (attempt ((log ++ [(mk, true)]) ++ [(ln, false)])%list cp).
      * exists [(mk, true); (ln, false); (cp, true)]. rewrite <- !app_assoc.
        split; [done |]. split.
        -- split; [by repeat constructor |]. intros src d ok Hin.
           rewrite !elem_of_cons, elem_of_nil in Hin.
           destruct Hin as [|[|[[= -> -> ->]|]]]; try done.
           rewrite !elem_of_cons. tauto.
        -- intros _. right. rewrite !elem_of_cons. tauto.
      * exists [(mk, true); (ln, false); (cp, false)]. rewrite <- !app_assoc.
        split; [done |]. split; [| done].
        split; [by repeat constructor |]. intros src d ok Hin.
        rewrite !elem_of_cons, elem_of_nil in Hin.
        destruct Hin as [|[|[[= -> -> ->]|]]]; try done.
        rewrite !elem_of_cons. tauto.
  - exists [(mk, false)]. split; [done |]. split; [| done].
    split; [by repeat constructor |]. intros src d ok Hin.
    rewrite !elem_of_cons, elem_of_nil in Hin. by destruct Hin as [|].
Qed.

Lemma all_discard_events (temp : string) (files : list Zip.IFile)
    (log : list (Utils.FsOp * bool)) :
  ∃ events,
    fst (Utils.all_discard (linkOrCopyFile temp <$> files) log) = (log ++ events)%list
    ∧ MoreWords.staging_log events
    ∧ (snd (Utils.all_discard (linkOrCopyFile temp <$> files) log) = inr tt →
       ∀ file, file ∈ files → stagedIn temp events file).
Proof.
  revert log. induction files as [|file files IH]; intros log.
  - exists []. cbn. rewrite app_nil_r. split; [done |]. split.
    + split; [constructor |]. intros ? ? ? Hin. by apply elem_of_nil in Hin.
    + intros _ file Hin. by apply elem_of_nil in Hin.
  - rewrite fmap_cons. cbn [Utils.all_discard]. unfold Utils.andThen.
    destruct (linkOrCopyFile_events temp file log) as (ev1 & Hlog1 & Hst1 & Hok1).
    destruct (linkOrCopyFile temp file log) as [log1 [err | []]]; cbn [fst snd] in *.
    + exists ev1. split; [done |]. split; [done |]. intros [=].
    + subst log1. destruct (IH (log ++ ev1)%list) as (ev2 & Hlog2 & Hst2 & Hok2).
      exists (ev1 ++ ev2)%list. rewrite Hlog2, <- app_assoc.
      split; [done |]. split; [by apply staging_log_app |].
      intros Hok f [-> | Hin]%elem_of_cons.
      * destruct (Hok1 eq_refl) as [H | H]; [left | right]; apply elem_of_app; by left.
      * destruct (Hok2 Hok f Hin) as [H | H]; [left | right];
          apply elem_of_app; by right.
Qed.

Variable statSync : string → Exn + Zip.Stats.
Variable readFile : string → Exn + list Byte.byte.
Variable archive : list (list Byte.byte * Zip.EntryData.t) → list Byte.byte.
Variable completion : list Zip.Appended → list Zip.Appended.

Local Abbreviation zip :=
  (Utils.zip path_basename path_extname path_dirname path_join now tempPathOf
     attempt errorOf statSync readFile archive completion).
Local Abbreviation tempDirName := (Utils.tempDirName path_basename path_extname now).

(** The four ways the native mode can go: no temporary directory, a file
    that cannot be staged, no directory for the archive, or the call of
    the native tool. *)
Lemma zip_native_events (zipPath : string) (files : list Zip.IFile)
    (statCache : option (gmap string Zip.Stats)) (log : list (Utils.FsOp * bool)) :
  let temp := tempPathOf (tempDirName zipPath) in
  let mt := Utils.MakeTempPath (tempDirName zipPath) in
  let mk := Utils.MakePath (path_dirname zipPath) in
  let bz := Utils.BestZip "*" zipPath temp in
  let run := zip zipPath files (Some true) statCache log in
  (run = ((log ++ [(mt, false)])%list, inl (errorOf mt)))
  ∨ (∃ staging,
       MoreWords.staging_log staging
       ∧ ((∃ err, run = ((log ++ (mt, true) :: staging)%list, inl err))
          ∨ (∀ file, file ∈ files → stagedIn temp staging file)
            ∧ (run = ((log ++ (mt, true) :: staging ++ [(mk, false)])%list,
                      inl (errorOf mk))
               ∨ run = ((log ++ (mt, true) :: staging ++ [(mk, true); (bz, false)])%list,
                        inl (errorOf bz))
               ∨ run = ((log ++ (mt, true) :: staging ++ [(mk, true); (bz, true)])%list,
                        inr (Utils.ByBestzip zipPath))))).
Proof.
  intros temp mt mk bz run. subst run.
  unfold Utils.zip, Utils.archiveEffect, Utils.makeTempPathScoped,
    Utils.bestZipEffect, Utils.andThen, Utils.succeed, Utils.perform.
  fold mt. destruct (attempt log mt); cbn beta iota zeta; [| by left]. right.
  fold temp.
  destruct (all_discard_events temp files (log ++ [(mt, true)])%list)
    as (staging & Hlog & Hst & Hok).
  exists staging. split; [done |].
  destruct (Utils.all_discard _ _) as [log1 [err | []]]; cbn [fst snd] in *; subst log1;
    cbn beta iota zeta.
  - left. exists err. by rewrite <- app_assoc.
  - right. split; [by apply Hok |].
    fold mk bz.
    destruct (attempt _ mk); cbn beta iota zeta.
    + destruct (attempt _ bz); cbn beta iota zeta; [right; right | right; left];
        by rewrite <- !app_assoc.
    + left. by rewrite <- !app_assoc.
Qed.

End ZipFacts.

(** X21: unless [useNativeZip] is [true] (so also when it is left out),
    [zip] touches the file system only to make the directory of the
    archive: no temporary directory, no link, no copy, no native tool.
    When the directory cannot be made [zip] fails with that error;
    otherwise its outcome is that of [nodeZip] on the same arguments. *)
Theorem X21_zip_streams_unless_native
    (path_basename : string → string → string)
    (path_extname path_dirname : string → string)
    (path_join : string → string → string) (now : Z)
    (tempPathOf : string → string)
    (attempt : list (Utils.FsOp * bool) → Utils.FsOp → bool)
    (errorOf : Utils.FsOp → Exn)
    (statSync : string → Exn + Zip.Stats) (readFile : string → Exn + list Byte.byte)
    (archive : list (list Byte.byte * Zip.EntryData.t) → list Byte.byte)
    (completion : list Zip.Appended → list Zip.Appended)
    (zipPath : string) (files : list Zip.IFile) (useNativeZip : option bool)
    (statCache : option (gmap string Zip.Stats)) (log : list (Utils.FsOp * bool)) :
  useNativeZip ≠ Some true →
  let mk := Utils.MakePath (path_dirname zipPath) in
  let run :=
    Utils.zip path_basename path_extname path_dirname path_join now tempPathOf
      attempt errorOf statSync readFile archive completion
        zipPath files useNativeZip statCache
      log in
  fst run = (log ++ [(mk, attempt log mk)])%list
  ∧ (attempt log mk = false → snd run = inl (errorOf mk))
  ∧ (attempt log mk = true →
     snd run
     = match Zip.nodeZip statSync readFile archive completion
       zipPath files statCache with
       | inl err => inl err
       | inr (_, bytes) => inr (Utils.ByArchiver zipPath bytes)
       end).
Proof.
  intros Hmode mk run. subst run.
  assert (Utils.zip path_basename path_extname path_dirname path_join now tempPathOf
            attempt errorOf statSync readFile archive completion
              zipPath files useNativeZip
            statCache log
          = Utils.zip path_basename path_extname path_dirname path_join now tempPathOf
              attempt errorOf statSync readFile archive completion zipPath files None
              statCache log) as ->
    by (by destruct useNativeZip as [[]|]).
  unfold Utils.zip, Utils.andThen, Utils.perform. fold mk.
  destruct (attempt log mk); cbn [fst snd]; split; try done; split; try done.
  intros _. unfold Zip.nodeZip.
  destruct (Zip.appendAll _ _ _); [done |]. by destruct (Zip.readAll _ _).
Qed.

Lemma X21_zip_streams_unless_native_witness :
  Utils.zip MoreTests.basename MoreTests.extname MoreTests.dirname MoreTests.join
    1700000000000 (fun name => "/tmp/" ++ name) (fun _ _ => true)
    (fun _ => Rejected JNull) (ZipTests.statSync 0) ZipTests.readFile
    ZipTests.archive ZipWords.inQueueOrder
    "/w/.serverless/api.zip" ZipTests.files None None []
  = ([(Utils.MakePath "/w/.serverless", true)],
     inr (Utils.ByArchiver "/w/.serverless/api.zip"
            [Byte.x00; Byte.x61; Byte.x62; Byte.x63; Byte.x00; Byte.x23; Byte.x21])).
Proof.
  pose proof (X21_zip_streams_unless_native MoreTests.basename MoreTests.extname
                MoreTests.dirname MoreTests.join 1700000000000
                (fun name => "/tmp/" ++ name) (fun _ _ => true)
                (fun _ => Rejected JNull) (ZipTests.statSync 0) ZipTests.readFile
                ZipTests.archive ZipWords.inQueueOrder "/w/.serverless/api.zip"
                ZipTests.files None None [])
    as H.
  destruct H as (Hlog & _ & Hrun); [discriminate |].
  apply injective_projections; [exact Hlog | exact (Hrun eq_refl)].
Defined.

(** X22: in native mode [zip] first makes the temporary directory, named
    after the archive without its extension and the time; when that fails
    nothing else is done.  A file is copied only after the link of the
    same file to the same place has failed.  The native tool is called
    only when every file has been linked or copied to its place under the
    temporary directory, and then on ["*"] in that directory with the
    archive path as destination. *)
Theorem X22_zip_native_stages_then_zips
    (path_basename : string → string → string)
    (path_extname path_dirname : string → string)
    (path_join : string → string → string) (now : Z)
    (tempPathOf : string → string)
    (attempt : list (Utils.FsOp * bool) → Utils.FsOp → bool)
    (errorOf : Utils.FsOp → Exn)
    (statSync : string → Exn + Zip.Stats) (readFile : string → Exn + list Byte.byte)
    (archive : list (list Byte.byte * Zip.EntryData.t) → list Byte.byte)
    (completion : list Zip.Appended → list Zip.Appended)
    (zipPath : string) (files : list Zip.IFile)
    (statCache : option (gmap string Zip.Stats)) (log : list (Utils.FsOp * bool)) :
  let name := path_basename zipPath (path_extname zipPath) ++ "-" ++ pretty now in
  let temp := tempPathOf name in
  let run :=
    Utils.zip path_basename path_extname path_dirname path_join now tempPathOf
      attempt errorOf statSync readFile archive completion
        zipPath files (Some true) statCache
      log in
  ∃ ok events,
    fst run = (log ++ (Utils.MakeTempPath name, ok) :: events)%list
    ∧ (ok = false → events = [] ∧ snd run = inl (errorOf (Utils.MakeTempPath name)))
    ∧ (∀ src dest copied,
         (Utils.Copy src dest, copied) ∈ events → (Utils.Link src dest, false) ∈ events)
    ∧ (∀ source destination cwd zipped,
         (Utils.BestZip source destination cwd, zipped) ∈ events →
         source = "*" ∧ destination = zipPath ∧ cwd = temp
         ∧ ∀ file, file ∈ files → MoreWords.stagedIn path_join temp events file).
Proof.
  intros name temp run. subst run.
  assert (∀ staging tail src dest copied,
            MoreWords.staging_log staging →
            Forall (fun e => ∀ s d, e.1 ≠ Utils.Copy s d) tail →
            (Utils.Copy src dest, copied) ∈ (staging ++ tail)%list →
            (Utils.Link src dest, false) ∈ (staging ++ tail)%list) as Hcopy.
  { intros staging tail src dest copied [_ Hst] Htail [Hin | Hin]%elem_of_app.
    - apply elem_of_app. left. by apply (Hst _ _ copied).
    - rewrite Forall_forall in Htail. by destruct (Htail _ Hin src dest). }
  assert (∀ staging source destination cwd zipped,
            MoreWords.staging_log staging →
            (Utils.BestZip source destination cwd, zipped) ∉ staging) as Hnozip.
  { intros staging source destination cwd zipped [Hops _] Hin.
    rewrite Forall_forall in Hops. by apply (Hops _ Hin). }
  assert (∀ staging tail file,
            MoreWords.stagedIn path_join temp staging file →
            MoreWords.stagedIn path_join temp (staging ++ tail)%list file) as Hmore.
  { intros staging tail file [H | H]; [left | right]; apply elem_of_app; by left. }
  destruct (zip_native_events path_basename path_extname path_dirname path_join now
              tempPathOf attempt errorOf statSync readFile archive completion
                zipPath files
              statCache log)
    as [-> | (staging & Hst & [[err ->] | [Hstaged [-> | [-> | ->]]]])];
    fold name; fold temp; cbn [fst snd].
  - exists false, []. split; [done |]. split; [done |].
    split; [intros ? ? ? Hin | intros ? ? ? ? Hin]; by apply elem_of_nil in Hin.
  - exists true, staging. split; [done |]. split; [done |]. split.
    + apply Hst.
    + intros ? ? ? ? Hin. by apply Hnozip in Hin.
  - exists true, (staging ++ [(Utils.MakePath (path_dirname zipPath), false)])%list.
    split; [done |]. split; [done |]. split.
    + intros src dest copied. apply Hcopy; [done |]. by repeat constructor.
    + intros ? ? ? ? [Hin | Hin]%elem_of_app; [by apply Hnozip in Hin |].
      rewrite !elem_of_cons, elem_of_nil in Hin. by destruct Hin as [|].
  - exists true,
      (staging ++ [(Utils.MakePath (path_dirname zipPath), true);
                   (Utils.BestZip "*" zipPath temp, false)])%list.
    split; [done |]. split; [done |]. split.
    + intros src dest copied. apply Hcopy; [done |]. by repeat constructor.
    + intros ? ? ? ? [Hin | Hin]%elem_of_app; [by apply Hnozip in Hin |].
      rewrite !elem_of_cons, elem_of_nil in Hin.
      destruct Hin as [|[[= -> -> -> ->]|]]; try done.
      split; [done |]. split; [done |]. split; [done |].
      intros file Hfile. by apply Hmore, Hstaged.
  - exists true,
      (staging ++ [(Utils.MakePath (path_dirname zipPath), true);
                   (Utils.BestZip "*" zipPath temp, true)])%list.
    split; [done |]. split; [done |]. split.
    + intros src dest copied. apply Hcopy; [done |]. by repeat constructor.
    + intros ? ? ? ? [Hin | Hin]%elem_of_app; [by apply Hnozip in Hin |].
      rewrite !elem_of_cons, elem_of_nil in Hin.
      destruct Hin as [|[[= -> -> -> ->]|]]; try done.
      split; [done |]. split; [done |]. split; [done |].
      intros file Hfile. by apply Hmore, Hstaged.
Qed.

(** X23: in native mode [zip] either succeeds, and then the last thing
    it did was a successful call of the native tool, or fails, and then
    no call of the native tool has succeeded.  It never writes an archive
    through [nodeZip]: the file statuses, the status cache, the contents
    read, the archiver and the order in which its status calls complete
    play no part. *)
Theorem X23_zip_native_outcome
    (path_basename : string → string → string)
    (path_extname path_dirname : string → string)
    (path_join : string → string → string) (now : Z)
    (tempPathOf : string → string)
    (attempt : list (Utils.FsOp * bool) → Utils.FsOp → bool)
    (errorOf : Utils.FsOp → Exn)
    (statSync statSync' : string → Exn + Zip.Stats)
    (readFile readFile' : string → Exn + list Byte.byte)
    (archive archive' : list (list Byte.byte * Zip.EntryData.t) → list Byte.byte)
    (completion completion' : list Zip.Appended → list Zip.Appended)
    (zipPath : string) (files : list Zip.IFile)
    (statCache statCache' : option (gmap string Zip.Stats))
    (log : list (Utils.FsOp * bool)) :
  let temp :=
    tempPathOf (path_basename zipPath (path_extname zipPath) ++ "-" ++ pretty now) in
  let run :=
    Utils.zip path_basename path_extname path_dirname path_join now tempPathOf
      attempt errorOf statSync readFile archive completion
        zipPath files (Some true) statCache
      log in
  (∃ events,
     fst run = (log ++ events)%list
     ∧ (snd run = inr (Utils.ByBestzip zipPath)
        ∧ (∃ before, events = (before ++ [(Utils.BestZip "*" zipPath temp, true)])%list)
        ∨ (∃ err, snd run = inl err)
          ∧ ∀ source destination cwd,
              (Utils.BestZip source destination cwd, true) ∉ events))
  ∧ run
    = Utils.zip path_basename path_extname path_dirname path_join now tempPathOf
        attempt errorOf statSync' readFile' archive' completion' zipPath files (Some true)
        statCache' log.
Proof.
  intros temp run. subst run. split; [| done].
  assert (∀ staging source destination cwd zipped,
            MoreWords.staging_log staging →
            (Utils.BestZip source destination cwd, zipped) ∉ staging) as Hnozip.
  { intros staging source destination cwd zipped [Hops _] Hin.
    rewrite Forall_forall in Hops. by apply (Hops _ Hin). }
  destruct (zip_native_events path_basename path_extname path_dirname path_join now
              tempPathOf attempt errorOf statSync readFile archive completion
                zipPath files
              statCache log)
    as [-> | (staging & Hst & [[err ->] | [Hstaged [-> | [-> | ->]]]])];
    fold temp; cbn [fst snd]; eexists; (split; [reflexivity |]).
  - right. split; [by eexists |]. intros ? ? ? Hin.
    rewrite !elem_of_cons, elem_of_nil in Hin. by destruct Hin as [|].
  - right. split; [by eexists |]. intros ? ? ? [Hin | Hin]%elem_of_cons; [done |].
    by apply Hnozip in Hin.
  - right. split; [by eexists |].
    intros ? ? ? [Hin | [Hin | Hin]%elem_of_app]%elem_of_cons; [done | |].
    + by apply Hnozip in Hin.
    + rewrite !elem_of_cons, elem_of_nil in Hin. by destruct Hin as [|].
  - right. split; [by eexists |].
    intros ? ? ? [Hin | [Hin | Hin]%elem_of_app]%elem_of_cons; [done | |].
    + by apply Hnozip in Hin.
    + rewrite !elem_of_cons, elem_of_nil in Hin. by destruct Hin as [|[|]].
  - left. split; [done |].
    eexists (_ :: staging ++ [_])%list. cbn [app]. by rewrite <- app_assoc.
Qed.

(** ** [nodeZip]: statuses, failures and directories *)

Section NodeZipFacts.

Variable statSync : string → Exn + Zip.Stats.
Variable statCache : option (gmap string Zip.Stats).

(** Once a status could not be had, the rest of the list is passed over. *)
Lemma appendFile_thrown (err : Exn) (files : list Zip.IFile) :
  foldl (Zip.appendFile statSync statCache) (inl err) files = inl err.
Proof. induction files as [| file files IH]; [done | exact IH]. Qed.

(** Files that have a status never make [forEach] throw. *)
Lemma appendAll_statuses (files : list Zip.IFile) (queue : list Zip.Appended) :
  (∀ file, file ∈ files →
     ∃ stats, Zip.statOf statSync statCache (Zip.rootPath file) = inr stats) →
  ∃ queue', foldl (Zip.appendFile statSync statCache) (inr queue) files = inr queue'.
Proof.
  revert queue. induction files as [| file files IH]; intros queue Hstat.
  - by eexists.
  - destruct (Hstat file) as [stats Hfile]; [by left |].
    cbn [foldl]. unfold Zip.appendFile at 2. rewrite Hfile.
    destruct (Zip.isDirectory stats); apply IH; intros f Hf; apply Hstat; by right.
Qed.

End NodeZipFacts.

(** X24: when the status cache holds every listed path, [nodeZip] gives
    the same result whatever [fs.statSync] would answer: the cached
    statuses take precedence and the file system is not needed for them. *)
Theorem X24_nodeZip_cached_statuses
    (statSync statSync' : string → Exn + Zip.Stats)
    (readFile : string → Exn + list Byte.byte)
    (archive : list (list Byte.byte * Zip.EntryData.t) → list Byte.byte)
    (completion : list Zip.Appended → list Zip.Appended)
    (zipPath : string) (files : list Zip.IFile) (cache : gmap string Zip.Stats) :
  (∀ file, file ∈ files → is_Some (cache !! Zip.rootPath file)) →
  Zip.nodeZip statSync readFile archive completion zipPath files (Some cache)
  = Zip.nodeZip statSync' readFile archive completion zipPath files (Some cache).
Proof.
  intros Hcached. unfold Zip.nodeZip, Zip.appendAll.
  assert (∀ appended,
            foldl (Zip.appendFile statSync (Some cache)) appended files
            = foldl (Zip.appendFile statSync' (Some cache)) appended files) as ->; [| done].
  induction files as [| file files IH]; intros appended; [done |].
  cbn [foldl]. rewrite IH by (intros f Hf; apply Hcached; by right).
  f_equal. destruct appended as [err | queue]; [done |].
  destruct (Hcached file) as [stats Hfile]; [by left |].
  unfold Zip.appendFile, Zip.statOf. cbn [mbind option_bind]. by rewrite Hfile.
Qed.

Lemma X24_nodeZip_cached_statuses_witness :
  Zip.nodeZip MoreTests.statSyncMissing ZipTests.readFile
      ZipTests.archive ZipWords.inQueueOrder
    "/w/.serverless/api.zip" ZipTests.files (Some MoreTests.fullCache)
  = Zip.nodeZip (ZipTests.statSync 1800000000000) ZipTests.readFile
        ZipTests.archive ZipWords.inQueueOrder
      "/w/.serverless/api.zip" ZipTests.files (Some MoreTests.fullCache).
Proof.
  apply (X24_nodeZip_cached_statuses MoreTests.statSyncMissing
           (ZipTests.statSync 1800000000000)).
  intros file Hin. unfold ZipTests.files in Hin.
  repeat (apply elem_of_cons in Hin as [-> | Hin]; [vm_compute; eauto |]).
  by apply elem_of_nil in Hin.
Defined.

(** X25: the first listed file whose status cannot be had makes [nodeZip]
    reject with the error of that status call, whatever comes after it in
    the list and whatever the files hold: no archive is finalized. *)
Theorem X25_nodeZip_status_failure
    (statSync : string → Exn + Zip.Stats)
    (readFile : string → Exn + list Byte.byte)
    (archive : list (list Byte.byte * Zip.EntryData.t) → list Byte.byte)
    (completion : list Zip.Appended → list Zip.Appended)
    (zipPath : string) (before after : list Zip.IFile) (file : Zip.IFile)
    (statCache : option (gmap string Zip.Stats)) (err : Exn) :
  (∀ earlier, earlier ∈ before →
     ∃ stats, Zip.statOf statSync statCache (Zip.rootPath earlier) = inr stats) →
  Zip.statOf statSync statCache (Zip.rootPath file) = inl err →
  Zip.nodeZip statSync readFile archive completion
    zipPath (before ++ file :: after)%list statCache
  = inl err.
Proof.
  intros Hbefore Hfile. unfold Zip.nodeZip, Zip.appendAll.
  rewrite foldl_app.
  destruct (appendAll_statuses statSync statCache before [] Hbefore) as [queue ->].
  cbn [foldl]. unfold Zip.appendFile at 2. rewrite Hfile.
  by rewrite appendFile_thrown.
Qed.

Lemma X25_nodeZip_status_failure_witness :
  Zip.nodeZip MoreTests.statSyncMissing ZipTests.readFile
      ZipTests.archive ZipWords.inQueueOrder
    "/w/.serverless/api.zip" ZipTests.files (Some ZipTests.statCache)
  = inl (Rejected (JStr "ENOENT: no such file or directory")).
Proof.
  apply (X25_nodeZip_status_failure MoreTests.statSyncMissing ZipTests.readFile
           ZipTests.archive ZipWords.inQueueOrder "/w/.serverless/api.zip"
           [ {| Zip.rootPath := "/w/.esbuild/index.js"; Zip.localPath := "index.js" |};
             {| Zip.rootPath := "/w/node_modules"; Zip.localPath := "node_modules" |} ]
           []
           {| Zip.rootPath := "/w/run.sh"; Zip.localPath := "bin/run.sh" |}).
  - intros earlier Hin.
    repeat (apply elem_of_cons in Hin as [-> | Hin]; [vm_compute; eauto |]).
    by apply elem_of_nil in Hin.
  - vm_compute. reflexivity.
Defined.

(** X26: directories in the list change nothing.  When every listed path
    has a status, [nodeZip] gives for the list what it gives for the list
    without its directories; a directory is neither appended nor read. *)
Theorem X26_nodeZip_skips_directories
    (statSync : string → Exn + Zip.Stats)
    (readFile : string → Exn + list Byte.byte)
    (archive : list (list Byte.byte * Zip.EntryData.t) → list Byte.byte)
    (completion : list Zip.Appended → list Zip.Appended)
    (zipPath : string) (files : list Zip.IFile)
    (statCache : option (gmap string Zip.Stats)) (modeOf : string → Z) :
  (∀ file, file ∈ files →
     ZipWords.agrees statSync statCache modeOf (Zip.rootPath file)) →
  Zip.nodeZip statSync readFile archive completion zipPath files statCache
  = Zip.nodeZip statSync readFile archive completion zipPath
      (filter (ZipWords.regular modeOf) files) statCache.
Proof.
  intros Hstat. unfold Zip.nodeZip, Zip.appendAll.
  rewrite (appendAll_from statSync statCache modeOf files [] Hstat).
  rewrite (appendAll_from statSync statCache modeOf
             (filter (ZipWords.regular modeOf) files) []).
  - by rewrite list_filter_filter_l by done.
  - intros file [_ Hin]%list_elem_of_filter. by apply Hstat.
Qed.

Lemma X26_nodeZip_skips_directories_witness :
  Zip.nodeZip (ZipTests.statSync 1700000000000) ZipTests.readFile
      ZipTests.archive ZipWords.inQueueOrder
    "/w/.serverless/api.zip" ZipTests.files None
  = Zip.nodeZip (ZipTests.statSync 1700000000000) ZipTests.readFile
        ZipTests.archive ZipWords.inQueueOrder
      "/w/.serverless/api.zip"
      [ {| Zip.rootPath := "/w/.esbuild/index.js"; Zip.localPath := "index.js" |};
        {| Zip.rootPath := "/w/run.sh"; Zip.localPath := "bin/run.sh" |} ]
      None.
Proof.
  pose proof (X26_nodeZip_skips_directories (ZipTests.statSync 1700000000000)
                ZipTests.readFile ZipTests.archive ZipWords.inQueueOrder
                "/w/.serverless/api.zip" ZipTests.files None ZipTests.modeOf) as Hskip.
  replace (filter (ZipWords.regular ZipTests.modeOf) ZipTests.files)
    with [ {| Zip.rootPath := "/w/.esbuild/index.js"; Zip.localPath := "index.js" |};
           {| Zip.rootPath := "/w/run.sh"; Zip.localPath := "bin/run.sh" |} ]
    in Hskip by (vm_compute; reflexivity).
  apply Hskip.
  intros file Hin. unfold ZipTests.files in Hin.
  repeat (apply elem_of_cons in Hin as [-> | Hin];
          [eexists; (split; [vm_compute; reflexivity | reflexivity]) |]).
  by apply elem_of_nil in Hin.
Defined.
